(** * teleye: the synchronisation and live-ingestion engine

    A shallow embedding of the Python services and tasks that keep the
    search index in step with the messaging platform:

    - [services/elasticsearch.py]       (bulk upsert wrapper)
    - [services/sync_service.py]        (message normalisation, sync path)
    - [services/listener_service.py]    (listener status, message normalisation, live path)
    - [services/smart_sync_service.py]  (reconciliation and backfill)
    - [tasks/sync_tasks.py]             (explicit-window sync and its progress reports)
    - [tasks/smart_sync_tasks.py]       (semaphore-bounded fan-out over channels)
    - [main.py]                         (listener resume on start-up)

    Python code that raises is embedded in a state-and-exception monad; the
    [while] loops take fuel.  The platform, index and object-store clients
    are records of operations, as the Python functions receive them. *)

From Stdlib Require Import ZArith Lia String Ascii DecimalString SpecFloat.
From Stdlib Require Import DecimalPos DecimalZ.
From stdpp Require Import base option list gmap strings sorting.

(** ** Python values *)

Module Py.

(** [str(n)] for an [int]. *)
Definition str (z : Z) : string := NilZero.string_of_int (Z.to_int z).

(** [needle in hay] for two [str]. *)
Fixpoint contains (needle hay : string) : bool :=
  String.prefix needle hay ||
  match hay with
  | EmptyString => false
  | String _ rest => contains needle rest
  end.

(** [s.startswith(p)]. *)
Definition startswith (s p : string) : bool := String.prefix p s.

(** Truth value of a [str] and of an optional [str]. *)
Definition truthy_str (s : string) : bool :=
  match s with EmptyString => false | _ => true end.

Definition truthy_opt_str (o : option string) : bool :=
  match o with Some s => truthy_str s | None => false end.

(** [o or ""] for an optional [str]. *)
Definition or_empty (o : option string) : string :=
  match o with Some s => s | None => EmptyString end.

(** Truth value of an optional [int]: [None] and [0] are false. *)
Definition truthy_opt_int (o : option Z) : bool :=
  match o with Some z => negb (z =? 0)%Z | None => false end.

(** *** [float]: IEEE 754 binary64, as CPython has it *)

Definition prec : Z := 53.
Definition emax : Z := 1024.

(** [float(n)]: the nearest double. *)
Definition float_of_int (z : Z) : spec_float := binary_normalize prec emax z 0 false.

(** An [int] as a binary number, not rounded. *)
Definition exact (z : Z) : spec_float :=
  match z with
  | Z0 => S754_zero false
  | Zpos p => S754_finite false p 0
  | Zneg p => S754_finite true p 0
  end.

(** [a / b] on two [int]: the exact quotient of the two integers, rounded
    once to the nearest double, as CPython's [long_true_divide] does for
    operands of any size. *)
Definition truediv (a b : Z) : spec_float :=
  SFdiv prec emax (exact a) (exact b).

(** [x * y] on two [float]. *)
Definition fmul (x y : spec_float) : spec_float := SFmul prec emax x y.

(** [int(x)]: truncation towards zero of a finite [float].  On an infinity
    or a NaN CPython raises; the tasks take [int] of a count divided by the
    window size and multiplied by 100. *)
Definition int_of_float (x : spec_float) : Z :=
  match x with
  | S754_finite s m e =>
      let magnitude :=
        match e with
        | Z0 => Zpos m
        | Zpos p => (Zpos m * 2 ^ Zpos p)%Z
        | Zneg p => (Zpos m / 2 ^ Zpos p)%Z
        end in
      if s then (- magnitude)%Z else magnitude
  | _ => 0%Z
  end.

End Py.

(** ** Platform objects (Telethon) *)

Definition Bytes := list Byte.byte.

Module Tg.

(** A sender entity.  The code probes attributes with [hasattr]: a field is
    [None] when the object has no such attribute, [Some None] when the
    attribute is there and holds Python's [None]. *)
Record Entity := {
  first_name : option (option string);
  last_name : option (option string);
  title : option (option string);
  username : option (option string)
}.

Record Photo := { photo_id : Z }.

(** A [Document] carries a [mime_type]; telethon's [DocumentEmpty] has the id
    only, and reading its [mime_type] raises [AttributeError]: the field is
    [None] when the object has no such attribute. *)
Record Document := { document_id : Z; mime_type : option (option string) }.

Inductive Media :=
| MessageMediaPhoto (photo : option Photo)
| MessageMediaDocument (document : option Document)
| MessageMediaOther.

Record Message := {
  id : Z;
  sender : option Entity;
  sender_id : option Z;
  media : option Media;
  date : option Z;
  text : option string
}.

End Tg.

(** ** Canonical records (core/models.py) and index documents *)

Module Models.

Record MessageInfo := {
  channel_id : Z;
  message_id : Z;
  sender_name : string;
  time : option Z;
  text : string;
  images : list string;
  image_urls : list string;
  images_data : list Bytes;
  indexed_at : option Z
}.

End Models.

Module Es.

(** The [_source] of an indexed message: [model_dump()] without ["images_data"]. *)
Record Source := {
  channel_id : Z;
  message_id : Z;
  sender_name : string;
  time : option Z;
  text : string;
  images : list string;
  image_urls : list string;
  indexed_at : option Z
}.

(** One bulk action: [{"_index": .., "_id": .., "_source": ..}]. *)
Record Action := { index_name : string; doc_id : string; source : Source }.

End Es.

(** The ["messages"] index: document id to document. *)
Abbreviation Index := (gmap string Es.Source).

(** ** Progress reports, listener status, task queue *)

(** The [meta] of a [PROGRESS] state update. *)
Record Progress := {
  current : Z;
  total : Z;
  status : string;
  percentage : Z
}.

(** The listener status dictionary kept under [listener:status].  A field is
    [None] when the key is missing from the dictionary. *)
Record ListenerStatus := {
  is_running : option bool;
  download_images : option bool;
  monitored_channels : option nat;
  channels : option (list Z);
  started_at : option Z;
  stopped_at : option Z;
  task_id : option string;
  error : option string
}.

(** ** The world the engine acts on *)

Record World := {
  es_index : Index;
  minio_bucket : gmap string (Bytes * string);
  wall_clock : nat -> Z;
  clock_reads : nat;
  task_meta : list Progress;
  redis_reachable : bool;
  redis_status : option ListenerStatus;
  celery_ids : nat -> string;
  celery_queue : list bool
}.

Definition set_es_index (i : Index) (w : World) : World :=
  {| es_index := i; minio_bucket := minio_bucket w; wall_clock := wall_clock w;
     clock_reads := clock_reads w; task_meta := task_meta w;
     redis_reachable := redis_reachable w; redis_status := redis_status w;
     celery_ids := celery_ids w; celery_queue := celery_queue w |}.

Definition set_minio_bucket (b : gmap string (Bytes * string)) (w : World) : World :=
  {| es_index := es_index w; minio_bucket := b; wall_clock := wall_clock w;
     clock_reads := clock_reads w; task_meta := task_meta w;
     redis_reachable := redis_reachable w; redis_status := redis_status w;
     celery_ids := celery_ids w; celery_queue := celery_queue w |}.

Definition set_clock_reads (n : nat) (w : World) : World :=
  {| es_index := es_index w; minio_bucket := minio_bucket w; wall_clock := wall_clock w;
     clock_reads := n; task_meta := task_meta w;
     redis_reachable := redis_reachable w; redis_status := redis_status w;
     celery_ids := celery_ids w; celery_queue := celery_queue w |}.

Definition set_task_meta (l : list Progress) (w : World) : World :=
  {| es_index := es_index w; minio_bucket := minio_bucket w; wall_clock := wall_clock w;
     clock_reads := clock_reads w; task_meta := l;
     redis_reachable := redis_reachable w; redis_status := redis_status w;
     celery_ids := celery_ids w; celery_queue := celery_queue w |}.

Definition set_redis_status (s : option ListenerStatus) (w : World) : World :=
  {| es_index := es_index w; minio_bucket := minio_bucket w; wall_clock := wall_clock w;
     clock_reads := clock_reads w; task_meta := task_meta w;
     redis_reachable := redis_reachable w; redis_status := s;
     celery_ids := celery_ids w; celery_queue := celery_queue w |}.

Definition set_celery_queue (q : list bool) (w : World) : World :=
  {| es_index := es_index w; minio_bucket := minio_bucket w; wall_clock := wall_clock w;
     clock_reads := clock_reads w; task_meta := task_meta w;
     redis_reachable := redis_reachable w; redis_status := redis_status w;
     celery_ids := celery_ids w; celery_queue := q |}.

(** ** Effects: state, exceptions, fuel *)

Definition Exn := string.

Inductive Res (A : Type) :=
| Ok (a : A)
| Raise (e : Exn).

Arguments Ok {A} a.
Arguments Raise {A} e.

(** A computation runs on a world and returns a value or raises, leaving a
    new world; [None] means that a loop ran out of fuel. *)
Definition M (A : Type) : Type := World -> option (Res A * World).

Definition ret {A} (a : A) : M A := fun w => Some (Ok a, w).

Definition raise {A} (e : Exn) : M A := fun w => Some (Raise e, w).

Definition bind {A B} (m : M A) (k : A -> M B) : M B :=
  fun w =>
    match m w with
    | Some (Ok a, w') => k a w'
    | Some (Raise e, w') => Some (Raise e, w')
    | None => None
    end.

(** [try: body  except Exception as e: handler e]. *)
Definition try_except {A} (body : M A) (handler : Exn -> M A) : M A :=
  fun w =>
    match body w with
    | Some (Raise e, w') => handler e w'
    | r => r
    end.

(** The outcome of a call into a client. *)
Definition lift {A} (r : Res A) : M A := fun w => Some (r, w).

Definition out_of_fuel {A} : M A := fun _ => None.

Definition gets {A} (f : World -> A) : M A := fun w => Some (Ok (f w), w).

Definition modify (f : World -> World) : M unit := fun w => Some (Ok tt, f w).

Declare Scope py_scope.
Delimit Scope py_scope with py.

Notation "'let*' x ':=' m 'in' k" := (bind m (fun x => k))
  (at level 10, x name, m at level 100, k at level 200, only parsing) : py_scope.
Notation "'let*' ' p ':=' m 'in' k" := (bind m (fun p => k))
  (at level 10, p pattern, m at level 100, k at level 200, only parsing) : py_scope.

Local Open Scope py_scope.

(** [datetime.now()]: the next reading of the wall clock. *)
Definition datetime_now : M Z :=
  fun w => Some (Ok (wall_clock w (clock_reads w)), set_clock_reads (S (clock_reads w)) w).

(** [await asyncio.sleep(..)] and the [logger] calls leave the world alone. *)
Definition asyncio_sleep : M unit := ret tt.

(** ** Clients *)

Record TelegramClient := {
  start : Res unit;
  (** [get_messages(PeerChannel(c), limit=l, offset_id=o)] *)
  get_messages : Z -> Z -> Z -> Res (list Tg.Message);
  get_entity : Z -> Res Tg.Entity;
  (** [download_media(media, file=bytes)] *)
  download_media : Tg.Media -> Res (option Bytes)
}.

Record AsyncElasticsearch := {
  (** [helpers.async_bulk(es, actions, stats_only=True)] *)
  async_bulk : list Es.Action -> Index -> Res (nat * nat) * Index;
  (** [search(index="messages", body=..)] for the term [channel_id], sorted
      by [message_id] descending, [size] 1: the [_source] of the hits. *)
  search : Z -> Index -> Res (list Es.Source)
}.

Record MinIOManager := {
  endpoint : string;
  secure : bool;
  (** [client.put_object(bucket, object_name, data, length, content_type)] *)
  put_object : string -> Bytes -> string -> Res unit
}.

(** ** services/elasticsearch.py *)

Definition call_async_bulk (es_client : AsyncElasticsearch) (actions : list Es.Action)
  : M (nat * nat) :=
  fun w =>
    let '(r, i) := async_bulk es_client actions (es_index w) in
    Some (r, set_es_index i w).

Definition execute_elasticsearch_bulk_insert
  (es_client : AsyncElasticsearch) (actions : list Es.Action) : M (nat * nat) :=
  try_except
    (let* '(success, failed) := call_async_bulk es_client actions in
     ret (success, failed))
    (fun e => ret (0, length actions)).

(** ** services/minio_service.py *)

Definition bucket_name : string := "telegram-images".

Definition call_put_object (minio : MinIOManager) (object_name : string)
  (data : Bytes) (content_type : string) : M unit :=
  fun w =>
    match put_object minio object_name data content_type with
    | Ok _ =>
        Some (Ok tt, set_minio_bucket (<[object_name := (data, content_type)]> (minio_bucket w)) w)
    | Raise e => Some (Raise e, w)
    end.

Definition upload_image (minio : MinIOManager) (image_data : Bytes)
  (object_name content_type : string) : M string :=
  try_except
    (let* _ := call_put_object minio object_name image_data content_type in
     let protocol := if secure minio then "https" else "http" in
     ret (protocol +:+ "://" +:+ endpoint minio +:+ "/" +:+ bucket_name +:+ "/" +:+ object_name))
    (fun e => raise e).

(** ** Message normalisation: the parts the three processors share

    [process_message], [process_single_message] and
    [process_single_message_enhanced] repeat these blocks verbatim. *)

(** The display name read off a sender entity. *)
Definition sender_display_name (s : Tg.Entity) : string :=
  match Tg.first_name s with
  | Some first =>
      let sender_name := Py.or_empty first in
      match Tg.last_name s with
      | Some (Some last) =>
          if Py.truthy_str last then sender_name +:+ " " +:+ last else sender_name
      | _ => sender_name
      end
  | None =>
      match Tg.title s with
      | Some t => Py.or_empty t
      | None =>
          match Tg.username s with
          | Some u => Py.or_empty u
          | None => ""
          end
      end
  end.

(** [isinstance(media, (MessageMediaPhoto, MessageMediaDocument))] *)
Definition is_photo_or_document (media : Tg.Media) : bool :=
  match media with
  | Tg.MessageMediaOther => false
  | _ => true
  end.

(** File extension and content type of downloaded media. *)
Definition image_format (media : Tg.Media) : M (string * string) :=
  match media with
  | Tg.MessageMediaDocument document =>
      match document with
      | None => raise "AttributeError: 'NoneType' object has no attribute 'mime_type'"
      | Some d =>
          match Tg.mime_type d with
          | None => raise "AttributeError: 'DocumentEmpty' object has no attribute 'mime_type'"
          | Some held =>
              if Py.truthy_opt_str held then
                let mime_type := Py.or_empty held in
                if Py.contains "png" mime_type then ret ("png", "image/png")
                else if Py.contains "gif" mime_type then ret ("gif", "image/gif")
                else if Py.contains "webp" mime_type then ret ("webp", "image/webp")
                else ret ("jpg", "image/jpeg")
              else ret ("jpg", "image/jpeg")
          end
      end
  | _ => ret ("jpg", "image/jpeg")
  end.

(** Download the media and store it: the new [image_urls], [images] and
    [images_data] entries. *)
Definition fetch_and_upload (client : TelegramClient) (minio : MinIOManager)
  (channel_id msg_id : Z) (media : Tg.Media)
  : M (list string * list string * list Bytes) :=
  let* media_bytes := lift (download_media client media) in
  match media_bytes with
  | Some (b :: bs) =>
      let* '(file_extension, content_type) := image_format media in
      let object_name :=
        "channel_" +:+ Py.str channel_id +:+ "/message_" +:+ Py.str msg_id
        +:+ "." +:+ file_extension in
      let* minio_url := upload_image minio (b :: bs) object_name content_type in
      ret ([minio_url], [object_name], [b :: bs])
  | _ => ret ([], [], [])
  end.

(** Media noted without download: markers from the platform's native ids.
    The [mime_type] is read outside any inner [try]. *)
Definition media_markers (media : Tg.Media) : M (list string) :=
  match media with
  | Tg.MessageMediaPhoto (Some p) =>
      ret ["telegram_photo_" +:+ Py.str (Tg.photo_id p)]
  | Tg.MessageMediaDocument (Some d) =>
      match Tg.mime_type d with
      | None => raise "AttributeError: 'DocumentEmpty' object has no attribute 'mime_type'"
      | Some held =>
          ret (if Py.truthy_opt_str held && Py.startswith (Py.or_empty held) "image/"
               then ["telegram_document_" +:+ Py.str (Tg.document_id d)]
               else [])
      end
  | _ => ret []
  end.

(** ** services/sync_service.py *)

Definition process_message (tg_msg : Tg.Message) (channel_id : Z)
  (client : TelegramClient) (sync_images : bool)
  (minio_manager : option MinIOManager) : M (option Models.MessageInfo) :=
  try_except
    (let sender_name :=
       match Tg.sender tg_msg with
       | Some s => sender_display_name s
       | None => ""
       end in
     let* '(image_urls, images, images_data) :=
       match sync_images, Tg.media tg_msg, minio_manager with
       | true, Some media, Some minio =>
           if is_photo_or_document media then
             try_except
               (fetch_and_upload client minio channel_id (Tg.id tg_msg) media)
               (fun e => raise e)
           else ret ([], [], [])
       | false, Some media, _ =>
           if is_photo_or_document media then
             let* markers := media_markers media in
             ret (markers, [], [])
           else ret ([], [], [])
       | _, _, _ => ret ([], [], [])
       end in
     let* now := datetime_now in
     ret (Some {| Models.channel_id := channel_id;
                  Models.message_id := Tg.id tg_msg;
                  Models.sender_name := sender_name;
                  Models.time := Tg.date tg_msg;
                  Models.text := Py.or_empty (Tg.text tg_msg);
                  Models.images := images;
                  Models.image_urls := image_urls;
                  Models.images_data := if sync_images then images_data else [];
                  Models.indexed_at := Some now |}))
    (fun e => ret None).

(** ** services/listener_service.py *)

Definition redis_get : M (option ListenerStatus) :=
  fun w =>
    if redis_reachable w then Some (Ok (redis_status w), w)
    else Some (Raise "ConnectionError", w).

Definition redis_set (s : ListenerStatus) : M unit :=
  fun w =>
    if redis_reachable w then Some (Ok tt, set_redis_status (Some s) w)
    else Some (Raise "ConnectionError", w).

Definition get_listener_status : M ListenerStatus :=
  try_except
    (let* status_data := redis_get in
     match status_data with
     | Some s => ret s
     | None =>
         ret {| is_running := Some false; download_images := Some true;
                monitored_channels := Some 0; channels := Some [];
                started_at := None; stopped_at := None; task_id := None;
                error := None |}
     end)
    (fun e =>
       ret {| is_running := Some false; download_images := None;
              monitored_channels := None; channels := None;
              started_at := None; stopped_at := None; task_id := None;
              error := Some e |}).

Definition set_listener_status (s : ListenerStatus) : M unit :=
  try_except (redis_set s) (fun e => ret tt).

Definition process_single_message_enhanced (message : Tg.Message) (channel_id : Z)
  (client : TelegramClient) (download_images : bool)
  (minio_manager : option MinIOManager) : M (option Models.MessageInfo) :=
  try_except
    (let* sender_name :=
       try_except
         (match Tg.sender message with
          | Some s => ret (sender_display_name s)
          | None =>
              match Tg.sender_id message with
              | Some sid =>
                  if Py.truthy_opt_int (Some sid) then
                    try_except
                      (let* sender := lift (get_entity client sid) in
                       ret (sender_display_name sender))
                      (fun entity_error =>
                         ret (if Py.truthy_opt_int (Some sid)
                              then "User_" +:+ Py.str sid
                              else "Unknown"))
                  else ret "Unknown"
              | None => ret "Unknown"
              end
          end)
         (fun sender_error => ret "Unknown") in
     let* '(image_urls, images) :=
       match download_images, Tg.media message, minio_manager with
       | true, Some media, Some minio =>
           if is_photo_or_document media then
             try_except
               (let* '(urls, names, _) :=
                  fetch_and_upload client minio channel_id (Tg.id message) media in
                ret (urls, names))
               (fun e => ret ([], []))
           else ret ([], [])
       | _, Some media, _ =>
           if is_photo_or_document media then
             let* markers := media_markers media in
             ret (markers, [])
           else ret ([], [])
       | _, None, _ => ret ([], [])
       end in
     let* now := datetime_now in
     ret (Some {| Models.channel_id := channel_id;
                  Models.message_id := Tg.id message;
                  Models.sender_name := sender_name;
                  Models.time := Tg.date message;
                  Models.text := Py.or_empty (Tg.text message);
                  Models.images := images;
                  Models.image_urls := image_urls;
                  Models.images_data := [];
                  Models.indexed_at := Some now |}))
    (fun e => ret None).

(** ** services/smart_sync_service.py *)

Definition get_last_message_id_telegram (telethon_client : TelegramClient)
  (channel_id : Z) : M (option Z) :=
  try_except
    (let* latest_messages := lift (get_messages telethon_client channel_id 1 0) in
     match latest_messages with
     | [] => ret None
     | m :: _ => ret (Some (Tg.id m))
     end)
    (fun e => ret None).

Definition call_search (es_client : AsyncElasticsearch) (channel_id : Z)
  : M (list Es.Source) :=
  fun w => Some (search es_client channel_id (es_index w), w).

Definition get_last_message_id_elasticsearch (es_client : AsyncElasticsearch)
  (channel_id : Z) : M (option Z) :=
  try_except
    (let* hits := call_search es_client channel_id in
     match hits with
     | h :: _ => ret (Some (Es.message_id h))
     | [] => ret None
     end)
    (fun e => ret None).

(** The three accumulators of a sync run. *)
Record Tally := {
  processed_messages : list Models.MessageInfo;
  images_downloaded : nat;
  images_failed : nat
}.

Definition empty_tally : Tally :=
  {| processed_messages := []; images_downloaded := 0; images_failed := 0 |}.

(** [processed_messages.append(message_info)] and the image count. *)
Definition record_message (sync_images : bool) (message_info : Models.MessageInfo)
  (t : Tally) : Tally :=
  {| processed_messages := processed_messages t ++ [message_info];
     images_downloaded :=
       match sync_images, Models.image_urls message_info with
       | true, _ :: _ => images_downloaded t + length (Models.image_urls message_info)
       | _, _ => images_downloaded t
       end;
     images_failed := images_failed t |}.

(** The [except] arm around one message: [if sync_images: images_failed += 1]. *)
Definition record_failure (sync_images : bool) (t : Tally) : Tally :=
  {| processed_messages := processed_messages t;
     images_downloaded := images_downloaded t;
     images_failed := if sync_images then S (images_failed t) else images_failed t |}.

(** [message.model_dump()] with ["images_data"] popped. *)
Definition model_dump (message : Models.MessageInfo) : Es.Source :=
  {| Es.channel_id := Models.channel_id message;
     Es.message_id := Models.message_id message;
     Es.sender_name := Models.sender_name message;
     Es.time := Models.time message;
     Es.text := Models.text message;
     Es.images := Models.images message;
     Es.image_urls := Models.image_urls message;
     Es.indexed_at := Models.indexed_at message |}.

(** The bulk action of one record; its [_id] is ["<channel_id>_<message_id>"]. *)
Definition bulk_action (message : Models.MessageInfo) : Es.Action :=
  {| Es.index_name := "messages";
     Es.doc_id := Py.str (Models.channel_id message) +:+ "_"
                  +:+ Py.str (Models.message_id message);
     Es.source := model_dump message |}.

(** The counts [sync_missing_messages] returns. *)
Module Stats.

Record t := {
  messages_processed : nat;
  images_downloaded : nat;
  images_failed : nat;
  elasticsearch_success : nat;
  elasticsearch_failed : nat
}.

End Stats.

Section sync_missing_messages.

Variable telethon_client : TelegramClient.
Variable es_client : AsyncElasticsearch.
Variable channel_id : Z.
Variable after_message_id : Z.
Variable sync_images : bool.
Variable minio_manager : option MinIOManager.

(** The body of [for tg_msg in telegram_messages] below the cutoff test. *)
Definition backfill_message (tg_msg : Tg.Message) (t : Tally) : M Tally :=
  try_except
    (let* message_info :=
       process_message tg_msg channel_id telethon_client sync_images minio_manager in
     match message_info with
     | Some mi => ret (record_message sync_images mi t)
     | None => ret t
     end)
    (fun e => ret (record_failure sync_images t)).

(** [for tg_msg in telegram_messages]: the flag is [found_cutoff]. *)
Fixpoint backfill_page (telegram_messages : list Tg.Message) (t : Tally)
  : M (bool * Tally) :=
  match telegram_messages with
  | [] => ret (false, t)
  | tg_msg :: rest =>
      if (Tg.id tg_msg <=? after_message_id)%Z then ret (true, t)
      else
        let* t' := backfill_message tg_msg t in
        backfill_page rest t'
  end.

(** [while not found_cutoff]. *)
Fixpoint backfill_loop (fuel : nat) (offset_id : Z) (t : Tally) : M Tally :=
  match fuel with
  | O => out_of_fuel
  | S fuel' =>
      let* telegram_messages :=
        lift (get_messages telethon_client channel_id 100 offset_id) in
      match last telegram_messages with
      | None => ret t
      | Some oldest =>
          let* '(found_cutoff, t') := backfill_page telegram_messages t in
          let* _ := asyncio_sleep in
          if found_cutoff : bool then ret t'
          else backfill_loop fuel' (Tg.id oldest) t'
      end
  end.

(** The part below the loop: one bulk insert of the processed records, and
    the counts. *)
Definition store_and_count (t : Tally) : M Stats.t :=
  let* '(elasticsearch_success, elasticsearch_failed) :=
    match processed_messages t with
    | [] => ret (0, 0)
    | _ :: _ =>
        execute_elasticsearch_bulk_insert es_client
          (map bulk_action (processed_messages t))
    end in
  ret {| Stats.messages_processed := length (processed_messages t);
         Stats.images_downloaded := images_downloaded t;
         Stats.images_failed := images_failed t;
         Stats.elasticsearch_success := elasticsearch_success;
         Stats.elasticsearch_failed := elasticsearch_failed |}.

Definition sync_missing_messages (fuel : nat) : M Stats.t :=
  try_except
    (let* t := backfill_loop fuel 0 empty_tally in
     store_and_count t)
    (fun e => raise e).

End sync_missing_messages.

(** The result dictionary of [smart_sync_channel]; a count is [None] when
    the dictionary has no such key. *)
Module Outcome.

Inductive action := skip | full_sync | incremental_sync | error.

Record t := {
  channel_id : Z;
  action_taken : action;
  reason : string;
  success : bool;
  messages_processed : option nat;
  images_downloaded : option nat;
  images_failed : option nat;
  elasticsearch_success : option nat;
  elasticsearch_failed : option nat
}.

(** [{"channel_id": .., "action": .., "reason": .., "success": ..}] *)
Definition plain (c : Z) (a : action) (r : string) (ok : bool) : t :=
  {| channel_id := c; action_taken := a; reason := r; success := ok;
     messages_processed := None; images_downloaded := None; images_failed := None;
     elasticsearch_success := None; elasticsearch_failed := None |}.

(** The same with ["messages_processed": 0]. *)
Definition nothing_processed (c : Z) (a : action) (r : string) (ok : bool) : t :=
  {| channel_id := c; action_taken := a; reason := r; success := ok;
     messages_processed := Some 0; images_downloaded := None; images_failed := None;
     elasticsearch_success := None; elasticsearch_failed := None |}.

(** The same with [**sync_result]. *)
Definition with_stats (c : Z) (a : action) (r : string) (ok : bool) (s : Stats.t) : t :=
  {| channel_id := c; action_taken := a; reason := r; success := ok;
     messages_processed := Some (Stats.messages_processed s);
     images_downloaded := Some (Stats.images_downloaded s);
     images_failed := Some (Stats.images_failed s);
     elasticsearch_success := Some (Stats.elasticsearch_success s);
     elasticsearch_failed := Some (Stats.elasticsearch_failed s) |}.

End Outcome.

(** [smart_sync_channel]; [None] is Python's implicit [return None] when no
    branch is taken. *)
Definition smart_sync_channel (fuel : nat) (channel_id : Z)
  (telethon_client : TelegramClient) (es_client : AsyncElasticsearch)
  (sync_images : bool) (minio_manager : option MinIOManager)
  : M (option Outcome.t) :=
  try_except
    (let* tg_last_id := get_last_message_id_telegram telethon_client channel_id in
     let* es_last_id := get_last_message_id_elasticsearch es_client channel_id in
     match tg_last_id with
     | None =>
         ret (Some (Outcome.plain channel_id Outcome.skip
                      "Channel not accessible on Telegram" false))
     | Some tg_last =>
         match es_last_id with
         | None =>
             let* sync_result :=
               sync_missing_messages telethon_client es_client channel_id 0
                 sync_images minio_manager fuel in
             ret (Some (Outcome.with_stats channel_id Outcome.full_sync
                          "No data in Elasticsearch" true sync_result))
         | Some es_last =>
             if (tg_last =? es_last)%Z then
               ret (Some (Outcome.nothing_processed channel_id Outcome.skip
                            "Last message IDs are equal" true))
             else if (tg_last >? es_last)%Z then
               let* sync_result :=
                 sync_missing_messages telethon_client es_client channel_id es_last
                   sync_images minio_manager fuel in
               ret (Some (Outcome.with_stats channel_id Outcome.incremental_sync
                            ("Synced messages from " +:+ Py.str (es_last + 1)
                             +:+ " to " +:+ Py.str tg_last)
                            true sync_result))
             else if (es_last >? tg_last)%Z then
               ret (Some (Outcome.nothing_processed channel_id Outcome.skip
                            "Elasticsearch has higher message ID than Telegram" true))
             else ret None
         end
     end)
    (fun e => ret (Some (Outcome.plain channel_id Outcome.error e false))).

(** ** tasks/sync_tasks.py *)

(** The [meta] dictionary both task classes build in [update_progress]:
    ["percentage": int((current / total) * 100) if total > 0 else 0]. *)
Definition progress_meta (current total : Z) (status : string) : Progress :=
  {| current := current;
     total := total;
     status := status;
     percentage :=
       if (total >? 0)%Z
       then Py.int_of_float (Py.fmul (Py.truediv current total) (Py.float_of_int 100))
       else 0%Z |}.

Module SyncTask.

(** [self.update_state(state="PROGRESS", meta=..)] *)
Definition update_progress (current total : Z) (status : string) : M unit :=
  modify (fun w => set_task_meta (task_meta w ++ [progress_meta current total status]) w).

End SyncTask.

(** The result dictionary of [sync_channel_messages_task]. *)
Module SyncResult.

Record t := {
  channel_id : Z;
  sync_chat : bool;
  sync_images : bool;
  messages_processed : nat;
  chat_messages_stored : nat;
  images_downloaded : nat;
  images_failed : nat;
  elasticsearch_success : nat;
  elasticsearch_failed : nat;
  has_more : bool;
  task_id : string
}.

End SyncResult.

Section sync_channel_messages_task.

Variable request_id : string.
Variable telethon_client : TelegramClient.
Variable es_client : AsyncElasticsearch.
Variable minio : MinIOManager.
Variable channel_id : Z.
Variable sync_chat : bool.
Variable sync_images : bool.
Variable size : Z.
Variable offset : Z.
Variable batch_size : Z.

Definition task_minio_manager : option MinIOManager :=
  if sync_images then Some minio else None.

(** [len(processed_messages)] *)
Definition processed_count (t : Tally) : Z := Z.of_nat (length (processed_messages t)).

(** The [try] block around one message of a batch. *)
Definition window_message (tg_msg : Tg.Message) (t : Tally) : M Tally :=
  try_except
    (let* message_info :=
       process_message tg_msg channel_id telethon_client sync_images task_minio_manager in
     let t' :=
       match message_info with
       | Some mi => record_message sync_images mi t
       | None => t
       end in
     let current_progress := processed_count t' in
     let* _ :=
       SyncTask.update_progress current_progress size
         ("Processed " +:+ Py.str current_progress +:+ "/" +:+ Py.str size +:+ " messages") in
     ret t')
    (fun e => ret (record_failure sync_images t)).

(** [for tg_msg in telegram_messages], left early once [size] is reached. *)
Fixpoint window_batch (telegram_messages : list Tg.Message) (t : Tally) : M Tally :=
  match telegram_messages with
  | [] => ret t
  | tg_msg :: rest =>
      if (processed_count t >=? size)%Z then ret t
      else
        let* t' := window_message tg_msg t in
        window_batch rest t'
  end.

(** [while len(processed_messages) < size]. *)
Fixpoint window_loop (fuel : nat) (current_offset : Z) (t : Tally) : M Tally :=
  match fuel with
  | O => out_of_fuel
  | S fuel' =>
      if (processed_count t <? size)%Z then
        let messages_to_fetch := Z.min batch_size (size - processed_count t) in
        let* telegram_messages :=
          lift (get_messages telethon_client channel_id messages_to_fetch current_offset) in
        match last telegram_messages with
        | None => ret t
        | Some oldest =>
            let* t' := window_batch telegram_messages t in
            let* _ := asyncio_sleep in
            if (Z.of_nat (length telegram_messages) <? messages_to_fetch)%Z then ret t'
            else window_loop fuel' (Tg.id oldest) t'
        end
      else ret t
  end.

Definition run_sync (fuel : nat) : M SyncResult.t :=
  let* _ := lift (start telethon_client) in
  if negb sync_chat && negb sync_images then
    raise "At least one of sync_chat or sync_images must be True"
  else
    let* _ :=
      SyncTask.update_progress 0 size ("Starting sync for channel " +:+ Py.str channel_id) in
    let* current_offset :=
      if (offset >? 0)%Z then
        let* skip_messages := lift (get_messages telethon_client channel_id offset 0) in
        let* _ :=
          SyncTask.update_progress 0 size ("Skipped " +:+ Py.str offset +:+ " messages") in
        ret (match last skip_messages with
             | Some oldest => Tg.id oldest
             | None => 0%Z
             end)
      else ret 0%Z in
    let* t := window_loop fuel current_offset empty_tally in
    let* '(elasticsearch_success, elasticsearch_failed) :=
      match sync_chat, processed_messages t with
      | true, _ :: _ =>
          execute_elasticsearch_bulk_insert es_client
            (map bulk_action (processed_messages t))
      | _, _ => ret (0, 0)
      end in
    let* _ :=
      SyncTask.update_progress (processed_count t) size "Sync completed successfully" in
    ret {| SyncResult.channel_id := channel_id;
           SyncResult.sync_chat := sync_chat;
           SyncResult.sync_images := sync_images;
           SyncResult.messages_processed := length (processed_messages t);
           SyncResult.chat_messages_stored := if sync_chat then elasticsearch_success else 0;
           SyncResult.images_downloaded := if sync_images then images_downloaded t else 0;
           SyncResult.images_failed := if sync_images then images_failed t else 0;
           SyncResult.elasticsearch_success := elasticsearch_success;
           SyncResult.elasticsearch_failed := elasticsearch_failed;
           SyncResult.has_more := (processed_count t =? size)%Z;
           SyncResult.task_id := request_id |}.

Definition sync_channel_messages_task (fuel : nat) : M SyncResult.t :=
  try_except (run_sync fuel) (fun e => raise e).

End sync_channel_messages_task.

(** ** tasks/smart_sync_tasks.py *)

Module SmartSyncTask.

Definition update_progress (current total : Z) (status : string) : M unit :=
  modify (fun w => set_task_meta (task_meta w ++ [progress_meta current total status]) w).

End SmartSyncTask.

(** *** The fan-out under [asyncio.Semaphore(max_parallel)]

    Every channel is wrapped in [process_channel_with_semaphore]: the unit
    waits for the semaphore, runs [smart_sync_channel] while it holds it, and
    gives it back when [async with] is left.  The event loop interleaves the
    units; a step of the pool is one unit entering or leaving [async with],
    or the [as_completed] loop collecting one finished unit. *)

Inductive Phase := Queued | Running | Finished.

Record Pool := {
  semaphore_value : nat;
  units : list Phase;
  completed : nat;
  reports : list Progress
}.

(** The pool when all the tasks have been created and none has run. *)
Definition pool_start (max_parallel : nat) (total_channels : nat) : Pool :=
  {| semaphore_value := max_parallel;
     units := replicate total_channels Queued;
     completed := 0;
     reports := [progress_meta 0 (Z.of_nat total_channels)
                   ("Processing " +:+ Py.str (Z.of_nat total_channels) +:+ " channels")] |}.

Definition count_phase (ph : Phase) (l : list Phase) : nat :=
  length (List.filter (fun x => match x, ph with
                                | Queued, Queued | Running, Running | Finished, Finished => true
                                | _, _ => false
                                end) l).

(** Units inside [async with semaphore]. *)
Definition running (p : Pool) : nat := count_phase Running (units p).

Inductive pool_step : Pool -> Pool -> Prop :=
| step_acquire p i v :
    units p !! i = Some Queued ->
    semaphore_value p = S v ->
    pool_step p {| semaphore_value := v;
                   units := <[i := Running]> (units p);
                   completed := completed p;
                   reports := reports p |}
| step_release p i :
    units p !! i = Some Running ->
    pool_step p {| semaphore_value := S (semaphore_value p);
                   units := <[i := Finished]> (units p);
                   completed := completed p;
                   reports := reports p |}
| step_collect p :
    completed p < count_phase Finished (units p) ->
    pool_step p {| semaphore_value := semaphore_value p;
                   units := units p;
                   completed := S (completed p);
                   reports :=
                     reports p ++
                     [progress_meta (Z.of_nat (S (completed p)))
                        (Z.of_nat (length (units p)))
                        ("Completed " +:+ Py.str (Z.of_nat (S (completed p))) +:+ "/"
                         +:+ Py.str (Z.of_nat (length (units p))) +:+ " channels")] |}.

Inductive pool_reachable (max_parallel total_channels : nat) : Pool -> Prop :=
| reach_start : pool_reachable max_parallel total_channels (pool_start max_parallel total_channels)
| reach_step p q :
    pool_reachable max_parallel total_channels p ->
    pool_step p q ->
    pool_reachable max_parallel total_channels q.

(** ** main.py *)

(** [start_listener_task.delay(download_images=..)]: the task is queued on
    the broker (the same Redis) and its id is returned. *)
Definition start_listener_task_delay (download_images : bool) : M string :=
  fun w =>
    if redis_reachable w then
      Some (Ok (celery_ids w (length (celery_queue w))),
            set_celery_queue (celery_queue w ++ [download_images]) w)
    else Some (Raise "OperationalError", w).

(** [status.update({"task_id": .., "started_at": ..})] *)
Definition status_update (status : ListenerStatus) (new_task_id : string) (now : Z)
  : ListenerStatus :=
  {| is_running := is_running status;
     download_images := download_images status;
     monitored_channels := monitored_channels status;
     channels := channels status;
     started_at := Some now;
     stopped_at := stopped_at status;
     task_id := Some new_task_id;
     error := error status |}.

Definition resume_listener_if_needed : M unit :=
  let* status := get_listener_status in
  if default true (is_running status) then
    let download_images := default true (download_images status) in
    let* celery_task_id := start_listener_task_delay download_images in
    let* now := datetime_now in
    try_except
      (redis_set (status_update status celery_task_id now))
      (fun e => ret tt)
  else ret tt.

(** ** The platform and the index node behind the clients

    The clients above are interfaces; these are the collaborators of the
    external contracts: a platform that keeps, per channel, its messages
    newest first and serves [get_messages] pages from them, and an index
    node whose bulk operation upserts every action under its [_id]. *)

(** [offset_id]: only messages older than that id are served; [0] means
    from the newest. *)
Definition older_than (offset_id : Z) (m : Tg.Message) : bool :=
  (offset_id =? 0)%Z || (Tg.id m <? offset_id)%Z.

Definition history_page (history : list Tg.Message) (limit offset_id : Z)
  : list Tg.Message :=
  take (Z.to_nat limit) (List.filter (older_than offset_id) history).

Record Platform := {
  chats : gmap Z (list Tg.Message);
  peers : gmap Z Tg.Entity;
  files : Tg.Media -> Res (option Bytes)
}.

Definition telethon_of (p : Platform) : TelegramClient :=
  {| start := Ok tt;
     get_messages := fun c limit offset_id =>
       match chats p !! c with
       | Some history => Ok (history_page history limit offset_id)
       | None => Raise "ChannelInvalidError"
       end;
     get_entity := fun i =>
       match peers p !! i with
       | Some e => Ok e
       | None => Raise "ValueError: could not find the input entity"
       end;
     download_media := files p |}.

(** Message ids of a channel are positive and strictly decreasing from the
    newest message on. *)
Fixpoint below (bound : Z) (history : list Tg.Message) : bool :=
  match history with
  | [] => true
  | m :: rest => (0 <? Tg.id m)%Z && (Tg.id m <? bound)%Z && below (Tg.id m) rest
  end.

Definition newest_first (history : list Tg.Message) : bool :=
  match history with
  | [] => true
  | m :: rest => (0 <? Tg.id m)%Z && below (Tg.id m) rest
  end.

(** [async_bulk] on a healthy node: every action is upserted. *)
Definition upsert (i : Index) (a : Es.Action) : Index :=
  <[Es.doc_id a := Es.source a]> i.

Definition newer_hit (d : Es.Source) (best : option Es.Source) : option Es.Source :=
  match best with
  | None => Some d
  | Some b => if (Es.message_id b <? Es.message_id d)%Z then Some d else Some b
  end.

Definition es_node : AsyncElasticsearch :=
  {| async_bulk := fun actions i => (Ok (length actions, 0), foldl upsert i actions);
     search := fun c i =>
       Ok (option_list
             (map_fold (fun _ d best =>
                          if (Es.channel_id d =? c)%Z then newer_hit d best else best)
                       None i)) |}.

(** A node that cannot be reached. *)
Definition es_unreachable : AsyncElasticsearch :=
  {| async_bulk := fun _ i => (Raise "ConnectionError", i);
     search := fun _ _ => Raise "ConnectionError" |}.

(** Two indexes hold the same documents up to their [indexed_at] stamps. *)
Definition same_record (a b : Es.Source) : Prop :=
  Es.channel_id a = Es.channel_id b /\
  Es.message_id a = Es.message_id b /\
  Es.sender_name a = Es.sender_name b /\
  Es.time a = Es.time b /\
  Es.text a = Es.text b /\
  Es.images a = Es.images b /\
  Es.image_urls a = Es.image_urls b.

Definition same_content (i j : Index) : Prop :=
  forall k, option_Forall2 same_record (i !! k) (j !! k).

(** ** Sample inputs *)

Definition plain_message (i : Z) : Tg.Message :=
  {| Tg.id := i; Tg.sender := None; Tg.sender_id := None; Tg.media := None;
     Tg.date := Some i; Tg.text := Some "hello" |}.

Definition photo_message (i : Z) : Tg.Message :=
  {| Tg.id := i; Tg.sender := None; Tg.sender_id := None;
     Tg.media := Some (Tg.MessageMediaPhoto (Some {| Tg.photo_id := i |}));
     Tg.date := Some i; Tg.text := None |}.

(** Messages [n], [n-1], .., [1], newest first. *)
Fixpoint countdown (n : nat) : list Tg.Message :=
  match n with
  | O => []
  | S k => plain_message (Z.of_nat n) :: countdown k
  end.

(** A platform with one channel and nothing to download. *)
Definition one_channel (c : Z) (history : list Tg.Message) : Platform :=
  {| chats := {[ c := history ]};
     peers := ∅;
     files := fun _ => Raise "FloodWaitError" |}.

Definition sample_minio : MinIOManager :=
  {| endpoint := "minio:9000"; secure := false; put_object := fun _ _ _ => Ok tt |}.

Definition blank_world : World :=
  {| es_index := ∅;
     minio_bucket := ∅;
     wall_clock := fun n => Z.of_nat n;
     clock_reads := 0;
     task_meta := [];
     redis_reachable := true;
     redis_status := None;
     celery_ids := fun n => "task-" +:+ Py.str (Z.of_nat n);
     celery_queue := [] |}.

(** The world a computation leaves, and its result. *)
Definition world_after {A} (m : M A) (w : World) : World :=
  match m w with
  | Some (_, w') => w'
  | None => w
  end.

Definition result_of {A} (m : M A) (w : World) : option (Res A) :=
  match m w with
  | Some (r, _) => Some r
  | None => None
  end.

(** ** tasks/listener_tasks.py: the statuses the listener persists *)

(** Written by [start_listener_task] once the channels are discovered. *)
Definition started_status (download_images : bool) (channels : list Z) (now : Z)
  (task_id : string) : ListenerStatus :=
  {| is_running := Some true; download_images := Some download_images;
     monitored_channels := Some (length channels); channels := Some channels;
     started_at := Some now; stopped_at := None; task_id := Some task_id;
     error := None |}.

(** Written by [ListenerTask.on_failure]. *)
Definition failed_status (exc : string) (now : Z) : ListenerStatus :=
  {| is_running := Some false; download_images := Some false;
     monitored_channels := Some 0; channels := Some [];
     started_at := None; stopped_at := Some now; task_id := None;
     error := Some exc |}.

(** Written by [stop_listener_task]. *)
Definition stopped_status (status : ListenerStatus) (now : Z) : ListenerStatus :=
  {| is_running := Some false;
     download_images := Some (default true (download_images status));
     monitored_channels := Some 0; channels := Some [];
     started_at := None; stopped_at := Some now; task_id := None;
     error := None |}.

(** What the status store shows at start-up: the persisted [is_running]
    flag, when the store answers and holds a status. *)
Definition persisted_is_running (w : World) : option bool :=
  if redis_reachable w then
    match redis_status w with
    | Some status => is_running status
    | None => None
    end
  else None.

(** Every persisted status carries the [is_running] key. *)
Definition status_well_formed (w : World) : Prop :=
  forall status, redis_status w = Some status -> is_Some (is_running status).

(** ** Vocabulary of the backfill properties *)

(** The messages of a channel on the platform ([[]] when it has none or
    cannot be reached). *)
Definition history_of (p : Platform) (c : Z) : list Tg.Message :=
  default [] (chats p !! c).

Definition newer_than (cutoff : Z) (m : Tg.Message) : bool :=
  (cutoff <? Tg.id m)%Z.

(** The messages in front of the first one at or below the cutoff. *)
Fixpoint newer_prefix (cutoff : Z) (l : list Tg.Message) : list Tg.Message :=
  match l with
  | [] => []
  | m :: rest => if newer_than cutoff m then m :: newer_prefix cutoff rest else []
  end.

(** The per-message body of the backfill loop, run on a list of messages in
    order. *)
Fixpoint backfill_messages (telethon_client : TelegramClient) (channel_id : Z)
  (sync_images : bool) (minio_manager : option MinIOManager)
  (l : list Tg.Message) (t : Tally) : M Tally :=
  match l with
  | [] => ret t
  | tg_msg :: rest =>
      let* t' := backfill_message telethon_client channel_id sync_images minio_manager
                   tg_msg t in
      backfill_messages telethon_client channel_id sync_images minio_manager rest t'
  end.

(** Every message of [l] is normalised into a record, whatever the world. *)
Definition always_normalised (telethon_client : TelegramClient) (channel_id : Z)
  (sync_images : bool) (minio_manager : option MinIOManager)
  (l : list Tg.Message) : Prop :=
  forall m, In m l ->
    forall w, exists info w',
      process_message m channel_id telethon_client sync_images minio_manager w
      = Some (Ok (Some info), w').

(** ** Vocabulary of the idempotence property *)

(** Two records that differ at most in their [indexed_at] stamp. *)
Definition same_info (a b : Models.MessageInfo) : Prop :=
  same_record (model_dump a) (model_dump b).

Definition same_tally (t u : Tally) : Prop :=
  Forall2 same_info (processed_messages t) (processed_messages u)
  /\ images_downloaded t = images_downloaded u
  /\ images_failed t = images_failed u.

Definition same_action (a b : Es.Action) : Prop :=
  Es.doc_id a = Es.doc_id b /\ same_record (Es.source a) (Es.source b).

(** Two runs of a computation that end alike: both return, with results
    related by [R] and the index as they found it; or both raise; or both
    run out of fuel. *)
Definition ran_alike {A} (R : A -> A -> Prop) (w1 w2 : World)
  (x y : option (Res A * World)) : Prop :=
  match x, y with
  | Some (Ok a, w1'), Some (Ok b, w2') =>
      R a b /\ es_index w1' = es_index w1 /\ es_index w2' = es_index w2
  | Some (Raise _, _), Some (Raise _, _) => True
  | None, None => True
  | _, _ => False
  end.

(** The document the last action for id [k] carries, if any. *)
Fixpoint latest_action (k : string) (actions : list Es.Action) : option Es.Source :=
  match actions with
  | [] => None
  | a :: rest =>
      match latest_action k rest with
      | Some s => Some s
      | None => if decide (Es.doc_id a = k) then Some (Es.source a) else None
      end
  end.

(** The world after the first and after the second of two backfills of a
    one-message channel from cutoff 0. *)
Definition once_backfilled : World :=
  world_after
    (sync_missing_messages (telethon_of (one_channel 5 (countdown 1))) es_node 5 0
       false None 2)
    blank_world.

Definition twice_backfilled : World :=
  world_after
    (sync_missing_messages (telethon_of (one_channel 5 (countdown 1))) es_node 5 0
       false None 2)
    once_backfilled.

(** A computation that always returns: no exception leaves it and it needs
    no fuel. *)
Definition returns {A} (m : M A) : Prop :=
  forall w, exists a w', m w = Some (Ok a, w').

(** ** tasks/listener_tasks.py and routers/listener_router.py: start and stop *)

(** [ListenerTask.on_failure]: the failure is persisted as a stopped status. *)
Definition on_failure (exc : string) : M unit :=
  let* now := datetime_now in
  set_listener_status (failed_status exc now).

(** [stop_listener_task]: the ["status"] and ["message"] of its result. *)
Definition stop_listener_task : M (string * string) :=
  try_except
    (let* status := get_listener_status in
     if negb (default false (is_running status)) then
       ret ("not_running", "Listener is not running")
     else
       let* now := datetime_now in
       let* _ := set_listener_status (stopped_status status now) in
       ret ("stopping", "Listener stop requested"))
    (fun e => raise e).

(** The [TaskResponse] of the [/start] endpoint. *)
Record TaskResponse := {
  response_task_id : string;
  response_status : string;
  response_message : string
}.

(** [str(b)] for a [bool]. *)
Definition str_of_bool (b : bool) : string := if b then "True" else "False".

(** [start_listener] of the router; the [HTTPException] it raises on an
    error carries the text of the error. *)
Definition start_listener (download_images : bool) : M TaskResponse :=
  try_except
    (let* status := get_listener_status in
     if default false (is_running status) then
       ret {| response_task_id := default "unknown" (task_id status);
              response_status := "already_running";
              response_message := "Listener is already running" |}
     else
       let* new_task_id := start_listener_task_delay download_images in
       ret {| response_task_id := new_task_id;
              response_status := "starting";
              response_message :=
                "Listener is starting (download_images="
                +:+ str_of_bool download_images +:+ ")" |})
    (fun e => raise ("Failed to start listener: " +:+ e)).

(** [store_messages_elasticsearch] of the listener service, on the client
    it creates. *)
Definition store_messages_elasticsearch (es_client : AsyncElasticsearch)
  (messages : list Models.MessageInfo) : M (nat * nat) :=
  try_except
    (let* '(success, failed) :=
       execute_elasticsearch_bulk_insert es_client (map bulk_action messages) in
     ret (success, failed))
    (fun e => ret (0, length messages)).

(** ** Vocabulary of the further properties *)

(** A string without the separator of document ids. *)
Fixpoint no_underscore (s : string) : bool :=
  match s with
  | EmptyString => true
  | String a rest => negb (Ascii.eqb a "_") && no_underscore rest
  end.

(** Every processed record belongs to channel [c] and lies above the
    cutoff. *)
Definition tally_within (c cutoff : Z) (t : Tally) : Prop :=
  Forall (fun mi => Models.channel_id mi = c /\ (cutoff < Models.message_id mi)%Z)
         (processed_messages t).

(** A client whose one-message probe answers and whose page fetch fails. *)
Definition flaky_client : TelegramClient :=
  {| start := Ok tt;
     get_messages := fun _ limit _ =>
       if (limit =? 1)%Z then Ok [plain_message 3] else Raise "FloodWaitError";
     get_entity := fun _ => Raise "ValueError";
     download_media := fun _ => Raise "FloodWaitError" |}.

(** Progress reports whose [current] values never decrease and stay between
    [lo] and [hi], all with total [size]. *)
Definition reports_between (lo hi size : Z) (new : list Progress) : Prop :=
  StronglySorted Z.le (map current new)
  /\ Forall (fun r => (lo <= current r <= hi)%Z /\ total r = size) new.

(** A window of 2 on a channel of 3 messages, on a fresh world. *)
Definition sample_window_run : M SyncResult.t :=
  sync_channel_messages_task "task" (telethon_of (one_channel 5 (countdown 3))) es_node
    sample_minio 5 true false 2 0 50 5.

(** The same without storing the chat messages, images only. *)
Definition sample_images_only_run : M SyncResult.t :=
  sync_channel_messages_task "task" (telethon_of (one_channel 5 (countdown 3))) es_node
    sample_minio 5 false true 2 0 50 5.

(** ** tasks/smart_sync_tasks.py: the totals of a batch *)

(** The ["action"] string of a result. *)
Definition action_name (a : Outcome.action) : string :=
  match a with
  | Outcome.skip => "skip"
  | Outcome.full_sync => "full_sync"
  | Outcome.incremental_sync => "incremental_sync"
  | Outcome.error => "error"
  end.

(** [actions_summary[action] = actions_summary.get(action, 0) + 1] *)
Definition count_action (summary : gmap string nat) (result : Outcome.t)
  : gmap string nat :=
  let action := action_name (Outcome.action_taken result) in
  <[action := default 0 (summary !! action) + 1]> summary.

Module BatchSummary.

Record t := {
  success : bool;
  task_id : string;
  channels_processed : Z;
  channels_successful : Z;
  channels_failed : Z;
  total_messages_processed : nat;
  total_images_downloaded : nat;
  actions_summary : gmap string nat;
  results : list Outcome.t
}.

End BatchSummary.

(** The statistics [smart_sync_task] aggregates once every channel has
    completed. *)
Definition aggregate (task_id : string) (total_channels : Z) (results : list Outcome.t)
  : BatchSummary.t :=
  let successful := Z.of_nat (length (List.filter Outcome.success results)) in
  {| BatchSummary.success := true;
     BatchSummary.task_id := task_id;
     BatchSummary.channels_processed := total_channels;
     BatchSummary.channels_successful := successful;
     BatchSummary.channels_failed := (total_channels - successful)%Z;
     BatchSummary.total_messages_processed :=
       foldl (fun acc r => acc + default 0 (Outcome.messages_processed r)) 0 results;
     BatchSummary.total_images_downloaded :=
       foldl (fun acc r => acc + default 0 (Outcome.images_downloaded r)) 0 results;
     BatchSummary.actions_summary := foldl count_action ∅ results;
     BatchSummary.results := results |}.

(** The results with a given action. *)
Definition with_action (a : Outcome.action) (results : list Outcome.t) : list Outcome.t :=
  List.filter (fun r => String.eqb (action_name (Outcome.action_taken r)) (action_name a))
              results.

(** ** services/elasticsearch.py: the query builders *)

Module Query.

Inductive value := VInt (z : Z) | VStr (s : string).

Inductive clause :=
| match_text (field text : string)
| term (field : string) (v : value)
| exists_field (field : string)
| match_all.

(** [{"bool": {"must": .., "must_not": ..}}]; [must_not] is [None] when the
    dictionary has no such key. *)
Record bool_query := { must : list clause; must_not : option (list clause) }.

(** [{"from": .., "size": .., "query": ..}] *)
Record body := { from : Z; size : Z; query : bool_query }.

End Query.

Definition build_channel_query (title_contains username : option string)
  : Query.bool_query :=
  let must_clauses :=
    (if Py.truthy_opt_str title_contains
     then [Query.match_text "title" (Py.or_empty title_contains)] else [])
    ++ (if Py.truthy_opt_str username
        then [Query.term "username.keyword" (Query.VStr (Py.or_empty username))] else []) in
  {| Query.must := match must_clauses with [] => [Query.match_all] | _ => must_clauses end;
     Query.must_not := None |}.

Definition build_message_query (channel_id message_id : option Z)
  (has_media : option bool) (title_contains sender_name : option string)
  (size offset : Z) : Query.body :=
  let must :=
    match channel_id with Some c => [Query.term "channel_id" (Query.VInt c)] | None => [] end
    ++ match message_id with Some m => [Query.term "message_id" (Query.VInt m)] | None => [] end
    ++ match sender_name with Some s => [Query.match_text "sender_name" s] | None => [] end
    ++ match title_contains with Some s => [Query.match_text "text" s] | None => [] end
    ++ match has_media with Some true => [Query.exists_field "image_urls"] | _ => [] end in
  {| Query.from := offset;
     Query.size := size;
     Query.query :=
       {| Query.must := must;
          Query.must_not :=
            match has_media with
            | Some false => Some [Query.exists_field "image_urls"]
            | _ => None
            end |} |}.

(** How many of the optional filters are given. *)
Definition given {A} (o : option A) : nat :=
  match o with Some _ => 1 | None => 0 end.

(** The results of a batch that count as failed although no exception was
    caught: the channel could not be read on Telegram. *)
Definition not_accessible (r : Outcome.t) : bool :=
  String.eqb (action_name (Outcome.action_taken r)) "skip"
  && String.eqb (Outcome.reason r) "Channel not accessible on Telegram".

(** [r] is what some run of [smart_sync_channel] returned. *)
Definition smart_sync_result (r : Outcome.t) : Prop :=
  exists fuel channel_id telethon_client es_client sync_images minio_manager w w',
    smart_sync_channel fuel channel_id telethon_client es_client sync_images
      minio_manager w = Some (Ok (Some r), w').

(** ** services/listener_service.py: the monitored channels *)

(** What the listener reads of a dialog: its entity is a [Channel] with an
    id, or something else. *)
Inductive Dialog :=
| channel_dialog (id : Z)
| other_dialog.

(** [client.iter_dialogs()]: the dialogs it yields, and the exception that
    ends the iteration when one does. *)
Record Dialogs := { yielded : list Dialog; failure : option Exn }.

(** [type(message.media)] *)
Inductive MediaType := photo_type | document_type | other_type.

Definition media_type_of (media : Tg.Media) : MediaType :=
  match media with
  | Tg.MessageMediaPhoto _ => photo_type
  | Tg.MessageMediaDocument _ => document_type
  | Tg.MessageMediaOther => other_type
  end.

(** The arguments of one [process_message_task.delay(..)]: the
    [message_data] dictionary, the channel and the policy. *)
Record QueuedMessage := {
  data_id : Z;
  data_text : string;
  data_date : option Z;
  data_media_type : option MediaType;
  data_sender_id : option Z;
  queued_channel_id : Z;
  queued_download_images : bool
}.

(** The Redis server holds, besides the listener status, the set
    [listener:channels] and the queue of the message tasks.  The members of
    the set are the decimal strings [sadd] wrote for channel ids, which
    [int(ch)] reads back; the model keeps the ids. *)
Record Listener := {
  world : World;
  monitored : gset Z;
  message_queue : list QueuedMessage
}.

Definition set_world (w : World) (s : Listener) : Listener :=
  {| world := w; monitored := monitored s; message_queue := message_queue s |}.

Definition set_monitored (m : gset Z) (s : Listener) : Listener :=
  {| world := world s; monitored := m; message_queue := message_queue s |}.

Definition set_message_queue (q : list QueuedMessage) (s : Listener) : Listener :=
  {| world := world s; monitored := monitored s; message_queue := q |}.

(** Computations of the listener: as [M], on the wider state. *)
Definition LM (A : Type) : Type := Listener -> option (Res A * Listener).

Definition retL {A} (a : A) : LM A := fun s => Some (Ok a, s).

Definition raiseL {A} (e : Exn) : LM A := fun s => Some (Raise e, s).

Definition bindL {A B} (m : LM A) (k : A -> LM B) : LM B :=
  fun s =>
    match m s with
    | Some (Ok a, s') => k a s'
    | Some (Raise e, s') => Some (Raise e, s')
    | None => None
    end.

Definition try_exceptL {A} (body : LM A) (handler : Exn -> LM A) : LM A :=
  fun s =>
    match body s with
    | Some (Raise e, s') => handler e s'
    | r => r
    end.

(** A computation on the world, run by the listener. *)
Definition on_world {A} (m : M A) : LM A :=
  fun s =>
    match m (world s) with
    | Some (r, w) => Some (r, set_world w s)
    | None => None
    end.

Notation "'let+' x ':=' m 'in' k" := (bindL m (fun x => k))
  (at level 10, x name, m at level 100, k at level 200, only parsing) : py_scope.
Notation "'let+' ' p ':=' m 'in' k" := (bindL m (fun p => k))
  (at level 10, p pattern, m at level 100, k at level 200, only parsing) : py_scope.

(** A command sent to Redis: it raises when the server cannot be reached. *)
Definition redis_command {A} (f : Listener -> A * Listener) : LM A :=
  fun s =>
    if redis_reachable (world s) then let '(a, s') := f s in Some (Ok a, s')
    else Some (Raise "ConnectionError", s).

Definition smembers : LM (gset Z) := redis_command (fun s => (monitored s, s)).

Definition sadd (member : Z) : LM unit :=
  redis_command (fun s => (tt, set_monitored ({[member]} ∪ monitored s) s)).

Definition srem (member : Z) : LM unit :=
  redis_command (fun s => (tt, set_monitored (monitored s ∖ {[member]}) s)).

Definition delete_channels : LM unit :=
  redis_command (fun s => (tt, set_monitored ∅ s)).

Definition get_monitored_channels : LM (gset Z) :=
  try_exceptL smembers (fun e => retL ∅).

Definition add_monitored_channel (channel_id : Z) : LM unit :=
  try_exceptL (sadd channel_id) (fun e => retL tt).

Definition remove_monitored_channel (channel_id : Z) : LM unit :=
  try_exceptL (srem channel_id) (fun e => retL tt).

Definition clear_monitored_channels : LM unit :=
  try_exceptL delete_channels (fun e => retL tt).

(** The [async for] loop of [discover_channels]. *)
Fixpoint discover_loop (dialogs : list Dialog) (failure : option Exn)
  (channels : list Z) : LM (list Z) :=
  match dialogs with
  | [] =>
      match failure with
      | Some e => raiseL e
      | None => retL channels
      end
  | channel_dialog id :: rest =>
      let+ _ := add_monitored_channel id in
      discover_loop rest failure (channels ++ [id])
  | other_dialog :: rest => discover_loop rest failure channels
  end.

Definition discover_channels (dialogs : Dialogs) : LM (list Z) :=
  try_exceptL (discover_loop (yielded dialogs) (failure dialogs) [])
    (fun e => retL []).

(** ** services/smart_sync_service.py: the channels of the account *)

(** The [async for] loop of [get_all_telegram_channels]. *)
Fixpoint channel_loop (dialogs : list Dialog) (failure : option Exn)
  (channel_ids : list Z) : M (list Z) :=
  match dialogs with
  | [] =>
      match failure with
      | Some e => raise e
      | None => ret channel_ids
      end
  | channel_dialog id :: rest => channel_loop rest failure (channel_ids ++ [id])
  | other_dialog :: rest => channel_loop rest failure channel_ids
  end.

Definition get_all_telegram_channels (dialogs : Dialogs) : M (list Z) :=
  try_except (channel_loop (yielded dialogs) (failure dialogs) [])
    (fun e => ret []).

(** ** tasks/listener_tasks.py: channels and messages of the live path *)

Module ChannelTask.

(** [{"status": .., "channel_id": .., "total_channels": ..}] or
    [{"status": "error", "error": ..}]. *)
Record result := {
  status : string;
  channel_id : option Z;
  total_channels : option nat;
  error : option string
}.

End ChannelTask.

(** [status.update({"monitored_channels": len(channels), "channels": channels})] *)
Definition with_channels (status : ListenerStatus) (new_channels : list Z)
  : ListenerStatus :=
  {| is_running := is_running status;
     download_images := download_images status;
     monitored_channels := Some (length new_channels);
     channels := Some new_channels;
     started_at := started_at status;
     stopped_at := stopped_at status;
     task_id := task_id status;
     error := error status |}.

(** [list(get_monitored_channels())]: Python does not fix the order of the
    list; the model takes the order of [elements]. *)
Definition add_channel_task (channel_id : Z) : LM ChannelTask.result :=
  try_exceptL
    (let+ _ := add_monitored_channel channel_id in
     let+ status := on_world get_listener_status in
     let+ members := get_monitored_channels in
     let channels := elements members in
     let+ _ := on_world (set_listener_status (with_channels status channels)) in
     retL {| ChannelTask.status := "added";
             ChannelTask.channel_id := Some channel_id;
             ChannelTask.total_channels := Some (length channels);
             ChannelTask.error := None |})
    (fun e =>
       retL {| ChannelTask.status := "error"; ChannelTask.channel_id := None;
               ChannelTask.total_channels := None; ChannelTask.error := Some e |}).

Definition remove_channel_task (channel_id : Z) : LM ChannelTask.result :=
  try_exceptL
    (let+ _ := remove_monitored_channel channel_id in
     let+ status := on_world get_listener_status in
     let+ members := get_monitored_channels in
     let channels := elements members in
     let+ _ := on_world (set_listener_status (with_channels status channels)) in
     retL {| ChannelTask.status := "removed";
             ChannelTask.channel_id := Some channel_id;
             ChannelTask.total_channels := Some (length channels);
             ChannelTask.error := None |})
    (fun e =>
       retL {| ChannelTask.status := "error"; ChannelTask.channel_id := None;
               ChannelTask.total_channels := None; ChannelTask.error := Some e |}).

(** [process_message_task.delay(..)]: the task is queued on the broker (the
    same Redis). *)
Definition process_message_task_delay (q : QueuedMessage) : LM unit :=
  redis_command (fun s => (tt, set_message_queue (message_queue s ++ [q]) s)).

(** The [message_data] the handler builds, with the arguments of the call. *)
Definition message_data (message : Tg.Message) (channel_id : Z)
  (download_images : bool) : QueuedMessage :=
  {| data_id := Tg.id message;
     data_text := Py.or_empty (Tg.text message);
     data_date := Tg.date message;
     data_media_type := option_map media_type_of (Tg.media message);
     data_sender_id := Tg.sender_id message;
     queued_channel_id := channel_id;
     queued_download_images := download_images |}.

(** [handle_new_message] of [start_listener_task], on the message of the
    event; [peer_channel_id] is [message.peer_id.channel_id] when the peer
    has that attribute. *)
Definition handle_new_message (download_images : bool) (peer_channel_id : option Z)
  (message : Tg.Message) : LM unit :=
  try_exceptL
    (match peer_channel_id with
     | Some channel_id =>
         let+ members := get_monitored_channels in
         let+ _ :=
           if bool_decide (channel_id ∈ members) then retL tt
           else add_monitored_channel channel_id in
         let queue :=
           process_message_task_delay (message_data message channel_id download_images) in
         match negb download_images, Tg.media message with
         | true, Some media => if is_photo_or_document media then retL tt else queue
         | _, _ => queue
         end
     | None => retL tt
     end)
    (fun e => retL tt).

Module MessageTask.

(** The result dictionary of [process_message_task]; a field is [None] when
    the dictionary has no such key. *)
Record result := {
  status : string;
  error : option string;
  message_id : option Z;
  channel_id : option Z;
  elasticsearch_success : option nat;
  elasticsearch_failed : option nat;
  has_media : option bool
}.

(** [{"status": s}] *)
Definition only (s : string) : result :=
  {| status := s; error := None; message_id := None; channel_id := None;
     elasticsearch_success := None; elasticsearch_failed := None; has_media := None |}.

(** [{"status": "error", "error": str(e)}] *)
Definition failed (e : Exn) : result :=
  {| status := "error"; error := Some e; message_id := None; channel_id := None;
     elasticsearch_success := None; elasticsearch_failed := None; has_media := None |}.

End MessageTask.

Section process_message_task.

Variable client : TelegramClient.
(** [client.get_entity(PeerChannel(channel_id))], [client.get_dialogs()] and
    [client.get_messages(channel_entity, ids=..)]. *)
Variable get_peer_channel : Z -> Res Tg.Entity.
Variable get_dialogs : Res unit.
Variable get_message : Tg.Entity -> Z -> Res (option Tg.Message).
(** [MinIOManager()], which raises when the bucket cannot be checked. *)
Variable new_minio_manager : Res MinIOManager.
Variable es_client : AsyncElasticsearch.
(** [message_data["id"]] *)
Variable message_id : Z.
Variable channel_id : Z.
Variable download_images : bool.

Definition fetch_message : M (option Tg.Message) :=
  let* channel_entity :=
    try_except
      (lift (get_peer_channel channel_id))
      (fun _ =>
         let* _ := lift get_dialogs in
         lift (get_entity client channel_id)) in
  lift (get_message channel_entity message_id).

(** The inner [try] returns early or hands the message on. *)
Definition process_message_task : M MessageTask.result :=
  try_except
    (let* minio_manager :=
       if download_images then
         let* manager := lift new_minio_manager in ret (Some manager)
       else ret None in
     let* _ := lift (start client) in
     let* fetched :=
       try_except
         (let* message := fetch_message in
          match message with
          | Some m => ret (inr m)
          | None => ret (inl (MessageTask.only "message_not_found"))
          end)
         (fun e => ret (inl (MessageTask.failed e))) in
     match fetched with
     | inl early => ret early
     | inr message =>
         let* message_info :=
           process_single_message_enhanced message channel_id client download_images
             minio_manager in
         match message_info with
         | Some mi =>
             let* '(success, failed) := store_messages_elasticsearch es_client [mi] in
             ret {| MessageTask.status := "processed";
                    MessageTask.error := None;
                    MessageTask.message_id := Some message_id;
                    MessageTask.channel_id := Some channel_id;
                    MessageTask.elasticsearch_success := Some success;
                    MessageTask.elasticsearch_failed := Some failed;
                    MessageTask.has_media :=
                      Some (match Models.image_urls mi with [] => false | _ => true end) |}
         | None => ret (MessageTask.only "processing_failed")
         end
     end)
    (fun e => ret (MessageTask.failed e)).

End process_message_task.

(** The channel ids among dialogs, in their order. *)
Fixpoint channel_ids (dialogs : list Dialog) : list Z :=
  match dialogs with
  | [] => []
  | channel_dialog id :: rest => id :: channel_ids rest
  | other_dialog :: rest => channel_ids rest
  end.

(** The message carries media the listener treats as an image. *)
Definition carries_photo_or_document (message : Tg.Message) : bool :=
  match Tg.media message with
  | Some media => is_photo_or_document media
  | None => false
  end.

(** The [is_running] the next reader of the status gets. *)
Definition reported_is_running (w : World) : option (Res (option bool)) :=
  result_of (let* status := get_listener_status in ret (is_running status)) w.

(** The channel list of the persisted status. *)
Definition persisted_channels (w : World) : option (list Z) :=
  match redis_status w with
  | Some status => channels status
  | None => None
  end.

(** A listener state with nothing monitored and nothing queued. *)
Definition blank_listener : Listener :=
  {| world := blank_world; monitored := ∅; message_queue := [] |}.

(** The entity of a channel. *)
Definition channel_entity : Tg.Entity :=
  {| Tg.first_name := None; Tg.last_name := None;
     Tg.title := Some (Some "news"); Tg.username := None |}.

(** ** Vocabulary of the normalisers' failures *)

(** The media is a document whose [mime_type] cannot be read
    ([DocumentEmpty]). *)
Definition document_without_mime_type (media : Tg.Media) : bool :=
  match media with
  | Tg.MessageMediaDocument (Some d) =>
      match Tg.mime_type d with
      | None => true
      | Some _ => false
      end
  | _ => false
  end.

Definition carries_document_without_mime_type (message : Tg.Message) : bool :=
  match Tg.media message with
  | Some media => document_without_mime_type media
  | None => false
  end.

(** The live path notes the media of the message without download -- images
    are off, or there is no object store -- and the media is a document
    without [mime_type]. *)
Definition live_markers_unreadable (download_images : bool)
  (minio_manager : option MinIOManager) (message : Tg.Message) : bool :=
  negb (download_images && match minio_manager with Some _ => true | None => false end)
  && carries_document_without_mime_type message.

(** A message without sender entity, whose sender cannot be looked up,
    carrying a document without [mime_type]. *)
Definition anonymous_empty_document : Tg.Message :=
  {| Tg.id := 7; Tg.sender := None; Tg.sender_id := Some 42%Z;
     Tg.media := Some (Tg.MessageMediaDocument
                         (Some {| Tg.document_id := 9; Tg.mime_type := None |}));
     Tg.date := None; Tg.text := Some "hi" |}.

(** ** Vocabulary of the backfill walk *)

(** The pages a backfill is served, from the offset it first asks with:
    each page is what [get_messages] returns at the offset the loop has
    reached, the next offset is the id of the last message of the page, and
    the pages end with the one in which a message at or below the cutoff
    shows, or with an empty answer. *)
Fixpoint served_pages (telethon_client : TelegramClient) (channel_id cutoff offset_id : Z)
  (pages : list (list Tg.Message)) : Prop :=
  match pages with
  | [] => get_messages telethon_client channel_id 100 offset_id = Ok []
  | page :: rest =>
      get_messages telethon_client channel_id 100 offset_id = Ok page
      /\ match last page with
         | None => False
         | Some oldest =>
             if forallb (newer_than cutoff) page
             then served_pages telethon_client channel_id cutoff (Tg.id oldest) rest
             else rest = []
         end
  end.

(** The message is normalised into a record (on the sync path this does
    not depend on the world it happens in). *)
Definition normalises (telethon_client : TelegramClient) (channel_id : Z)
  (sync_images : bool) (minio_manager : option MinIOManager) (tg_msg : Tg.Message)
  : bool :=
  match process_message tg_msg channel_id telethon_client sync_images minio_manager
          blank_world with
  | Some (Ok (Some _), _) => true
  | _ => false
  end.

(** The record is the record of the message in the channel. *)
Definition record_of (channel_id : Z) (tg_msg : Tg.Message) (info : Models.MessageInfo)
  : Prop :=
  Models.channel_id info = channel_id
  /\ Models.message_id info = Tg.id tg_msg
  /\ Models.text info = Py.or_empty (Tg.text tg_msg)
  /\ Models.time info = Tg.date tg_msg.

(** A page that is not newest first: message 4 comes behind message 1. *)
Definition shuffled_page : list Tg.Message :=
  [plain_message 5; plain_message 1; plain_message 4].

(** * Properties *)

(** ** Reasoning about computations *)

Ltac unfold_m :=
  unfold try_except, bind, ret, raise, lift, gets, modify, out_of_fuel,
    asyncio_sleep, datetime_now in *.

(** ** Bulk upsert wrapper *)

(** What the wrapper does with either outcome of the bulk operation. *)
Lemma bulk_insert_outcome
  (es_client : AsyncElasticsearch) (actions : list Es.Action) (w : World) :
  execute_elasticsearch_bulk_insert es_client actions w =
  match async_bulk es_client actions (es_index w) with
  | (Ok (success, failed), i) => Some (Ok (success, failed), set_es_index i w)
  | (Raise _, i) => Some (Ok (0, length actions), set_es_index i w)
  end.
Proof.
  unfold execute_elasticsearch_bulk_insert, call_async_bulk. unfold_m.
  destruct (async_bulk es_client actions (es_index w)) as [[[s f]|e] i]; reflexivity.
Qed.

(** C10. [execute_elasticsearch_bulk_insert] hands every caller a pair of
    counts: what the bulk operation reported when it returned, and
    [(0, len(actions))] when it raised.  No exception leaves the function. *)
Theorem bulk_insert_always_returns_counts
  (es_client : AsyncElasticsearch) (actions : list Es.Action) (w : World) :
  execute_elasticsearch_bulk_insert es_client actions w =
  match async_bulk es_client actions (es_index w) with
  | (Ok (success, failed), i) => Some (Ok (success, failed), set_es_index i w)
  | (Raise _, i) => Some (Ok (0, length actions), set_es_index i w)
  end.
Proof. apply bulk_insert_outcome. Qed.

Lemma bulk_insert_returns es_client actions :
  returns (execute_elasticsearch_bulk_insert es_client actions).
Proof.
  intros w. rewrite bulk_insert_outcome.
  destruct (async_bulk es_client actions (es_index w)) as [[[s f]|e] i]; eauto.
Qed.

(** ** Progress reports *)

(** C8.  With the default window of 100 messages, the report issued after
    the 29th processed message carries percentage 28, where
    [floor(29/100*100)] is 29: the quotient is taken in binary floating
    point, [29/100*100] evaluates to [28.999999999999996], and [int]
    truncates it. *)
Theorem progress_after_29_of_100_reports_28 :
  task_meta
    (world_after
       (sync_channel_messages_task "task" (telethon_of (one_channel 5 (countdown 100)))
          es_node sample_minio 5 true false 100 0 50 3)
       blank_world) !! 29
  = Some {| current := 29; total := 100; status := "Processed 29/100 messages";
            percentage := 28 |}
  /\ (29 * 100 / 100 = 29)%Z.
Proof. split; vm_compute; reflexivity. Qed.

(** Without a positive total the percentage is 0. *)
Lemma percentage_without_total (current total : Z) (status : string) :
  (total <= 0)%Z -> percentage (progress_meta current total status) = 0%Z.
Proof.
  intros H. unfold progress_meta. simpl.
  replace (total >? 0)%Z with false by (symmetry; rewrite Z.gtb_ltb; apply Z.ltb_ge; lia).
  reflexivity.
Qed.

(** ** Sender names on the live path *)

Ltac case_goal :=
  match goal with
  | |- context [match ?x with _ => _ end] =>
      lazymatch x with
      | context [match _ with _ => _ end] => fail
      | _ => destruct x eqn:?
      end
  end.




(** The sync path has no lookup by id: [process_message] leaves the sender
    of such a message unnamed. *)
Lemma sync_path_leaves_absent_sender_unnamed
  (tg_msg : Tg.Message) (channel_id : Z) (client : TelegramClient)
  (minio_manager : option MinIOManager) (w : World) :
  Tg.sender tg_msg = None ->
  exists o w',
    process_message tg_msg channel_id client false minio_manager w
    = Some (Ok o, w')
    /\ forall info, o = Some info -> Models.sender_name info = "".
Proof.
  intros Hs. unfold process_message, media_markers. rewrite Hs.
  unfold_m; repeat (case_goal; simpl in *; try congruence);
    eexists _, _; (split; [reflexivity|]);
    intros ? [= <-] || (intros; discriminate); reflexivity.
Qed.

(** ** Listener resume on start-up *)

Lemma listener_statuses_carry_is_running flag chans now tid exc status :
  is_Some (is_running (started_status flag chans now tid))
  /\ is_Some (is_running (failed_status exc now))
  /\ is_Some (is_running (stopped_status status now))
  /\ (is_Some (is_running status) -> is_Some (is_running (status_update status tid now))).
Proof. repeat split; simpl; eauto. Qed.

(** C6.  On start-up the listener is relaunched exactly when the persisted
    status shows [is_running] true.  Then one [start_listener_task] is
    queued, with the stored [download_images] value, and the persisted
    status gets the id of the queued task as [task_id] and the current time
    as [started_at], its other fields staying as they were; otherwise
    nothing is queued and nothing is written. *)
Theorem resume_relaunches_iff_persisted_running (w : World) :
  status_well_formed w ->
  exists w',
    resume_listener_if_needed w = Some (Ok tt, w')
    /\ match persisted_is_running w, redis_status w with
       | Some true, Some status =>
           celery_queue w' = celery_queue w ++ [default true (download_images status)]
           /\ redis_status w' =
              Some {| is_running := Some true;
                      download_images := download_images status;
                      monitored_channels := monitored_channels status;
                      channels := channels status;
                      started_at := Some (wall_clock w (clock_reads w));
                      stopped_at := stopped_at status;
                      task_id := Some (celery_ids w (length (celery_queue w)));
                      error := error status |}
       | _, _ => w' = w
       end.
Proof.
  intros Hwf.
  unfold resume_listener_if_needed, get_listener_status, redis_get, redis_set,
    start_listener_task_delay, persisted_is_running, status_update.
  unfold_m.
  destruct (redis_reachable w) eqn:Hr; simpl.
  - destruct (redis_status w) as [status|] eqn:Hs; simpl.
    + destruct (Hwf status Hs) as [b Hb]. rewrite Hb. simpl.
      destruct b; simpl.
      * rewrite Hr. simpl. rewrite Hr. eexists. split; [reflexivity|].
        simpl. split; reflexivity.
      * eexists. split; reflexivity.
    + eexists. split; reflexivity.
  - eexists. split; reflexivity.
Qed.

Lemma resume_relaunches_witness :
  exists w',
    resume_listener_if_needed
      (set_redis_status (Some (started_status false [5%Z] 7 "old-task")) blank_world)
    = Some (Ok tt, w')
    /\ celery_queue w' = [false]
    /\ redis_status w' =
       Some {| is_running := Some true;
               download_images := Some false;
               monitored_channels := Some 1;
               channels := Some [5%Z];
               started_at := Some 0%Z;
               stopped_at := None;
               task_id := Some "task-0";
               error := None |}.
Proof.
  destruct (resume_relaunches_iff_persisted_running
              (set_redis_status (Some (started_status false [5%Z] 7 "old-task")) blank_world))
    as (w' & E & P).
  - intros status H. injection H as <-. simpl. eauto.
  - exists w'. split; [exact E | exact P].
Defined.

(** ** The semaphore-bounded fan-out *)

Lemma running_after_acquire (l : list Phase) (i : nat) :
  l !! i = Some Queued ->
  count_phase Running (<[i := Running]> l) = S (count_phase Running l).
Proof.
  unfold count_phase. revert i.
  induction l as [|x l IH]; intros [|i] H; simpl in *; try discriminate.
  - injection H as ->. reflexivity.
  - specialize (IH i H). destruct x; simpl; lia.
Qed.

Lemma running_after_release (l : list Phase) (i : nat) :
  l !! i = Some Running ->
  S (count_phase Running (<[i := Finished]> l)) = count_phase Running l.
Proof.
  unfold count_phase. revert i.
  induction l as [|x l IH]; intros [|i] H; simpl in *; try discriminate.
  - injection H as ->. reflexivity.
  - specialize (IH i H). destruct x; simpl; lia.
Qed.

Lemma nobody_runs_at_start (n : nat) : count_phase Running (replicate n Queued) = 0.
Proof. unfold count_phase. induction n; simpl; auto. Qed.

(** The units inside [async with] and the free slots of the semaphore
    always add up to [max_parallel]. *)
Lemma semaphore_accounts_for_running (max_parallel total_channels : nat) (p : Pool) :
  pool_reachable max_parallel total_channels p ->
  running p + semaphore_value p = max_parallel.
Proof.
  induction 1 as [|p q Hp IH Hstep].
  - unfold running. simpl. rewrite nobody_runs_at_start. reflexivity.
  - unfold running in *. destruct Hstep as [p i v Hi Hv | p i Hi | p Hc]; simpl.
    + rewrite (running_after_acquire _ _ Hi). lia.
    + pose proof (running_after_release _ _ Hi). lia.
    + exact IH.
Qed.

(** The fan-out reports the counts 0, 1, 2, .. in this order: one report
    when the batch starts and one per collected unit. *)
Lemma fan_out_reports_count_up (max_parallel total_channels : nat) (p : Pool) :
  pool_reachable max_parallel total_channels p ->
  map current (reports p) = map Z.of_nat (seq 0 (S (completed p))).
Proof.
  induction 1 as [|p q Hp IH Hstep]; [reflexivity|].
  destruct Hstep as [p i v Hi Hv | p i Hi | p Hc];
    cbn [reports completed]; try exact IH.
  rewrite map_app, IH, (seq_S (S (completed p)) 0), map_app. reflexivity.
Qed.

(** C9.  However the event loop interleaves the per-channel units, at no
    point of the batch are more than [max_parallel] of them inside
    [async with semaphore]; in particular for the bounds 1, 3 and 20 and
    any number of channels. *)
Theorem fan_out_never_exceeds_max_parallel (max_parallel total_channels : nat) (p : Pool) :
  pool_reachable max_parallel total_channels p ->
  running p <= max_parallel.
Proof.
  intros H. pose proof (semaphore_accounts_for_running _ _ _ H). lia.
Qed.

Lemma fan_out_bound_witness :
  exists p, pool_reachable 1 2 p /\ running p = 1 /\ running p <= 1.
Proof.
  assert (R : pool_reachable 1 2
                {| semaphore_value := 0; units := <[0 := Running]> (units (pool_start 1 2));
                   completed := completed (pool_start 1 2);
                   reports := reports (pool_start 1 2) |}).
  { eapply reach_step; [apply reach_start|].
    apply (step_acquire (pool_start 1 2) 0 0); reflexivity. }
  eexists. split; [exact R|]. split; [reflexivity|].
  exact (fan_out_never_exceeds_max_parallel 1 2 _ R).
Defined.

(** ** Pages of a channel history *)

Lemma below_weaken (b b' : Z) (l : list Tg.Message) :
  (b <= b')%Z -> below b l = true -> below b' l = true.
Proof.
  destruct l as [|m l]; simpl; [reflexivity|].
  intros Hle H. apply andb_true_iff in H as [H H3]. apply andb_true_iff in H as [H1 H2].
  apply Z.ltb_lt in H1, H2.
  rewrite H3, andb_true_r. apply andb_true_iff. split; apply Z.ltb_lt; lia.
Qed.

Lemma below_all_older (b : Z) (l : list Tg.Message) :
  below b l = true -> (0 < b)%Z -> List.filter (older_than b) l = l.
Proof.
  revert b. induction l as [|m l IH]; intros b H Hb; simpl in *; [reflexivity|].
  apply andb_true_iff in H as [H H3]. apply andb_true_iff in H as [H1 H2].
  apply Z.ltb_lt in H1. pose proof H2 as H2'. apply Z.ltb_lt in H2'.
  unfold older_than at 1. rewrite H2, orb_true_r. f_equal.
  apply IH; [|exact Hb]. apply (below_weaken (Tg.id m)); [lia | exact H3].
Qed.

Lemma below_app_inv (b : Z) (pre post : list Tg.Message) (m : Tg.Message) :
  below b (pre ++ m :: post) = true ->
  (0 < Tg.id m)%Z /\ (Tg.id m < b)%Z /\ below (Tg.id m) post = true.
Proof.
  revert b. induction pre as [|x pre IH]; intros b H; simpl in H.
  - apply andb_true_iff in H as [H H3]. apply andb_true_iff in H as [H1 H2].
    apply Z.ltb_lt in H1, H2. auto.
  - apply andb_true_iff in H as [H H3]. apply andb_true_iff in H as [H1 H2].
    apply Z.ltb_lt in H1, H2. destruct (IH _ H3) as (? & ? & ?).
    repeat split; auto; lia.
Qed.

Lemma older_than_oldest_of_page (b : Z) (pre post : list Tg.Message) (m : Tg.Message) :
  below b (pre ++ m :: post) = true ->
  List.filter (older_than (Tg.id m)) (pre ++ m :: post) = post.
Proof.
  revert b. induction pre as [|x pre IH]; intros b H.
  - destruct (below_app_inv b [] post m H) as (Hpos & _ & Hpost).
    simpl. unfold older_than at 1.
    replace (Tg.id m =? 0)%Z with false by (symmetry; apply Z.eqb_neq; lia).
    rewrite Z.ltb_irrefl. simpl. apply below_all_older; assumption.
  - simpl in H. apply andb_true_iff in H as [H H3]. apply andb_true_iff in H as [H1 H2].
    destruct (below_app_inv _ _ _ _ H3) as (Hpos & Hlt & _).
    simpl. unfold older_than at 1.
    replace (Tg.id m =? 0)%Z with false by (symmetry; apply Z.eqb_neq; lia).
    replace (Tg.id x <? Tg.id m)%Z with false by (symmetry; apply Z.ltb_ge; lia).
    simpl. exact (IH _ H3).
Qed.

Lemma filter_twice {A} (f g : A -> bool) (l : list A) :
  (forall x, f x = true -> g x = true) ->
  List.filter f (List.filter g l) = List.filter f l.
Proof.
  intros Hfg. induction l as [|x l IH]; simpl; [reflexivity|].
  destruct (g x) eqn:Hg; simpl.
  - rewrite IH. reflexivity.
  - destruct (f x) eqn:Hf; [|exact IH]. rewrite (Hfg x Hf) in Hg. discriminate.
Qed.

(** Where the next page starts: after a page was served from the messages
    older than [o], the messages older than its last message are the
    remaining ones. *)
Lemma next_page_starts_after_oldest (history rest : list Tg.Message) (o b : Z)
  (n : nat) (oldest : Tg.Message) :
  List.filter (older_than o) history = rest ->
  below b rest = true ->
  last (take n rest) = Some oldest ->
  List.filter (older_than (Tg.id oldest)) history = drop n rest
  /\ below (Tg.id oldest) (drop n rest) = true
  /\ length (drop n rest) < length rest.
Proof.
  intros Hrest Hb Hlast.
  apply last_Some in Hlast as [pre Hpre].
  assert (Hsplit : rest = pre ++ oldest :: drop n rest).
  { rewrite <- (take_drop n rest) at 1. rewrite Hpre, <- app_assoc. reflexivity. }
  assert (Hin : In oldest rest).
  { rewrite Hsplit. apply in_or_app. right. left. reflexivity. }
  rewrite Hsplit in Hb.
  destruct (below_app_inv _ _ _ _ Hb) as (Hpos & _ & Hpost).
  split; [|split].
  - rewrite <- (filter_twice (older_than (Tg.id oldest)) (older_than o)).
    + rewrite Hrest. rewrite Hsplit at 1. exact (older_than_oldest_of_page _ _ _ _ Hb).
    + rewrite <- Hrest in Hin. apply filter_In in Hin as [_ Ho].
      intros x Hx. unfold older_than in *.
      apply orb_true_iff in Ho as [Ho|Ho]; [rewrite Ho; reflexivity|].
      apply orb_true_iff in Hx as [Hx|Hx].
      * apply Z.eqb_eq in Hx. lia.
      * apply Z.ltb_lt in Ho, Hx. apply orb_true_iff. right. apply Z.ltb_lt. lia.
  - exact Hpost.
  - rewrite Hsplit at 2. rewrite length_app. simpl. lia.
Qed.

Lemma newest_first_below (history : list Tg.Message) :
  newest_first history = true -> exists b, below b history = true.
Proof.
  destruct history as [|m l]; simpl; intros H.
  - exists 0%Z. reflexivity.
  - apply andb_true_iff in H as [H1 H2]. exists (Tg.id m + 1)%Z.
    rewrite H1, H2. simpl. rewrite andb_true_r. apply Z.ltb_lt. lia.
Qed.

Lemma nothing_newer_below_cutoff (cutoff c : Z) (l : list Tg.Message) :
  (c <= cutoff + 1)%Z -> below c l = true -> List.filter (newer_than cutoff) l = [].
Proof.
  revert c. induction l as [|x l IH]; intros c Hc H; simpl in *; [reflexivity|].
  apply andb_true_iff in H as [H H3]. apply andb_true_iff in H as [H1 H2].
  apply Z.ltb_lt in H2. unfold newer_than at 1.
  replace (cutoff <? Tg.id x)%Z with false by (symmetry; apply Z.ltb_ge; lia).
  apply (IH (Tg.id x)); [lia | exact H3].
Qed.

(** On a history that is newest first, the messages in front of the first
    one at or below the cutoff are all the messages above the cutoff. *)
Lemma newer_prefix_is_filter (b cutoff : Z) (l : list Tg.Message) :
  below b l = true -> newer_prefix cutoff l = List.filter (newer_than cutoff) l.
Proof.
  revert b. induction l as [|m l IH]; intros b H; simpl in *; [reflexivity|].
  apply andb_true_iff in H as [H H3]. apply andb_true_iff in H as [H1 H2].
  destruct (newer_than cutoff m) eqn:Hn.
  - f_equal. exact (IH _ H3).
  - unfold newer_than in Hn. apply Z.ltb_ge in Hn. symmetry.
    apply (nothing_newer_below_cutoff cutoff (Tg.id m)); [lia | exact H3].
Qed.

(** ** Message normalisation never raises *)

Ltac crush_m :=
  unfold_m; repeat (case_goal; simpl in *; try congruence).

(** [process_message] swallows every exception of its body: it returns a
    record or [None], and leaves the index alone. *)
Lemma process_message_returns (tg_msg : Tg.Message) (channel_id : Z)
  (client : TelegramClient) (sync_images : bool)
  (minio_manager : option MinIOManager) (w : World) :
  exists o w',
    process_message tg_msg channel_id client sync_images minio_manager w
    = Some (Ok o, w')
    /\ es_index w' = es_index w.
Proof.
  unfold process_message, fetch_and_upload, upload_image, call_put_object, image_format,
    media_markers.
  crush_m; eexists _, _; (split; [reflexivity|]); simplify_eq; reflexivity.
Qed.

(** Without image download, [process_message] yields a record unless the
    message carries a document without [mime_type]. *)
Lemma process_message_without_images (tg_msg : Tg.Message) (channel_id : Z)
  (client : TelegramClient) (minio_manager : option MinIOManager) (w : World) :
  carries_document_without_mime_type tg_msg = false ->
  exists info w',
    process_message tg_msg channel_id client false minio_manager w
    = Some (Ok (Some info), w').
Proof.
  unfold process_message, media_markers, carries_document_without_mime_type,
    document_without_mime_type.
  intros H. crush_m; eexists _, _; reflexivity.
Qed.

Lemma countdown_without_media (n : nat) (m : Tg.Message) :
  In m (countdown n) -> carries_document_without_mime_type m = false.
Proof.
  induction n as [|n IH]; simpl; [tauto|].
  intros [<-|H]; [reflexivity | exact (IH H)].
Qed.

(** The per-message body of the backfill loop returns the new tally; its
    [except] arm is never entered. *)
Lemma backfill_message_returns (tc : TelegramClient) (c : Z) (si : bool)
  (mm : option MinIOManager) (tg_msg : Tg.Message) (t : Tally) (w : World) :
  exists t' w',
    backfill_message tc c si mm tg_msg t w = Some (Ok t', w')
    /\ es_index w' = es_index w
    /\ images_failed t' = images_failed t.
Proof.
  unfold backfill_message.
  destruct (process_message_returns tg_msg c tc si mm w) as (o & w' & E & F).
  unfold_m. rewrite E. destruct o as [mi|]; eexists _, _; (split; [reflexivity|]);
    split; auto.
Qed.

Lemma backfill_messages_returns (tc : TelegramClient) (c : Z) (si : bool)
  (mm : option MinIOManager) (l : list Tg.Message) (t : Tally) (w : World) :
  exists t' w',
    backfill_messages tc c si mm l t w = Some (Ok t', w')
    /\ es_index w' = es_index w
    /\ images_failed t' = images_failed t.
Proof.
  revert t w. induction l as [|m l IH]; intros t w; simpl.
  - exists t, w. auto.
  - destruct (backfill_message_returns tc c si mm m t w) as (t1 & w1 & E1 & F1 & G1).
    destruct (IH t1 w1) as (t2 & w2 & E2 & F2 & G2).
    exists t2, w2. unfold bind. rewrite E1. split; [exact E2|].
    split; congruence.
Qed.

Lemma backfill_messages_app (tc : TelegramClient) (c : Z) (si : bool)
  (mm : option MinIOManager) (l1 l2 : list Tg.Message) (t : Tally) (w : World) :
  backfill_messages tc c si mm (l1 ++ l2) t w =
  bind (backfill_messages tc c si mm l1 t) (backfill_messages tc c si mm l2) w.
Proof.
  revert t w. induction l1 as [|m l1 IH]; intros t w; simpl.
  - reflexivity.
  - unfold bind in *.
    destruct (backfill_message tc c si mm m t w) as [[[t1|e] w1]|]; try reflexivity.
    apply IH.
Qed.

(** ** Backfill: which messages are processed *)

Lemma newer_prefix_all (cutoff : Z) (l : list Tg.Message) :
  forallb (newer_than cutoff) l = true -> newer_prefix cutoff l = l.
Proof.
  induction l as [|m l IH]; simpl; [reflexivity|].
  intros H. apply andb_true_iff in H as [H1 H2]. rewrite H1, (IH H2). reflexivity.
Qed.

Lemma newer_prefix_stops_in_page (cutoff : Z) (n : nat) (l : list Tg.Message) :
  forallb (newer_than cutoff) (take n l) = false ->
  newer_prefix cutoff (take n l) = newer_prefix cutoff l.
Proof.
  revert l. induction n as [|n IH]; intros [|m l]; simpl; try discriminate.
  destruct (newer_than cutoff m); simpl; [|reflexivity].
  intros H. rewrite (IH l H). reflexivity.
Qed.

Lemma newer_prefix_continues (cutoff : Z) (n : nat) (l : list Tg.Message) :
  forallb (newer_than cutoff) (take n l) = true ->
  newer_prefix cutoff l = take n l ++ newer_prefix cutoff (drop n l).
Proof.
  revert l. induction n as [|n IH]; intros [|m l]; simpl; try reflexivity.
  destruct (newer_than cutoff m); simpl; [|discriminate].
  intros H. rewrite (IH l H). reflexivity.
Qed.

(** One page: the messages in front of the first one at or below the cutoff
    are processed, and [found_cutoff] tells whether there was such a one. *)
Lemma backfill_page_spec (tc : TelegramClient) (c cutoff : Z) (si : bool)
  (mm : option MinIOManager) (page : list Tg.Message) (t : Tally) (w : World) :
  backfill_page tc c cutoff si mm page t w =
  bind (backfill_messages tc c si mm (newer_prefix cutoff page) t)
       (fun t' => ret (negb (forallb (newer_than cutoff) page), t')) w.
Proof.
  revert t w. induction page as [|m page IH]; intros t w; simpl.
  - reflexivity.
  - assert (Hrel : (Tg.id m <=? cutoff)%Z = negb (newer_than cutoff m)).
    { unfold newer_than. apply Z.leb_antisym. }
    rewrite Hrel. destruct (newer_than cutoff m); simpl.
    + unfold bind in *.
      destruct (backfill_message tc c si mm m t w) as [[[t1|e] w1]|]; try reflexivity.
      apply IH.
    + reflexivity.
Qed.

(** The loop, started at offset [o] with [rest] the messages older than
    [o]: it processes the messages of [rest] in front of the first one at or
    below the cutoff, and needs one round per page. *)
Lemma backfill_loop_spec (p : Platform) (c cutoff : Z) (si : bool)
  (mm : option MinIOManager) (history : list Tg.Message) :
  chats p !! c = Some history ->
  forall (fuel : nat) (rest : list Tg.Message) (o b : Z) (t : Tally) (w : World),
    List.filter (older_than o) history = rest ->
    below b rest = true ->
    length rest < fuel ->
    backfill_loop (telethon_of p) c cutoff si mm fuel o t w =
    backfill_messages (telethon_of p) c si mm (newer_prefix cutoff rest) t w.
Proof.
  intros Hc. induction fuel as [|fuel IH]; intros rest o b t w Hrest Hb Hlen; [lia|].
  cbn [backfill_loop]. unfold lift, bind at 1.
  cbn [get_messages telethon_of]. rewrite Hc. unfold history_page. rewrite Hrest.
  set (n := Z.to_nat 100).
  destruct (last (take n rest)) as [oldest|] eqn:Hlast.
  - destruct (next_page_starts_after_oldest history rest o b n oldest Hrest Hb Hlast)
      as (Hnext & Hbelow & Hshorter).
    unfold bind at 1. rewrite backfill_page_spec. unfold bind at 1.
    destruct (backfill_messages_returns (telethon_of p) c si mm
                (newer_prefix cutoff (take n rest)) t w) as (t1 & w1 & E1 & _).
    rewrite E1. unfold ret at 1. unfold asyncio_sleep, bind, ret.
    destruct (forallb (newer_than cutoff) (take n rest)) eqn:Hall; simpl.
    + rewrite (IH (drop n rest) (Tg.id oldest) (Tg.id oldest) t1 w1 Hnext Hbelow)
        by lia.
      rewrite (newer_prefix_continues cutoff n rest Hall), backfill_messages_app.
      unfold bind. rewrite (newer_prefix_all _ _ Hall) in E1. rewrite E1. reflexivity.
    + rewrite <- (newer_prefix_stops_in_page cutoff n rest Hall). rewrite E1.
      reflexivity.
  - apply last_None in Hlast.
    assert (rest = []) as ->.
    { destruct rest; [reflexivity|]. unfold n in Hlast. simpl in Hlast.
      destruct (Pos.to_nat 100) eqn:E; [lia|]. discriminate. }
    reflexivity.
Qed.

Lemma try_except_reraise {A} (m : M A) (w : World) :
  try_except m (fun e => raise e) w = m w.
Proof. unfold try_except, raise. destruct (m w) as [[[a|e] w']|]; reflexivity. Qed.

Lemma store_and_count_returns (es_client : AsyncElasticsearch) (t : Tally) (w : World) :
  exists s w',
    store_and_count es_client t w = Some (Ok s, w')
    /\ Stats.messages_processed s = length (processed_messages t)
    /\ Stats.images_downloaded s = images_downloaded t
    /\ Stats.images_failed s = images_failed t.
Proof.
  unfold store_and_count. destruct (processed_messages t) as [|mi l] eqn:E.
  - unfold_m. eexists _, _. split; [reflexivity|]. simpl. auto.
  - destruct (bulk_insert_returns es_client (map bulk_action (mi :: l)) w)
      as ([s f] & w' & Eb).
    unfold bind. rewrite Eb. unfold ret. eexists _, _. split; [reflexivity|].
    simpl. auto.
Qed.

Lemma all_at_or_below_cutoff (cutoff c : Z) (l : list Tg.Message) :
  (c <= cutoff + 1)%Z -> below c l = true ->
  Forall (fun m => (Tg.id m <= cutoff)%Z) l.
Proof.
  revert c. induction l as [|x l IH]; intros c Hc H; [constructor|].
  simpl in H. apply andb_true_iff in H as [H H3].
  apply andb_true_iff in H as [H1 H2]. apply Z.ltb_lt in H2.
  constructor; [lia|]. apply (IH (Tg.id x)); [lia | exact H3].
Qed.

(** A history that is newest first splits at the cutoff: the messages above
    it come first, every message behind them is at or below it. *)
Lemma newest_first_splits_at_cutoff (b cutoff : Z) (l : list Tg.Message) :
  below b l = true ->
  exists older,
    l = List.filter (newer_than cutoff) l ++ older
    /\ Forall (fun m => (Tg.id m <= cutoff)%Z) older.
Proof.
  revert b. induction l as [|m l IH]; intros b H.
  - exists []. split; [reflexivity | constructor].
  - simpl in H. apply andb_true_iff in H as [H H3]. apply andb_true_iff in H as [H1 H2].
    simpl. destruct (newer_than cutoff m) eqn:Hn.
    + destruct (IH _ H3) as (older & E & F). exists older. split; [|exact F].
      simpl. rewrite <- E. reflexivity.
    + unfold newer_than in Hn. apply Z.ltb_ge in Hn.
      rewrite (nothing_newer_below_cutoff cutoff (Tg.id m) l) by (lia || exact H3).
      exists (m :: l). split; [reflexivity|]. constructor; [exact Hn|].
      apply (all_at_or_below_cutoff cutoff (Tg.id m)); [lia | exact H3].
Qed.

(** On the platform, a backfill is: process the messages above the cutoff in
    order, then store. *)
Lemma sync_missing_messages_spec
  (p : Platform) (es_client : AsyncElasticsearch) (c cutoff : Z) (si : bool)
  (mm : option MinIOManager) (history : list Tg.Message) (fuel : nat) (w : World) :
  chats p !! c = Some history ->
  newest_first history = true ->
  length history < fuel ->
  sync_missing_messages (telethon_of p) es_client c cutoff si mm fuel w =
  bind (backfill_messages (telethon_of p) c si mm
          (List.filter (newer_than cutoff) history) empty_tally)
       (store_and_count es_client) w.
Proof.
  intros Hc Hnf Hfuel.
  destruct (newest_first_below history Hnf) as [b Hb].
  unfold sync_missing_messages. rewrite try_except_reraise. unfold bind.
  rewrite (backfill_loop_spec p c cutoff si mm history Hc fuel history 0 b); auto.
  - rewrite (newer_prefix_is_filter b cutoff history Hb). reflexivity.
  - clear. induction history as [|m l IH]; simpl; [reflexivity|]. rewrite IH. reflexivity.
Qed.

(** With enough fuel a backfill on the platform returns its counts; the
    failure counter is still zero. *)
Lemma sync_missing_messages_returns
  (p : Platform) (es_client : AsyncElasticsearch) (c cutoff : Z) (si : bool)
  (mm : option MinIOManager) (history : list Tg.Message) (fuel : nat) (w : World) :
  chats p !! c = Some history ->
  newest_first history = true ->
  length history < fuel ->
  exists stats w',
    sync_missing_messages (telethon_of p) es_client c cutoff si mm fuel w
    = Some (Ok stats, w')
    /\ Stats.images_failed stats = 0.
Proof.
  intros Hc Hnf Hfuel.
  rewrite (sync_missing_messages_spec p es_client c cutoff si mm history fuel w Hc Hnf Hfuel).
  destruct (backfill_messages_returns (telethon_of p) c si mm
              (List.filter (newer_than cutoff) history) empty_tally w)
    as (t & w1 & E1 & _ & F1).
  destruct (store_and_count_returns es_client t w1) as (s & w2 & E2 & _ & _ & F2).
  exists s, w2. unfold bind. rewrite E1. split; [exact E2|].
  rewrite F2, F1. reflexivity.
Qed.

(** ** Reconciliation *)

Lemma get_last_message_id_telegram_on_platform (p : Platform) (c : Z) (w : World) :
  get_last_message_id_telegram (telethon_of p) c w =
  Some (Ok (match history_of p c with
            | m :: _ => Some (Tg.id m)
            | [] => None
            end), w).
Proof.
  unfold get_last_message_id_telegram, history_of. unfold_m. simpl.
  destruct (chats p !! c) as [history|]; simpl; [|reflexivity].
  unfold history_page.
  assert (E : List.filter (older_than 0) history = history).
  { induction history as [|m l IH]; simpl; [reflexivity|]. rewrite IH. reflexivity. }
  rewrite E. destruct history; reflexivity.
Qed.

Lemma get_last_message_id_elasticsearch_reads (es_client : AsyncElasticsearch)
  (c : Z) (w : World) :
  exists indexed, get_last_message_id_elasticsearch es_client c w = Some (Ok indexed, w).
Proof.
  unfold get_last_message_id_elasticsearch, call_search. unfold_m.
  destruct (search es_client c (es_index w)) as [[|h hits]|e]; eauto.
Qed.

(** C1.  [smart_sync_channel] decides on the two last ids alone, in this
    order: no remote id, skip as not accessible; no indexed id, full sync
    after a backfill from cutoff 0; equal ids, skip with nothing processed;
    remote id greater, incremental sync after a backfill from the indexed
    id; indexed id greater, skip with a warning.  A skip leaves the world,
    and with it the index, untouched. *)
Theorem smart_sync_follows_the_decision_table
  (p : Platform) (es_client : AsyncElasticsearch) (c : Z) (si : bool)
  (mm : option MinIOManager) (fuel : nat) (w : World) :
  newest_first (history_of p c) = true ->
  length (history_of p c) < fuel ->
  exists remote indexed,
    get_last_message_id_telegram (telethon_of p) c w = Some (Ok remote, w)
    /\ get_last_message_id_elasticsearch es_client c w = Some (Ok indexed, w)
    /\ match remote, indexed with
       | None, _ =>
           smart_sync_channel fuel c (telethon_of p) es_client si mm w =
           Some (Ok (Some (Outcome.plain c Outcome.skip
                             "Channel not accessible on Telegram" false)), w)
       | Some r, None =>
           exists stats w',
             sync_missing_messages (telethon_of p) es_client c 0 si mm fuel w
             = Some (Ok stats, w')
             /\ smart_sync_channel fuel c (telethon_of p) es_client si mm w =
                Some (Ok (Some (Outcome.with_stats c Outcome.full_sync
                                  "No data in Elasticsearch" true stats)), w')
       | Some r, Some i =>
           (r = i ->
            smart_sync_channel fuel c (telethon_of p) es_client si mm w =
            Some (Ok (Some (Outcome.nothing_processed c Outcome.skip
                              "Last message IDs are equal" true)), w))
           /\ ((i < r)%Z ->
               exists stats w',
                 sync_missing_messages (telethon_of p) es_client c i si mm fuel w
                 = Some (Ok stats, w')
                 /\ smart_sync_channel fuel c (telethon_of p) es_client si mm w =
                    Some (Ok (Some (Outcome.with_stats c Outcome.incremental_sync
                                      ("Synced messages from " +:+ Py.str (i + 1)
                                       +:+ " to " +:+ Py.str r)
                                      true stats)), w'))
           /\ ((r < i)%Z ->
               smart_sync_channel fuel c (telethon_of p) es_client si mm w =
               Some (Ok (Some (Outcome.nothing_processed c Outcome.skip
                                 "Elasticsearch has higher message ID than Telegram"
                                 true)), w))
       end.
Proof.
  intros Hnf Hfuel.
  pose proof (get_last_message_id_telegram_on_platform p c w) as Htg.
  destruct (get_last_message_id_elasticsearch_reads es_client c w) as [indexed Hes].
  eexists _, indexed. split; [exact Htg|]. split; [exact Hes|].
  assert (Hrun : forall (k : option Z -> option Z -> M (option Outcome.t)) h,
             try_except
               (bind (get_last_message_id_telegram (telethon_of p) c)
                  (fun tg => bind (get_last_message_id_elasticsearch es_client c)
                               (fun es => k tg es))) h w =
             try_except
               (k (match history_of p c with
                   | m :: _ => Some (Tg.id m)
                   | [] => None
                   end) indexed) h w).
  { intros k h. unfold try_except, bind. rewrite Htg, Hes. reflexivity. }
  unfold smart_sync_channel. rewrite Hrun. clear Hrun Htg Hes.
  destruct (history_of p c) as [|m l] eqn:Hh; [reflexivity|].
  assert (Hc : chats p !! c = Some (m :: l)).
  { unfold history_of in Hh. destruct (chats p !! c); simpl in Hh; congruence. }
  assert (Hsync : forall cutoff, exists stats w',
             sync_missing_messages (telethon_of p) es_client c cutoff si mm fuel w
             = Some (Ok stats, w')).
  { intros cutoff.
    destruct (sync_missing_messages_returns p es_client c cutoff si mm (m :: l) fuel w
                Hc Hnf Hfuel) as (s & w' & E & _). eauto. }
  destruct indexed as [i|].
  - split; [|split].
    + intros <-. rewrite Z.eqb_refl. reflexivity.
    + intros Hlt. destruct (Hsync i) as (s & w' & E). exists s, w'. split; [exact E|].
      replace (Tg.id m =? i)%Z with false by (symmetry; apply Z.eqb_neq; lia).
      replace (Tg.id m >? i)%Z with true by (symmetry; apply Z.gtb_lt; lia).
      unfold try_except, bind. rewrite E. reflexivity.
    + intros Hlt.
      replace (Tg.id m =? i)%Z with false by (symmetry; apply Z.eqb_neq; lia).
      replace (Tg.id m >? i)%Z with false
        by (symmetry; rewrite Z.gtb_ltb; apply Z.ltb_ge; lia).
      replace (i >? Tg.id m)%Z with true by (symmetry; apply Z.gtb_lt; lia).
      reflexivity.
  - destruct (Hsync 0%Z) as (s & w' & E). exists s, w'. split; [exact E|].
    unfold try_except, bind. rewrite E. reflexivity.
Qed.

Lemma smart_sync_decision_witness :
  exists remote indexed,
    get_last_message_id_telegram (telethon_of (one_channel 5 (countdown 3))) 5 blank_world
    = Some (Ok remote, blank_world)
    /\ get_last_message_id_elasticsearch es_node 5 blank_world
       = Some (Ok indexed, blank_world)
    /\ match remote, indexed with
       | None, _ =>
           smart_sync_channel 4 5 (telethon_of (one_channel 5 (countdown 3))) es_node
             false None blank_world =
           Some (Ok (Some (Outcome.plain 5 Outcome.skip
                             "Channel not accessible on Telegram" false)), blank_world)
       | Some r, None =>
           exists stats w',
             sync_missing_messages (telethon_of (one_channel 5 (countdown 3))) es_node
               5 0 false None 4 blank_world
             = Some (Ok stats, w')
             /\ smart_sync_channel 4 5 (telethon_of (one_channel 5 (countdown 3))) es_node
                  false None blank_world =
                Some (Ok (Some (Outcome.with_stats 5 Outcome.full_sync
                                  "No data in Elasticsearch" true stats)), w')
       | Some r, Some i =>
           (r = i ->
            smart_sync_channel 4 5 (telethon_of (one_channel 5 (countdown 3))) es_node
              false None blank_world =
            Some (Ok (Some (Outcome.nothing_processed 5 Outcome.skip
                              "Last message IDs are equal" true)), blank_world))
           /\ ((i < r)%Z ->
               exists stats w',
                 sync_missing_messages (telethon_of (one_channel 5 (countdown 3))) es_node
                   5 i false None 4 blank_world
                 = Some (Ok stats, w')
                 /\ smart_sync_channel 4 5 (telethon_of (one_channel 5 (countdown 3)))
                      es_node false None blank_world =
                    Some (Ok (Some (Outcome.with_stats 5 Outcome.incremental_sync
                                      ("Synced messages from " +:+ Py.str (i + 1)
                                       +:+ " to " +:+ Py.str r)
                                      true stats)), w'))
           /\ ((r < i)%Z ->
               smart_sync_channel 4 5 (telethon_of (one_channel 5 (countdown 3))) es_node
                 false None blank_world =
               Some (Ok (Some (Outcome.nothing_processed 5 Outcome.skip
                                 "Elasticsearch has higher message ID than Telegram"
                                 true)), blank_world))
       end.
Proof.
  apply (smart_sync_follows_the_decision_table (one_channel 5 (countdown 3)) es_node 5
           false None 4 blank_world);
    [reflexivity | vm_compute; lia].
Defined.

(** ** Backfill: failed messages *)

(** C5.  A channel whose newest message carries a photo that cannot be
    downloaded, backfilled with image download switched on: the message is
    skipped and the next one is processed, but the failure counter stays at
    zero.  [process_message] turns the failure into [None] before the
    counting [except] arm of the loop can see it. *)
Theorem failed_message_is_skipped_but_not_counted :
  result_of
    (sync_missing_messages
       (telethon_of (one_channel 5 [photo_message 2; plain_message 1])) es_node 5 0
       true (Some sample_minio) 3)
    blank_world
  = Some (Ok {| Stats.messages_processed := 1;
                Stats.images_downloaded := 0;
                Stats.images_failed := 0;
                Stats.elasticsearch_success := 1;
                Stats.elasticsearch_failed := 0 |})
  /\ result_of
       (process_message (photo_message 2) 5
          (telethon_of (one_channel 5 [photo_message 2; plain_message 1])) true
          (Some sample_minio))
       blank_world
     = Some (Ok None).
Proof. split; vm_compute; reflexivity. Qed.

(** ** The explicit window *)

Lemma window_message_counts (tc : TelegramClient) (minio : MinIOManager) (c : Z)
  (si : bool) (size : Z) (m : Tg.Message) (t : Tally) (w : World) :
  (forall w, exists info w',
      process_message m c tc si (task_minio_manager minio si) w = Some (Ok (Some info), w')) ->
  exists t' w',
    window_message tc minio c si size m t w = Some (Ok t', w')
    /\ length (processed_messages t') = S (length (processed_messages t)).
Proof.
  intros H. destruct (H w) as (info & w1 & E).
  unfold window_message, SyncTask.update_progress. unfold_m. rewrite E.
  eexists _, _. split; [reflexivity|]. simpl. rewrite length_app. simpl. lia.
Qed.

Lemma window_batch_counts (tc : TelegramClient) (minio : MinIOManager) (c : Z)
  (si : bool) (size : Z) (page : list Tg.Message) (t : Tally) (w : World) :
  always_normalised tc c si (task_minio_manager minio si) page ->
  (processed_count t + Z.of_nat (length page) <= size)%Z ->
  exists t' w',
    window_batch tc minio c si size page t w = Some (Ok t', w')
    /\ length (processed_messages t') = length (processed_messages t) + length page.
Proof.
  revert t w. induction page as [|m page IH]; intros t w Hn Hsize.
  - exists t, w. split; [reflexivity|]. simpl. lia.
  - cbn [window_batch]. simpl length in Hsize.
    replace (processed_count t >=? size)%Z with false
      by (symmetry; rewrite Z.geb_leb; apply Z.leb_gt; lia).
    destruct (window_message_counts tc minio c si size m t w) as (t1 & w1 & E1 & L1).
    { apply Hn. left. reflexivity. }
    destruct (IH t1 w1) as (t2 & w2 & E2 & L2).
    { intros x Hx. apply Hn. right. exact Hx. }
    { unfold processed_count in *. lia. }
    exists t2, w2. unfold bind. rewrite E1. split; [exact E2|]. simpl. lia.
Qed.

Lemma in_take {A} (x : A) (n : nat) (l : list A) : In x (take n l) -> In x l.
Proof.
  revert l. induction n as [|n IH]; intros [|y l]; simpl; try tauto.
  intros [H|H]; auto.
Qed.

Lemma in_drop {A} (x : A) (n : nat) (l : list A) : In x (drop n l) -> In x l.
Proof.
  revert l. induction n as [|n IH]; intros [|y l]; simpl; try tauto.
  intros H. right. apply IH, H.
Qed.

Lemma last_of_nonempty {A} (l : list A) : 0 < length l -> exists x, last l = Some x.
Proof.
  intros H. destruct (last l) eqn:E; eauto.
  apply last_None in E. subst. simpl in H. lia.
Qed.

(** One round of the window loop that fetches a full page. *)
Lemma window_round_full (tc : TelegramClient) (minio : MinIOManager) (c : Z) (si : bool)
  (size batch_size : Z) (fuel : nat) (o : Z) (t t1 : Tally) (w w1 : World)
  (page : list Tg.Message) (oldest : Tg.Message) :
  (processed_count t < size)%Z ->
  get_messages tc c (Z.min batch_size (size - processed_count t)) o = Ok page ->
  last page = Some oldest ->
  window_batch tc minio c si size page t w = Some (Ok t1, w1) ->
  (Z.min batch_size (size - processed_count t) <= Z.of_nat (length page))%Z ->
  window_loop tc minio c si size batch_size (S fuel) o t w =
  window_loop tc minio c si size batch_size fuel (Tg.id oldest) t1 w1.
Proof.
  intros Hlt Hget Hlast Hbatch Hfull. cbn [window_loop].
  replace (processed_count t <? size)%Z with true by (symmetry; apply Z.ltb_lt; lia).
  unfold lift, bind at 1. rewrite Hget, Hlast. unfold bind at 1. rewrite Hbatch.
  unfold asyncio_sleep, bind at 1, ret at 1.
  replace (Z.of_nat (length page) <? Z.min batch_size (size - processed_count t))%Z
    with false by (symmetry; apply Z.ltb_ge; lia).
  reflexivity.
Qed.

(** The round that finds the window filled. *)
Lemma window_round_done (tc : TelegramClient) (minio : MinIOManager) (c : Z) (si : bool)
  (size batch_size : Z) (fuel : nat) (o : Z) (t : Tally) (w : World) :
  (size <= processed_count t)%Z ->
  window_loop tc minio c si size batch_size (S fuel) o t w = Some (Ok t, w).
Proof.
  intros Hge. cbn [window_loop].
  replace (processed_count t <? size)%Z with false by (symmetry; apply Z.ltb_ge; lia).
  reflexivity.
Qed.

(** The window of 100 in batches of 50 on a channel with at least 100
    messages: two full pages are processed, the third round finds the window
    filled. *)
Lemma window_of_100_is_filled (p : Platform) (minio : MinIOManager) (c : Z) (si : bool)
  (history : list Tg.Message) (fuel : nat) (w : World) :
  chats p !! c = Some history ->
  newest_first history = true ->
  100 <= length history ->
  always_normalised (telethon_of p) c si (task_minio_manager minio si) history ->
  3 <= fuel ->
  exists t' w',
    window_loop (telethon_of p) minio c si 100 50 fuel 0 empty_tally w = Some (Ok t', w')
    /\ length (processed_messages t') = 100.
Proof.
  intros Hc Hnf Hlen Hn Hfuel.
  destruct fuel as [|[|[|fuel]]]; try lia.
  destruct (newest_first_below history Hnf) as [b Hb].
  assert (H0 : List.filter (older_than 0) history = history).
  { clear. induction history as [|m l IH]; simpl; [reflexivity|]. rewrite IH. reflexivity. }
  assert (L1 : length (take 50 history) = 50) by (rewrite length_take; lia).
  assert (L2 : length (take 50 (drop 50 history)) = 50)
    by (rewrite length_take, length_drop; lia).
  destruct (last_of_nonempty (take 50 history)) as [oldest1 Hlast1]; [lia|].
  destruct (last_of_nonempty (take 50 (drop 50 history))) as [oldest2 Hlast2]; [lia|].
  destruct (next_page_starts_after_oldest history history 0 b 50 oldest1 H0 Hb Hlast1)
    as (Hnext & _ & _).
  destruct (window_batch_counts (telethon_of p) minio c si 100 (take 50 history)
              empty_tally w) as (t1 & w1 & E1 & C1).
  { intros m Hm. apply Hn. eapply in_take, Hm. }
  { rewrite L1. change (processed_count empty_tally) with 0%Z. lia. }
  simpl in C1. rewrite L1 in C1.
  assert (P1 : processed_count t1 = 50%Z) by (unfold processed_count; rewrite C1; lia).
  destruct (window_batch_counts (telethon_of p) minio c si 100 (take 50 (drop 50 history))
              t1 w1) as (t2 & w2 & E2 & C2).
  { intros m Hm. apply Hn. eapply in_drop, in_take, Hm. }
  { rewrite L2, P1. lia. }
  rewrite L2, C1 in C2.
  assert (P2 : processed_count t2 = 100%Z) by (unfold processed_count; rewrite C2; lia).
  exists t2, w2. split; [|exact C2].
  rewrite (window_round_full _ _ _ _ _ _ _ _ _ t1 _ w1 (take 50 history) oldest1);
    [ | change (processed_count empty_tally) with 0%Z; lia
      | change (processed_count empty_tally) with 0%Z; cbn [get_messages telethon_of];
        rewrite Hc; unfold history_page; rewrite H0; reflexivity
      | exact Hlast1 | exact E1
      | change (processed_count empty_tally) with 0%Z; rewrite L1; lia ].
  rewrite (window_round_full _ _ _ _ _ _ _ _ _ t2 _ w2 (take 50 (drop 50 history)) oldest2);
    [ | rewrite P1; lia
      | rewrite P1; cbn [get_messages telethon_of];
        rewrite Hc; unfold history_page; rewrite Hnext; reflexivity
      | exact Hlast2 | exact E2
      | rewrite P1, L2; lia ].
  apply window_round_done. rewrite P2. lia.
Qed.

(** The explicit window with [size] 100, [offset] 0 and [batch_size] 50, on
    a channel with at least 100 messages that are all normalised into
    records, reports exactly 100 processed messages and [has_more] true:
    [has_more] says that the window was filled. *)
Lemma explicit_window_of_100_is_filled_and_has_more
  (request_id : string) (p : Platform) (es_client : AsyncElasticsearch)
  (minio : MinIOManager) (c : Z) (sync_chat si : bool)
  (history : list Tg.Message) (fuel : nat) (w : World) :
  chats p !! c = Some history ->
  newest_first history = true ->
  100 <= length history ->
  always_normalised (telethon_of p) c si (task_minio_manager minio si) history ->
  sync_chat || si = true ->
  3 <= fuel ->
  exists r w',
    sync_channel_messages_task request_id (telethon_of p) es_client minio c sync_chat si
      100 0 50 fuel w = Some (Ok r, w')
    /\ SyncResult.messages_processed r = 100
    /\ SyncResult.has_more r = true.
Proof.
  intros Hc Hnf Hlen Hn Hflags Hfuel.
  unfold sync_channel_messages_task. rewrite try_except_reraise.
  unfold run_sync. unfold lift at 1, bind at 1. cbn [start telethon_of].
  replace (negb sync_chat && negb si) with false
    by (destruct sync_chat, si; simpl in *; congruence).
  unfold SyncTask.update_progress at 1, modify at 1, bind at 1.
  change (0 >? 0)%Z with false. cbv iota. unfold bind at 1, ret at 1.
  match goal with
  | |- context [set_task_meta ?l w] => set (w0 := set_task_meta l w)
  end.
  destruct (window_of_100_is_filled p minio c si history fuel w0 Hc Hnf Hlen Hn Hfuel)
    as (t & w1 & E & C).
  unfold bind at 1. rewrite E.
  assert (Hbulk : exists sf w2,
             match sync_chat, processed_messages t with
             | true, _ :: _ =>
                 execute_elasticsearch_bulk_insert es_client
                   (map bulk_action (processed_messages t))
             | _, _ => ret (0, 0)
             end w1 = Some (Ok sf, w2)).
  { destruct sync_chat; [|eexists _, _; reflexivity].
    destruct (processed_messages t) as [|mi l]; [eexists _, _; reflexivity|].
    apply bulk_insert_returns. }
  destruct Hbulk as ([s f] & w2 & Eb).
  unfold bind at 1. rewrite Eb.
  unfold SyncTask.update_progress, modify, bind, ret.
  eexists _, _. split; [reflexivity|]. cbn [SyncResult.messages_processed SyncResult.has_more].
  split; [exact C|]. unfold processed_count. rewrite C. reflexivity.
Qed.

Lemma explicit_window_witness :
  exists r w',
    sync_channel_messages_task "task" (telethon_of (one_channel 5 (countdown 101)))
      es_node sample_minio 5 true false 100 0 50 3 blank_world = Some (Ok r, w')
    /\ SyncResult.messages_processed r = 100
    /\ SyncResult.has_more r = true.
Proof.
  apply (explicit_window_of_100_is_filled_and_has_more "task"
           (one_channel 5 (countdown 101)) es_node sample_minio 5 true false
           (countdown 101) 3 blank_world).
  - reflexivity.
  - vm_compute. reflexivity.
  - vm_compute. lia.
  - intros m Hm w. apply process_message_without_images.
    exact (countdown_without_media _ m Hm).
  - reflexivity.
  - lia.
Defined.

(** C4.  On a channel of exactly 100 messages the explicit window with
    [size] 100, [offset] 0 and [batch_size] 50 reports 100 processed
    messages and [has_more] true, although there is no 101st message: asked
    for one message older than the last one processed, the platform serves
    none.  [has_more] is computed as [len(processed_messages) == size],
    without looking for a further message. *)
Theorem has_more_is_set_without_a_101st_message :
  exists r,
    result_of
      (sync_channel_messages_task "task" (telethon_of (one_channel 5 (countdown 100)))
         es_node sample_minio 5 true false 100 0 50 3)
      blank_world = Some (Ok r)
    /\ SyncResult.messages_processed r = 100
    /\ SyncResult.has_more r = true
    /\ length (countdown 100) = 100
    /\ option_map Tg.id (last (countdown 100)) = Some 1%Z
    /\ get_messages (telethon_of (one_channel 5 (countdown 100))) 5 1 1 = Ok []
    /\ ~ (SyncResult.has_more r = true <-> 100 < length (countdown 100)).
Proof.
  eexists. split; [vm_compute; reflexivity|]. split; [reflexivity|].
  split; [reflexivity|]. split; [reflexivity|]. split; [reflexivity|].
  split; [vm_compute; reflexivity|].
  intros [H _]. specialize (H eq_refl). vm_compute in H. lia.
Qed.

(** ** Backfill twice *)

(** Normalising a message in two worlds gives the same record up to
    [indexed_at], or no record in both. *)
Lemma process_message_alike (tg_msg : Tg.Message) (c : Z) (client : TelegramClient)
  (si : bool) (mm : option MinIOManager) (w1 w2 : World) :
  ran_alike (option_Forall2 same_info) w1 w2
    (process_message tg_msg c client si mm w1)
    (process_message tg_msg c client si mm w2).
Proof.
  unfold ran_alike, process_message, fetch_and_upload, upload_image, call_put_object,
    image_format, media_markers.
  crush_m; simplify_eq; simpl;
    repeat first [ split | constructor | progress unfold same_info, same_record
                 | progress simpl ].
Qed.

Lemma record_message_alike (si : bool) (a b : Models.MessageInfo) (t u : Tally) :
  same_info a b -> same_tally t u ->
  same_tally (record_message si a t) (record_message si b u).
Proof.
  intros Hab (Hp & Hd & Hf). unfold same_tally, record_message. simpl.
  split; [|split].
  - apply Forall2_app; [exact Hp|]. constructor; [exact Hab | constructor].
  - destruct Hab as (_ & _ & _ & _ & _ & _ & Hurls). simpl in Hurls.
    rewrite Hurls, Hd. reflexivity.
  - exact Hf.
Qed.

Lemma backfill_message_alike (tc : TelegramClient) (c : Z) (si : bool)
  (mm : option MinIOManager) (m : Tg.Message) (t u : Tally) (w1 w2 : World) :
  same_tally t u ->
  exists t' u' w1' w2',
    backfill_message tc c si mm m t w1 = Some (Ok t', w1')
    /\ backfill_message tc c si mm m u w2 = Some (Ok u', w2')
    /\ same_tally t' u'
    /\ es_index w1' = es_index w1 /\ es_index w2' = es_index w2.
Proof.
  intros Htu. pose proof (process_message_alike m c tc si mm w1 w2) as H.
  unfold backfill_message. unfold_m. unfold ran_alike in H.
  destruct (process_message_returns m c tc si mm w1) as (o1 & w1' & E1 & _).
  destruct (process_message_returns m c tc si mm w2) as (o2 & w2' & E2 & _).
  rewrite E1, E2 in *. destruct H as (Ho & F1 & F2).
  destruct Ho as [a b Hab|].
  - eexists _, _, _, _. split; [reflexivity|]. split; [reflexivity|].
    split; [|split; assumption].
    apply record_message_alike; [exact Hab | exact Htu].
  - eexists _, _, _, _. split; [reflexivity|]. split; [reflexivity|].
    split; [exact Htu | split; assumption].
Qed.

Lemma backfill_page_alike (tc : TelegramClient) (c cutoff : Z) (si : bool)
  (mm : option MinIOManager) (page : list Tg.Message) (t u : Tally) (w1 w2 : World) :
  same_tally t u ->
  exists found t' u' w1' w2',
    backfill_page tc c cutoff si mm page t w1 = Some (Ok (found, t'), w1')
    /\ backfill_page tc c cutoff si mm page u w2 = Some (Ok (found, u'), w2')
    /\ same_tally t' u'
    /\ es_index w1' = es_index w1 /\ es_index w2' = es_index w2.
Proof.
  revert t u w1 w2. induction page as [|m page IH]; intros t u w1 w2 Htu; simpl.
  - exists false, t, u, w1, w2. auto.
  - destruct (Tg.id m <=? cutoff)%Z.
    + exists true, t, u, w1, w2. auto.
    + destruct (backfill_message_alike tc c si mm m t u w1 w2 Htu)
        as (t1 & u1 & w1a & w2a & E1 & E2 & H1 & F1 & F2).
      destruct (IH t1 u1 w1a w2a H1) as (found & t2 & u2 & w1b & w2b & G1 & G2 & H2 & K1 & K2).
      exists found, t2, u2, w1b, w2b. unfold bind. rewrite E1, E2.
      split; [exact G1|]. split; [exact G2|]. split; [exact H2|].
      split; congruence.
Qed.

Lemma backfill_loop_round (tc : TelegramClient) (c cutoff : Z) (si : bool)
  (mm : option MinIOManager) (fuel : nat) (o : Z) (t : Tally) (w : World) :
  backfill_loop tc c cutoff si mm (S fuel) o t w =
  match get_messages tc c 100 o with
  | Ok page =>
      match last page with
      | Some oldest =>
          match backfill_page tc c cutoff si mm page t w with
          | Some (Ok (found, t'), w') =>
              if found then Some (Ok t', w')
              else backfill_loop tc c cutoff si mm fuel (Tg.id oldest) t' w'
          | Some (Raise e, w') => Some (Raise e, w')
          | None => None
          end
      | None => Some (Ok t, w)
      end
  | Raise e => Some (Raise e, w)
  end.
Proof.
  cbn [backfill_loop]. unfold lift, bind, asyncio_sleep, ret.
  destruct (get_messages tc c 100 o) as [page|e]; [|reflexivity].
  destruct (last page) as [oldest|]; [|reflexivity].
  destruct (backfill_page tc c cutoff si mm page t w) as [[[[found t'] | e] w']|];
    try reflexivity.
  destruct found; reflexivity.
Qed.

Lemma backfill_loop_alike (tc : TelegramClient) (c cutoff : Z) (si : bool)
  (mm : option MinIOManager) (fuel : nat) :
  forall (o : Z) (t u : Tally) (w1 w2 : World),
    same_tally t u ->
    ran_alike same_tally w1 w2
      (backfill_loop tc c cutoff si mm fuel o t w1)
      (backfill_loop tc c cutoff si mm fuel o u w2).
Proof.
  induction fuel as [|fuel IH]; intros o t u w1 w2 Htu; [exact I|].
  rewrite !backfill_loop_round.
  destruct (get_messages tc c 100 o) as [page|e]; [|exact I].
  destruct (last page) as [oldest|].
  - destruct (backfill_page_alike tc c cutoff si mm page t u w1 w2 Htu)
      as (found & t1 & u1 & w1a & w2a & E1 & E2 & H1 & F1 & F2).
    rewrite E1, E2.
    destruct found.
    + unfold ran_alike. auto.
    + specialize (IH (Tg.id oldest) t1 u1 w1a w2a H1). unfold ran_alike in *.
      destruct (backfill_loop tc c cutoff si mm fuel (Tg.id oldest) t1 w1a)
        as [[[ta|ea] wa]|],
        (backfill_loop tc c cutoff si mm fuel (Tg.id oldest) u1 w2a)
        as [[[tb|eb] wb]|]; try exact IH.
      destruct IH as (H & K1 & K2). split; [exact H|]. split; congruence.
  - unfold ran_alike. auto.
Qed.

(** ** Upserts *)

Lemma lookup_after_upserts (actions : list Es.Action) (i : Index) (k : string) :
  foldl upsert i actions !! k =
  match latest_action k actions with
  | Some s => Some s
  | None => i !! k
  end.
Proof.
  revert i. induction actions as [|a actions IH]; intros i; simpl; [reflexivity|].
  rewrite IH. destruct (latest_action k actions); [reflexivity|].
  unfold upsert. destruct (decide (Es.doc_id a = k)) as [->|Hne].
  - apply lookup_insert_eq.
  - apply lookup_insert_ne, Hne.
Qed.

(** Upserting the same actions once more changes nothing. *)
Lemma upserts_idempotent (actions : list Es.Action) (i : Index) :
  foldl upsert (foldl upsert i actions) actions = foldl upsert i actions.
Proof.
  apply map_eq. intros k. rewrite !lookup_after_upserts.
  destruct (latest_action k actions); reflexivity.
Qed.

Lemma same_content_refl (i : Index) : same_content i i.
Proof.
  intros k. destruct (i !! k); constructor. unfold same_record. auto 10.
Qed.

Lemma upserts_alike (a1 a2 : list Es.Action) :
  Forall2 same_action a1 a2 ->
  forall i j, same_content i j -> same_content (foldl upsert i a1) (foldl upsert j a2).
Proof.
  induction 1 as [|x y a1 a2 [Hid Hsrc] _ IH]; intros i j Hij; [exact Hij|].
  simpl. apply IH. intros k. unfold upsert. rewrite <- Hid.
  destruct (decide (Es.doc_id x = k)) as [->|Hne].
  - rewrite !lookup_insert_eq. constructor. exact Hsrc.
  - rewrite !lookup_insert_ne by exact Hne. apply Hij.
Qed.

Lemma bulk_actions_alike (l1 l2 : list Models.MessageInfo) :
  Forall2 same_info l1 l2 -> Forall2 same_action (map bulk_action l1) (map bulk_action l2).
Proof.
  induction 1 as [|a b l1 l2 Hab _ IH]; simpl; constructor; [|exact IH].
  unfold same_action, bulk_action. simpl. split; [|exact Hab].
  destruct Hab as (Hc & Hm & _). simpl in Hc, Hm. rewrite Hc, Hm. reflexivity.
Qed.

Lemma same_content_dom (i j : Index) : same_content i j -> dom i = dom j.
Proof.
  intros H. apply set_eq. intros k. rewrite !elem_of_dom.
  specialize (H k). destruct H; split; intros [? ?]; eauto; discriminate.
Qed.

(** On a healthy node the part below the loop upserts one action per
    processed record. *)
Lemma store_and_count_on_node (t : Tally) (w : World) :
  exists w',
    store_and_count es_node t w =
    Some (Ok {| Stats.messages_processed := length (processed_messages t);
                Stats.images_downloaded := images_downloaded t;
                Stats.images_failed := images_failed t;
                Stats.elasticsearch_success := length (processed_messages t);
                Stats.elasticsearch_failed := 0 |}, w')
    /\ es_index w' = foldl upsert (es_index w) (map bulk_action (processed_messages t)).
Proof.
  unfold store_and_count. destruct (processed_messages t) as [|mi l] eqn:E.
  - exists w. split; reflexivity.
  - rewrite <- E. unfold bind. rewrite bulk_insert_outcome.
    cbn [async_bulk es_node]. rewrite length_map. unfold ret.
    eexists. split; [reflexivity | reflexivity].
Qed.

(** C2, as the code has it.  A backfill that is run again from the same
    cutoff against the same channel and a healthy node submits the same
    documents under the same ids ["<channel_id>_<message_id>"]: it returns
    the same counts, the index holds the same document ids as after the
    first run, and every document is the same up to its [indexed_at] stamp,
    which the second run sets anew. *)
Theorem backfill_again_keeps_documents_up_to_indexed_at
  (tc : TelegramClient) (c cutoff : Z) (si : bool) (mm : option MinIOManager)
  (fuel : nat) (w w1 : World) (s1 : Stats.t) :
  sync_missing_messages tc es_node c cutoff si mm fuel w = Some (Ok s1, w1) ->
  exists (first second : list Models.MessageInfo) (w2 : World),
    sync_missing_messages tc es_node c cutoff si mm fuel w1 = Some (Ok s1, w2)
    /\ Forall2 same_info first second
    /\ es_index w1 = foldl upsert (es_index w) (map bulk_action first)
    /\ es_index w2 = foldl upsert (es_index w1) (map bulk_action second)
    /\ dom (es_index w2) = dom (es_index w1)
    /\ same_content (es_index w1) (es_index w2).
Proof.
  unfold sync_missing_messages. rewrite !try_except_reraise. unfold bind.
  intros Hrun.
  pose proof (backfill_loop_alike tc c cutoff si mm fuel 0 empty_tally empty_tally w w1)
    as Hsim.
  unfold ran_alike in Hsim.
  destruct (backfill_loop tc c cutoff si mm fuel 0 empty_tally w)
    as [[[t1|e1] wa]|]; try discriminate.
  destruct (backfill_loop tc c cutoff si mm fuel 0 empty_tally w1)
    as [[[t2|e2] wb]|];
    try (exfalso; apply Hsim; repeat split; constructor).
  destruct Hsim as ((Hps & Hd & Hf) & Fa & Fb).
  { split; [constructor | split; reflexivity]. }
  destruct (store_and_count_on_node t1 wa) as (wa' & Ea & Ia).
  destruct (store_and_count_on_node t2 wb) as (wb' & Eb & Ib).
  rewrite Ea in Hrun. injection Hrun as <- <-.
  rewrite Fa in Ia. rewrite Fb in Ib.
  exists (processed_messages t1), (processed_messages t2), wb'.
  assert (Hsame : same_content (es_index wa') (es_index wb')).
  { rewrite Ib. rewrite Ia at 1.
    rewrite <- (upserts_idempotent (map bulk_action (processed_messages t1)) (es_index w)).
    rewrite <- Ia.
    apply upserts_alike; [apply bulk_actions_alike, Hps | apply same_content_refl]. }
  split; [|split; [exact Hps | split; [exact Ia | split; [exact Ib | split]]]].
  - rewrite Eb. rewrite <- (Forall2_length _ _ _ Hps), <- Hd, <- Hf. reflexivity.
  - symmetry. apply same_content_dom, Hsame.
  - exact Hsame.
Qed.

Lemma backfill_again_witness :
  exists (first second : list Models.MessageInfo) (w2 : World),
    sync_missing_messages (telethon_of (one_channel 5 (countdown 1))) es_node 5 0
      false None 2 once_backfilled
    = Some (Ok {| Stats.messages_processed := 1; Stats.images_downloaded := 0;
                  Stats.images_failed := 0; Stats.elasticsearch_success := 1;
                  Stats.elasticsearch_failed := 0 |}, w2)
    /\ Forall2 same_info first second
    /\ es_index once_backfilled = foldl upsert (es_index blank_world) (map bulk_action first)
    /\ es_index w2 = foldl upsert (es_index once_backfilled) (map bulk_action second)
    /\ dom (es_index w2) = dom (es_index once_backfilled)
    /\ same_content (es_index once_backfilled) (es_index w2).
Proof.
  apply (backfill_again_keeps_documents_up_to_indexed_at
           (telethon_of (one_channel 5 (countdown 1))) 5 0 false None 2 blank_world).
  reflexivity.
Defined.

(** C2, as the claim has it, fails: after the second run the one document
    of the channel carries a later [indexed_at], so the index content is
    not the one the first run left. *)
Lemma backfill_again_changes_indexed_at :
  es_index once_backfilled !! "5_1" =
    Some {| Es.channel_id := 5; Es.message_id := 1; Es.sender_name := "";
            Es.time := Some 1%Z; Es.text := "hello"; Es.images := [];
            Es.image_urls := []; Es.indexed_at := Some 0%Z |}
  /\ es_index twice_backfilled !! "5_1" =
    Some {| Es.channel_id := 5; Es.message_id := 1; Es.sender_name := "";
            Es.time := Some 1%Z; Es.text := "hello"; Es.images := [];
            Es.image_urls := []; Es.indexed_at := Some 1%Z |}
  /\ es_index once_backfilled <> es_index twice_backfilled.
Proof.
  assert (H1 : es_index once_backfilled !! "5_1" =
    Some {| Es.channel_id := 5; Es.message_id := 1; Es.sender_name := "";
            Es.time := Some 1%Z; Es.text := "hello"; Es.images := [];
            Es.image_urls := []; Es.indexed_at := Some 0%Z |})
    by (vm_compute; reflexivity).
  assert (H2 : es_index twice_backfilled !! "5_1" =
    Some {| Es.channel_id := 5; Es.message_id := 1; Es.sender_name := "";
            Es.time := Some 1%Z; Es.text := "hello"; Es.images := [];
            Es.image_urls := []; Es.indexed_at := Some 1%Z |})
    by (vm_compute; reflexivity).
  split; [exact H1|]. split; [exact H2|].
  intros E. rewrite E, H2 in H1. discriminate.
Qed.

(** ** Backfill: the walk over the served pages *)

Lemma process_message_gives_record_of (tg_msg : Tg.Message) (c : Z)
  (client : TelegramClient) (si : bool) (mm : option MinIOManager) (w w' : World)
  (info : Models.MessageInfo) :
  process_message tg_msg c client si mm w = Some (Ok (Some info), w') ->
  record_of c tg_msg info.
Proof.
  unfold process_message, fetch_and_upload, upload_image, call_put_object, image_format,
    media_markers, record_of.
  unfold_m.
  repeat (case_goal; simpl in *; try congruence);
    intros H; simplify_eq; simpl; repeat split; auto; discriminate.
Qed.

(** Whether a message is normalised does not depend on the world. *)
Lemma normalises_in_any_world (tg_msg : Tg.Message) (c : Z) (client : TelegramClient)
  (si : bool) (mm : option MinIOManager) (w : World) :
  exists o w',
    process_message tg_msg c client si mm w = Some (Ok o, w')
    /\ es_index w' = es_index w
    /\ if normalises client c si mm tg_msg
       then exists info, o = Some info /\ record_of c tg_msg info
       else o = None.
Proof.
  pose proof (process_message_alike tg_msg c client si mm w blank_world) as H.
  destruct (process_message_returns tg_msg c client si mm w) as (o & w' & E & F).
  destruct (process_message_returns tg_msg c client si mm blank_world)
    as (o0 & w0 & E0 & _).
  exists o, w'. split; [exact E|]. split; [exact F|].
  unfold normalises. rewrite E0. unfold ran_alike in H. rewrite E, E0 in H.
  cbv beta iota in H. destruct H as (H & _ & _).
  destruct o as [info|], o0 as [info0|]; inversion H; subst.
  - exists info. split; [reflexivity|].
    exact (process_message_gives_record_of _ _ _ _ _ _ _ _ E).
  - reflexivity.
Qed.

(** The per-message body run over a list of messages: the records it adds
    are the records of the messages that are normalised, in order. *)
Lemma backfill_messages_records (client : TelegramClient) (c : Z) (si : bool)
  (mm : option MinIOManager) (l : list Tg.Message) :
  forall (t : Tally) (w : World),
  exists t' w' records,
    backfill_messages client c si mm l t w = Some (Ok t', w')
    /\ es_index w' = es_index w
    /\ processed_messages t' = processed_messages t ++ records
    /\ Forall2 (record_of c) (List.filter (normalises client c si mm) l) records.
Proof.
  induction l as [|m l IH]; intros t w.
  - exists t, w, []. simpl. rewrite app_nil_r. repeat split; constructor.
  - cbn [backfill_messages List.filter]. unfold bind at 1.
    unfold backfill_message. unfold try_except at 1. unfold bind at 1.
    destruct (normalises_in_any_world m c client si mm w) as (o & w1 & E & F & Hn).
    rewrite E.
    destruct (normalises client c si mm m).
    + destruct Hn as (info & -> & Hrec). unfold ret at 1.
      destruct (IH (record_message si info t) w1) as (t' & w' & records & E' & F' & P & R).
      exists t', w', (info :: records). split; [exact E'|].
      split; [congruence|]. split.
      * rewrite P. cbn [record_message processed_messages]. rewrite <- app_assoc.
        reflexivity.
      * constructor; assumption.
    + subst o. unfold ret at 1.
      destruct (IH t w1) as (t' & w' & records & E' & F' & P & R).
      exists t', w', records. split; [exact E'|]. split; [congruence|].
      split; assumption.
Qed.

Lemma newer_prefix_app (cutoff : Z) (l1 l2 : list Tg.Message) :
  newer_prefix cutoff (l1 ++ l2) =
  if forallb (newer_than cutoff) l1
  then l1 ++ newer_prefix cutoff l2
  else newer_prefix cutoff l1.
Proof.
  induction l1 as [|m l1 IH]; simpl; [reflexivity|].
  destruct (newer_than cutoff m); simpl; [|reflexivity].
  rewrite IH. destruct (forallb (newer_than cutoff) l1); reflexivity.
Qed.

Lemma newer_prefix_above (cutoff : Z) (l : list Tg.Message) :
  Forall (fun m => (cutoff < Tg.id m)%Z) (newer_prefix cutoff l).
Proof.
  induction l as [|m l IH]; simpl; [constructor|].
  destruct (newer_than cutoff m) eqn:H; [|constructor].
  constructor; [apply Z.ltb_lt, H | exact IH].
Qed.

(** The loop on served pages: it runs the per-message body on the messages
    in front of the first one at or below the cutoff, and asks for no page
    behind the one that holds it. *)
Lemma backfill_loop_on_served_pages (client : TelegramClient) (c cutoff : Z) (si : bool)
  (mm : option MinIOManager) (pages : list (list Tg.Message)) :
  forall (fuel : nat) (offset_id : Z) (t : Tally) (w : World),
    served_pages client c cutoff offset_id pages ->
    length pages < fuel ->
    backfill_loop client c cutoff si mm fuel offset_id t w =
    backfill_messages client c si mm (newer_prefix cutoff (concat pages)) t w.
Proof.
  induction pages as [|page rest IH]; intros [|fuel] offset_id t w Hserved Hfuel;
    try (simpl in Hfuel; lia).
  - cbn [served_pages] in Hserved. cbn [backfill_loop]. unfold lift, bind at 1.
    rewrite Hserved. reflexivity.
  - cbn [served_pages] in Hserved. destruct Hserved as [Hpage Hnext].
    cbn [backfill_loop]. unfold lift, bind at 1. rewrite Hpage.
    destruct (last page) as [oldest|] eqn:Hlast; [|contradiction].
    unfold bind at 1. rewrite backfill_page_spec. unfold bind at 1.
    destruct (backfill_messages_returns client c si mm (newer_prefix cutoff page) t w)
      as (t1 & w1 & E1 & _).
    rewrite E1. unfold ret at 1. unfold asyncio_sleep, bind, ret.
    cbn [concat]. rewrite newer_prefix_app.
    destruct (forallb (newer_than cutoff) page) eqn:Hall; cbn [negb].
    + rewrite (IH fuel (Tg.id oldest) t1 w1 Hnext) by (simpl in Hfuel; lia).
      rewrite backfill_messages_app. unfold bind.
      rewrite (newer_prefix_all _ _ Hall) in E1. rewrite E1. reflexivity.
    + rewrite E1. reflexivity.
Qed.

(** C3.  Backfill asks for the pages newest first, one after the other,
    and stops at the first served message at or below the cutoff, or at the
    first empty answer: the messages it handles are those in front of that
    message in the served pages, all of them above the cutoff, and nothing
    behind it, whatever its id.  Each of them that is normalised gives one
    record, in order, and these records are what is counted and stored.  On
    pages that are newest first, the messages handled are exactly the served
    messages above the cutoff. *)
Theorem backfill_processes_exactly_the_messages_above_the_cutoff
  (client : TelegramClient) (c cutoff : Z) (si : bool) (mm : option MinIOManager)
  (pages : list (list Tg.Message)) (fuel : nat) (w : World) :
  served_pages client c cutoff 0 pages ->
  length pages < fuel ->
  exists s w' records,
    sync_missing_messages client es_node c cutoff si mm fuel w = Some (Ok s, w')
    /\ Forall2 (record_of c)
         (List.filter (normalises client c si mm) (newer_prefix cutoff (concat pages)))
         records
    /\ Stats.messages_processed s = length records
    /\ Stats.elasticsearch_success s = length records
    /\ es_index w' = foldl upsert (es_index w) (map bulk_action records)
    /\ Forall (fun m => (cutoff < Tg.id m)%Z) (newer_prefix cutoff (concat pages))
    /\ (newest_first (concat pages) = true ->
        newer_prefix cutoff (concat pages)
        = List.filter (newer_than cutoff) (concat pages)).
Proof.
  intros Hserved Hfuel.
  unfold sync_missing_messages. rewrite try_except_reraise. unfold bind.
  rewrite (backfill_loop_on_served_pages client c cutoff si mm pages fuel 0
             empty_tally w Hserved Hfuel).
  destruct (backfill_messages_records client c si mm
              (newer_prefix cutoff (concat pages)) empty_tally w)
    as (t & w1 & records & E & F & P & R).
  rewrite E. cbn [processed_messages empty_tally app] in P.
  destruct (store_and_count_on_node t w1) as (w2 & E2 & F2).
  rewrite E2. rewrite P in F2. rewrite P. rewrite F in F2.
  eexists _, w2, records. split; [reflexivity|].
  split; [exact R|]. split; [reflexivity|]. split; [reflexivity|].
  split; [exact F2|]. split; [apply newer_prefix_above|].
  intros Hnf. destruct (newest_first_below _ Hnf) as [b Hb].
  exact (newer_prefix_is_filter b cutoff _ Hb).
Qed.

Lemma backfill_above_cutoff_witness :
  exists s w' records,
    sync_missing_messages (telethon_of (one_channel 5 shuffled_page)) es_node 5 2
      false None 2 blank_world = Some (Ok s, w')
    /\ Forall2 (record_of 5)
         (List.filter (normalises (telethon_of (one_channel 5 shuffled_page)) 5 false None)
            (newer_prefix 2 (concat [shuffled_page])))
         records
    /\ Stats.messages_processed s = length records
    /\ Stats.elasticsearch_success s = length records
    /\ es_index w' = foldl upsert (es_index blank_world) (map bulk_action records)
    /\ Forall (fun m => (2 < Tg.id m)%Z) (newer_prefix 2 (concat [shuffled_page]))
    /\ (newest_first (concat [shuffled_page]) = true ->
        newer_prefix 2 (concat [shuffled_page])
        = List.filter (newer_than 2) (concat [shuffled_page])).
Proof.
  apply (backfill_processes_exactly_the_messages_above_the_cutoff
           (telethon_of (one_channel 5 shuffled_page)) 5 2 false None [shuffled_page] 2
           blank_world).
  - vm_compute. split; reflexivity.
  - simpl. lia.
Defined.

(** Two pages on the platform: of 150 messages with cutoff 20, the first
    page holds messages 150 to 51, the second one shows the cutoff, and the
    130 messages above it are stored. *)
Lemma backfill_walks_two_pages :
  served_pages (telethon_of (one_channel 5 (countdown 150))) 5 20 0
    [take 100 (countdown 150); drop 100 (countdown 150)]
  /\ exists s w',
       sync_missing_messages (telethon_of (one_channel 5 (countdown 150))) es_node 5 20
         false None 3 blank_world = Some (Ok s, w')
       /\ Stats.messages_processed s = 130
       /\ size (es_index w') = 130.
Proof.
  split; [vm_compute; repeat split|].
  eexists _, _. split; [vm_compute; reflexivity|]. split; vm_compute; reflexivity.
Qed.

(** On the page that is not newest first, message 4 sits behind message 1
    and is not handled although it is above the cutoff 2: one record, of
    message 5, is stored. *)
Lemma backfill_stops_at_the_first_message_at_the_cutoff :
  newer_prefix 2 shuffled_page = [plain_message 5]
  /\ List.filter (newer_than 2) shuffled_page = [plain_message 5; plain_message 4]
  /\ exists s w',
       sync_missing_messages (telethon_of (one_channel 5 shuffled_page)) es_node 5 2
         false None 2 blank_world = Some (Ok s, w')
       /\ Stats.messages_processed s = 1
       /\ map fst (map_to_list (es_index w')) = ["5_5"].
Proof.
  split; [reflexivity|]. split; [reflexivity|].
  eexists _, _. split; [vm_compute; reflexivity|]. split; vm_compute; reflexivity.
Qed.

(** * Further properties of the code *)

(** ** The listener status store *)

(** X1.  A status that is set can be read back; when the store cannot be
    reached, setting is silently dropped and reading yields a status that
    is not running and carries the error. *)
Theorem listener_status_set_then_get (s : ListenerStatus) (w : World) :
  bind (set_listener_status s) (fun _ => get_listener_status) w =
  if redis_reachable w
  then Some (Ok s, set_redis_status (Some s) w)
  else Some (Ok {| is_running := Some false; download_images := None;
                   monitored_channels := None; channels := None;
                   started_at := None; stopped_at := None; task_id := None;
                   error := Some "ConnectionError" |}, w).
Proof.
  unfold set_listener_status, get_listener_status, redis_set, redis_get. unfold_m.
  destruct (redis_reachable w) eqn:E; simpl; rewrite ?E; reflexivity.
Qed.

Lemma get_listener_status_reads (w : World) :
  exists status,
    get_listener_status w = Some (Ok status, w)
    /\ (redis_reachable w = true -> redis_status w = Some status \/
        (redis_status w = None /\ is_running status = Some false))
    /\ (redis_reachable w = false -> is_running status = Some false).
Proof.
  unfold get_listener_status, redis_get. unfold_m.
  destruct (redis_reachable w); simpl.
  - destruct (redis_status w); eexists; (split; [reflexivity|]); split; auto;
      discriminate.
  - eexists. split; [reflexivity|]. split; [discriminate | reflexivity].
Qed.

(** ** Stopping and starting the listener *)

(** X2.  Stopping a listener that is persisted as running writes a stopped
    status: [is_running] false, the [download_images] policy kept, the
    channel list emptied, the stop time set; the answer is ["stopping"]. *)
Theorem stop_persists_a_stopped_status (w : World) (status : ListenerStatus) :
  redis_reachable w = true ->
  redis_status w = Some status ->
  is_running status = Some true ->
  exists w',
    stop_listener_task w = Some (Ok ("stopping", "Listener stop requested"), w')
    /\ redis_status w' =
       Some {| is_running := Some false;
               download_images := Some (default true (download_images status));
               monitored_channels := Some 0; channels := Some [];
               started_at := None;
               stopped_at := Some (wall_clock w (clock_reads w));
               task_id := None; error := None |}
    /\ celery_queue w' = celery_queue w
    /\ es_index w' = es_index w.
Proof.
  intros Hr Hs Hrun.
  unfold stop_listener_task, get_listener_status, set_listener_status, redis_get,
    redis_set. unfold_m. rewrite Hr, Hs. simpl. rewrite Hrun. simpl. rewrite Hr.
  eexists. split; [reflexivity|]. simpl. auto.
Qed.

Lemma stop_persists_witness :
  exists w',
    stop_listener_task
      (set_redis_status (Some (started_status false [5%Z] 0 "old-task")) blank_world)
    = Some (Ok ("stopping", "Listener stop requested"), w')
    /\ redis_status w' =
       Some {| is_running := Some false;
               download_images := Some false;
               monitored_channels := Some 0; channels := Some [];
               started_at := None; stopped_at := Some 0%Z;
               task_id := None; error := None |}
    /\ celery_queue w' = []
    /\ es_index w' = ∅.
Proof.
  apply (stop_persists_a_stopped_status
           (set_redis_status (Some (started_status false [5%Z] 0 "old-task")) blank_world)
           (started_status false [5%Z] 0 "old-task"));
    reflexivity.
Defined.

(** X3.  Stopping when the store does not show a running listener -- it shows a
    stopped one, holds no status, or cannot be reached -- answers
    ["not_running"] and changes nothing. *)
Theorem stop_without_running_listener_changes_nothing (w : World) :
  persisted_is_running w <> Some true ->
  stop_listener_task w = Some (Ok ("not_running", "Listener is not running"), w).
Proof.
  intros Hnot.
  unfold stop_listener_task, get_listener_status, redis_get, persisted_is_running in *.
  unfold_m. destruct (redis_reachable w); simpl; [|reflexivity].
  destruct (redis_status w) as [status|] eqn:Hs; simpl; [|reflexivity].
  destruct (is_running status) as [[|]|]; simpl; [congruence | reflexivity | reflexivity].
Qed.

Lemma stop_without_running_listener_witness :
  stop_listener_task blank_world
  = Some (Ok ("not_running", "Listener is not running"), blank_world).
Proof.
  apply (stop_without_running_listener_changes_nothing blank_world).
  vm_compute. discriminate.
Defined.

Lemma stopped_store_is_not_running (w w' : World) (status : ListenerStatus) :
  redis_reachable w = true ->
  redis_status w = Some status ->
  is_running status = Some true ->
  stop_listener_task w = Some (Ok ("stopping", "Listener stop requested"), w') ->
  redis_reachable w' = true
  /\ persisted_is_running w' = Some false
  /\ status_well_formed w'
  /\ celery_queue w' = celery_queue w.
Proof.
  intros Hr Hs Hrun.
  unfold stop_listener_task, get_listener_status, set_listener_status, redis_get,
    redis_set. unfold_m. rewrite Hr, Hs. simpl. rewrite Hrun. simpl. rewrite Hr.
  intros H. injection H as <-. unfold persisted_is_running, status_well_formed. simpl.
  rewrite Hr. repeat split; auto. intros st E. injection E as <-. simpl. eauto.
Qed.

(** X4.  A stop takes effect for whoever reads the store next: a second stop
    answers ["not_running"] and changes nothing, and the resume at the next
    start-up queues no listener. *)
Theorem after_stop_nothing_is_stopped_or_resumed (w w' : World)
  (status : ListenerStatus) :
  redis_reachable w = true ->
  redis_status w = Some status ->
  is_running status = Some true ->
  stop_listener_task w = Some (Ok ("stopping", "Listener stop requested"), w') ->
  stop_listener_task w' = Some (Ok ("not_running", "Listener is not running"), w')
  /\ resume_listener_if_needed w' = Some (Ok tt, w').
Proof.
  intros Hr Hs Hrun Hstop.
  destruct (stopped_store_is_not_running w w' status Hr Hs Hrun Hstop)
    as (Hr' & Hp & Hwf & _).
  split.
  - unfold stop_listener_task, get_listener_status, redis_get, persisted_is_running in *.
    unfold_m. rewrite Hr' in *. simpl.
    destruct (redis_status w') as [st|]; simpl in *; [|discriminate].
    rewrite Hp. reflexivity.
  - unfold resume_listener_if_needed, get_listener_status, redis_get,
      persisted_is_running in *.
    unfold_m. rewrite Hr' in *. simpl.
    destruct (redis_status w') as [st|]; simpl in *; [|discriminate].
    rewrite Hp. reflexivity.
Qed.

Lemma after_stop_witness :
  stop_listener_task
    (world_after stop_listener_task
       (set_redis_status (Some (started_status true [] 0 "t")) blank_world))
  = Some (Ok ("not_running", "Listener is not running"),
          world_after stop_listener_task
            (set_redis_status (Some (started_status true [] 0 "t")) blank_world))
  /\ resume_listener_if_needed
       (world_after stop_listener_task
          (set_redis_status (Some (started_status true [] 0 "t")) blank_world))
     = Some (Ok tt,
             world_after stop_listener_task
               (set_redis_status (Some (started_status true [] 0 "t")) blank_world)).
Proof.
  apply (after_stop_nothing_is_stopped_or_resumed
           (set_redis_status (Some (started_status true [] 0 "t")) blank_world) _
           (started_status true [] 0 "t"));
    reflexivity.
Defined.

(** X5.  Every status the start-up resume, the stop task and the failure hook
    persist carries the [is_running] key, if the one they found did. *)
Theorem writers_keep_the_is_running_key (w : World) (exc : string) :
  status_well_formed w ->
  status_well_formed (world_after resume_listener_if_needed w)
  /\ status_well_formed (world_after stop_listener_task w)
  /\ status_well_formed (world_after (on_failure exc) w).
Proof.
  intros Hwf. unfold status_well_formed, world_after in *.
  unfold resume_listener_if_needed, stop_listener_task, on_failure, get_listener_status,
    set_listener_status, redis_get, redis_set, start_listener_task_delay.
  unfold_m.
  destruct (redis_reachable w) eqn:Hr; simpl; rewrite ?Hr; simpl;
    [|repeat split; exact Hwf].
  destruct (redis_status w) as [status|] eqn:Hs; simpl.
  - destruct (Hwf status eq_refl) as [b Hb]. rewrite Hb. simpl.
    destruct b; simpl; rewrite ?Hr; simpl; rewrite ?Hr; simpl;
      (split; [|split]); intros st E; simplify_eq; simpl; eauto.
  - (split; [|split]); intros st E; simplify_eq; simpl; eauto.
Qed.

Lemma writers_keep_the_key_witness :
  status_well_formed
    (world_after resume_listener_if_needed
       (set_redis_status (Some (started_status true [] 0 "t")) blank_world))
  /\ status_well_formed
       (world_after stop_listener_task
          (set_redis_status (Some (started_status true [] 0 "t")) blank_world))
  /\ status_well_formed
       (world_after (on_failure "boom")
          (set_redis_status (Some (started_status true [] 0 "t")) blank_world)).
Proof.
  apply (writers_keep_the_is_running_key
           (set_redis_status (Some (started_status true [] 0 "t")) blank_world) "boom").
  intros status H. injection H as <-. simpl. eauto.
Defined.

Lemma start_when_not_running (download : bool) (w : World) :
  redis_reachable w = true ->
  persisted_is_running w <> Some true ->
  start_listener download w =
  Some (Ok {| response_task_id := celery_ids w (length (celery_queue w));
              response_status := "starting";
              response_message :=
                "Listener is starting (download_images="
                +:+ str_of_bool download +:+ ")" |},
        set_celery_queue (celery_queue w ++ [download]) w).
Proof.
  intros Hr Hnot.
  unfold start_listener, get_listener_status, redis_get, start_listener_task_delay,
    persisted_is_running in *.
  unfold_m. rewrite Hr in *. simpl.
  destruct (redis_status w) as [status|]; simpl.
  - destruct (is_running status) as [[|]|]; simpl; rewrite ?Hr; congruence.
  - rewrite Hr. reflexivity.
Qed.

(** X6.  [/start] refuses while the store shows a running listener: it answers
    ["already_running"] with the stored task id and queues nothing.
    Otherwise it queues one listener with the requested policy and leaves
    the status as it is, so that until the queued task has written its
    status a further [/start] queues a further listener. *)
Theorem start_queues_unless_running (download : bool) (w : World) :
  redis_reachable w = true ->
  match persisted_is_running w, redis_status w with
  | Some true, Some status =>
      start_listener download w =
      Some (Ok {| response_task_id := default "unknown" (task_id status);
                  response_status := "already_running";
                  response_message := "Listener is already running" |}, w)
  | _, _ =>
      exists r w',
        start_listener download w = Some (Ok r, w')
        /\ response_status r = "starting"
        /\ response_task_id r = celery_ids w (length (celery_queue w))
        /\ celery_queue w' = celery_queue w ++ [download]
        /\ redis_status w' = redis_status w
        /\ exists r2 w2,
             start_listener download w' = Some (Ok r2, w2)
             /\ celery_queue w2 = celery_queue w ++ [download; download]
  end.
Proof.
  intros Hr.
  assert (Hstart : persisted_is_running w <> Some true ->
            exists r w',
              start_listener download w = Some (Ok r, w')
              /\ response_status r = "starting"
              /\ response_task_id r = celery_ids w (length (celery_queue w))
              /\ celery_queue w' = celery_queue w ++ [download]
              /\ redis_status w' = redis_status w
              /\ exists r2 w2,
                   start_listener download w' = Some (Ok r2, w2)
                   /\ celery_queue w2 = celery_queue w ++ [download; download]).
  { intros Hnot. eexists _, _. split; [apply start_when_not_running; assumption|].
    simpl. repeat (split; [reflexivity|]).
    eexists _, _. split.
    - apply start_when_not_running; [exact Hr|].
      unfold persisted_is_running in *. simpl. exact Hnot.
    - simpl. rewrite <- app_assoc. reflexivity. }
  destruct (persisted_is_running w) as [[|]|] eqn:Hp;
    try (destruct (redis_status w); apply Hstart; discriminate).
  unfold persisted_is_running in Hp. rewrite Hr in Hp.
  destruct (redis_status w) as [status|] eqn:Hs; [|discriminate].
  unfold start_listener, get_listener_status, redis_get. unfold_m.
  rewrite Hr, Hs. simpl. rewrite Hp. reflexivity.
Qed.

Lemma start_queues_witness :
  exists r w',
    start_listener true blank_world = Some (Ok r, w')
    /\ response_status r = "starting"
    /\ response_task_id r = "task-0"
    /\ celery_queue w' = [true]
    /\ redis_status w' = None
    /\ exists r2 w2,
         start_listener true w' = Some (Ok r2, w2)
         /\ celery_queue w2 = [true; true].
Proof.
  exact (start_queues_unless_running true blank_world eq_refl).
Defined.

(** ** Document ids *)

Lemma digits_have_no_underscore (d : Decimal.uint) :
  no_underscore (NilEmpty.string_of_uint d) = true.
Proof. induction d; simpl; auto. Qed.

Lemma str_has_no_underscore (z : Z) : no_underscore (Py.str z) = true.
Proof.
  unfold Py.str, NilZero.string_of_int, NilZero.string_of_uint.
  destruct (Z.to_int z) as [d|d]; destruct d; simpl;
    auto using digits_have_no_underscore.
Qed.

Lemma str_injective (a b : Z) : Py.str a = Py.str b -> a = b.
Proof.
  unfold Py.str. intros H.
  assert (Hnn : forall z, Z.to_int z <> Decimal.Pos Decimal.Nil
                          /\ Z.to_int z <> Decimal.Neg Decimal.Nil).
  { intros [|p|p]; simpl; split; try discriminate; intros [= E];
      exact (Unsigned.to_uint_nonnil p E). }
  assert (E : Some (Z.to_int a) = Some (Z.to_int b)).
  { rewrite <- (NilZero.isi (Z.to_int a)) by apply Hnn.
    rewrite <- (NilZero.isi (Z.to_int b)) by apply Hnn.
    rewrite H. reflexivity. }
  injection E as E. rewrite <- (DecimalZ.of_to a), <- (DecimalZ.of_to b), E. reflexivity.
Qed.

Lemma split_at_underscore (s1 s2 t1 t2 : string) :
  no_underscore s1 = true -> no_underscore s2 = true ->
  s1 +:+ "_" +:+ t1 = s2 +:+ "_" +:+ t2 ->
  s1 = s2 /\ t1 = t2.
Proof.
  revert s2. induction s1 as [|a s1 IH]; intros [|b s2] H1 H2 E; simpl in *.
  - injection E as E. auto.
  - injection E as Ea E. subst b. discriminate.
  - injection E as Ea E. subst a. discriminate.
  - injection E as Ea E. subst b.
    apply andb_true_iff in H1 as [_ H1]. apply andb_true_iff in H2 as [_ H2].
    destruct (IH s2 H1 H2 E) as [-> ->]. auto.
Qed.

(** X7.  The document id ["<channel_id>_<message_id>"] identifies the message:
    two records with the same document id have the same channel id and the
    same message id, so records of different messages never share a
    document. *)
Theorem document_id_identifies_the_message (a b : Models.MessageInfo) :
  Es.doc_id (bulk_action a) = Es.doc_id (bulk_action b) ->
  Models.channel_id a = Models.channel_id b
  /\ Models.message_id a = Models.message_id b.
Proof.
  unfold bulk_action. simpl. intros E.
  apply split_at_underscore in E as [Ec Em]; try apply str_has_no_underscore.
  split; apply str_injective; assumption.
Qed.

Lemma document_id_witness :
  Models.channel_id
    {| Models.channel_id := 5; Models.message_id := 7; Models.sender_name := "";
       Models.time := None; Models.text := "a"; Models.images := [];
       Models.image_urls := []; Models.images_data := []; Models.indexed_at := Some 1%Z |}
  = Models.channel_id
    {| Models.channel_id := 5; Models.message_id := 7; Models.sender_name := "x";
       Models.time := None; Models.text := "b"; Models.images := [];
       Models.image_urls := []; Models.images_data := []; Models.indexed_at := Some 2%Z |}
  /\ Models.message_id
    {| Models.channel_id := 5; Models.message_id := 7; Models.sender_name := "";
       Models.time := None; Models.text := "a"; Models.images := [];
       Models.image_urls := []; Models.images_data := []; Models.indexed_at := Some 1%Z |}
  = Models.message_id
    {| Models.channel_id := 5; Models.message_id := 7; Models.sender_name := "x";
       Models.time := None; Models.text := "b"; Models.images := [];
       Models.image_urls := []; Models.images_data := []; Models.indexed_at := Some 2%Z |}.
Proof.
  apply document_id_identifies_the_message. reflexivity.
Defined.

(** ** The normalisers *)

Lemma process_message_record (tg_msg : Tg.Message) (c : Z) (client : TelegramClient)
  (si : bool) (mm : option MinIOManager) (w w' : World) (info : Models.MessageInfo) :
  process_message tg_msg c client si mm w = Some (Ok (Some info), w') ->
  Models.channel_id info = c
  /\ Models.message_id info = Tg.id tg_msg
  /\ Models.text info = Py.or_empty (Tg.text tg_msg)
  /\ (si = false -> Models.images_data info = [] /\ Models.images info = []).
Proof.
  unfold process_message, fetch_and_upload, upload_image, call_put_object, image_format,
    media_markers.
  unfold_m.
  repeat (case_goal; simpl in *; try congruence);
    intros H; simplify_eq; simpl; repeat split; auto; discriminate.
Qed.

(** Without image download, a document without [mime_type] costs the
    record. *)
Lemma process_message_unreadable_document (tg_msg : Tg.Message) (c : Z)
  (client : TelegramClient) (mm : option MinIOManager) (w : World) :
  carries_document_without_mime_type tg_msg = true ->
  process_message tg_msg c client false mm w = Some (Ok None, w).
Proof.
  unfold process_message, media_markers, carries_document_without_mime_type,
    document_without_mime_type.
  intros H. crush_m; simplify_eq; try reflexivity;
    match goal with
    | M : Tg.Media |- _ => destruct M as [?|[?|]|]; simpl in *; discriminate
    end.
Qed.

(** X8.  The sync-path normaliser never raises: whatever the platform and the
    object store do, it returns a record or [None], and it does not write
    the index.  A record it returns carries the channel id, the message id
    and the text of the message.  Without image download the record is
    missing exactly when the message carries a document without
    [mime_type]; with image download it can also be missing because the
    download or the upload failed. *)
Theorem process_message_never_raises (tg_msg : Tg.Message) (c : Z)
  (client : TelegramClient) (si : bool) (mm : option MinIOManager) (w : World) :
  exists o w',
    process_message tg_msg c client si mm w = Some (Ok o, w')
    /\ es_index w' = es_index w
    /\ match o with
       | Some info =>
           Models.channel_id info = c
           /\ Models.message_id info = Tg.id tg_msg
           /\ Models.text info = Py.or_empty (Tg.text tg_msg)
       | None => si = true \/ carries_document_without_mime_type tg_msg = true
       end
    /\ (si = false ->
        (o = None <-> carries_document_without_mime_type tg_msg = true)).
Proof.
  destruct (process_message_returns tg_msg c client si mm w) as (o & w' & E & F).
  exists o, w'. split; [exact E|]. split; [exact F|].
  assert (Hnone : si = false ->
                  (o = None <-> carries_document_without_mime_type tg_msg = true)).
  { intros ->. destruct (carries_document_without_mime_type tg_msg) eqn:Hd.
    - rewrite (process_message_unreadable_document tg_msg c client mm w Hd) in E.
      injection E as <- _. split; reflexivity.
    - destruct (process_message_without_images tg_msg c client mm w Hd)
        as (i & w2 & E2).
      split; [intros ->; congruence | discriminate]. }
  split; [|exact Hnone].
  destruct o as [info|].
  - destruct (process_message_record _ _ _ _ _ _ _ _ E) as (A & B & C & _). auto.
  - destruct si; [left; reflexivity|]. right. apply Hnone; reflexivity.
Qed.

(** What the live-path normaliser returns. *)
Lemma enhanced_outcome (message : Tg.Message) (c : Z) (client : TelegramClient)
  (download : bool) (mm : option MinIOManager) (w : World) :
  exists o w',
    process_single_message_enhanced message c client download mm w = Some (Ok o, w')
    /\ es_index w' = es_index w
    /\ (o = None <-> live_markers_unreadable download mm message = true)
    /\ forall info,
         o = Some info ->
         Models.channel_id info = c
         /\ Models.message_id info = Tg.id message
         /\ Models.text info = Py.or_empty (Tg.text message)
         /\ Models.images_data info = [].
Proof.
  unfold process_single_message_enhanced, fetch_and_upload, upload_image,
    call_put_object, image_format, media_markers, live_markers_unreadable,
    carries_document_without_mime_type, document_without_mime_type.
  unfold_m.
  repeat (case_goal; simpl in *; try congruence);
    eexists _, _; (split; [reflexivity|]); simplify_eq; simpl;
    (split; [reflexivity|]);
    (split; [split; intros; discriminate || reflexivity
            | intros ? [= <-] || (intros; discriminate); simpl; auto]).
Qed.

(** X9.  The live-path normaliser never raises and does not write the
    index.  A sender that cannot be resolved, a download or an upload that
    fails only cost the name or the media references; the record itself is
    missing exactly when the media is noted without download and is a
    document without [mime_type].  A record carries the channel id, the
    message id and the text of the message, and no binary data. *)
Theorem live_normaliser_loses_only_documents_without_mime_type
  (message : Tg.Message) (c : Z) (client : TelegramClient) (download : bool)
  (mm : option MinIOManager) (w : World) :
  exists o w',
    process_single_message_enhanced message c client download mm w = Some (Ok o, w')
    /\ es_index w' = es_index w
    /\ (o = None <-> live_markers_unreadable download mm message = true)
    /\ forall info,
         o = Some info ->
         Models.channel_id info = c
         /\ Models.message_id info = Tg.id message
         /\ Models.text info = Py.or_empty (Tg.text message)
         /\ Models.images_data info = [].
Proof. apply enhanced_outcome. Qed.

(** ** Reconciliation: failures *)

Lemma get_last_message_id_telegram_reads (tc : TelegramClient) (c : Z) (w : World) :
  get_last_message_id_telegram tc c w =
  Some (Ok (match get_messages tc c 1 0 with
            | Ok (m :: _) => Some (Tg.id m)
            | _ => None
            end), w).
Proof.
  unfold get_last_message_id_telegram. unfold_m.
  destruct (get_messages tc c 1 0) as [[|m l]|e]; reflexivity.
Qed.

(** X10.  [smart_sync_channel] never raises and never falls through its
    branches: whatever the clients do, a run that comes back brings a result
    dictionary. *)
Theorem smart_sync_channel_never_raises (fuel : nat) (c : Z) (tc : TelegramClient)
  (es_client : AsyncElasticsearch) (si : bool) (mm : option MinIOManager)
  (w w' : World) (r : Res (option Outcome.t)) :
  smart_sync_channel fuel c tc es_client si mm w = Some (r, w') ->
  exists outcome, r = Ok (Some outcome) /\ Outcome.channel_id outcome = c.
Proof.
  unfold smart_sync_channel. unfold try_except at 1. unfold bind at 1.
  rewrite get_last_message_id_telegram_reads. unfold bind at 1.
  destruct (get_last_message_id_elasticsearch_reads es_client c w) as [indexed ->].
  destruct (get_messages tc c 1 0) as [[|m l]|e].
  - unfold ret. intros [= <- <-]. eauto.
  - destruct indexed as [i|].
    + destruct (Z.eqb_spec (Tg.id m) i) as [Heq|Hne].
      * unfold ret. intros [= <- <-]. eauto.
      * destruct (Z.gtb_spec (Tg.id m) i) as [Hgt|Hle].
        -- unfold bind, ret.
           destruct (sync_missing_messages tc es_client c i si mm fuel w)
             as [[[s|e] w1]|]; intros [= <- <-] || discriminate; eauto.
        -- destruct (Z.gtb_spec i (Tg.id m)) as [Hgt|Hle2]; [|lia].
           unfold ret. intros [= <- <-]. eauto.
    + unfold bind, ret.
      destruct (sync_missing_messages tc es_client c 0 si mm fuel w)
        as [[[s|e] w1]|]; intros [= <- <-] || discriminate; eauto.
  - unfold ret. intros [= <- <-]. eauto.
Qed.

Lemma smart_sync_never_raises_witness :
  exists outcome,
    Ok (Some (Outcome.plain 9 Outcome.skip "Channel not accessible on Telegram" false))
    = Ok (Some outcome)
    /\ Outcome.channel_id outcome = 9%Z.
Proof.
  apply (smart_sync_channel_never_raises 1 9 (telethon_of (one_channel 5 (countdown 3)))
           es_node false None blank_world blank_world).
  reflexivity.
Defined.

(** X11.  A backfill that fails is captured: when the channel answers the probe
    for its last message, the index has no data for it and the first page
    fetch raises, the result is [action = error] with the text of the
    exception as reason and [success] false, and nothing is written. *)
Theorem failed_backfill_becomes_an_error_result (fuel : nat) (c : Z)
  (tc : TelegramClient) (es_client : AsyncElasticsearch) (si : bool)
  (mm : option MinIOManager) (w : World) (m : Tg.Message) (l : list Tg.Message)
  (e : Exn) :
  get_messages tc c 1 0 = Ok (m :: l) ->
  search es_client c (es_index w) = Ok [] ->
  get_messages tc c 100 0 = Raise e ->
  0 < fuel ->
  smart_sync_channel fuel c tc es_client si mm w =
  Some (Ok (Some (Outcome.plain c Outcome.error e false)), w).
Proof.
  intros Hprobe Hsearch Hpage Hfuel.
  destruct fuel as [|fuel]; [lia|].
  unfold smart_sync_channel. unfold try_except at 1. unfold bind at 1.
  rewrite get_last_message_id_telegram_reads, Hprobe. unfold bind at 1.
  unfold get_last_message_id_elasticsearch, call_search.
  unfold try_except at 1, bind at 1. rewrite Hsearch.
  unfold ret at 1. unfold bind at 1.
  unfold sync_missing_messages. rewrite try_except_reraise. unfold bind at 1.
  rewrite backfill_loop_round, Hpage. reflexivity.
Qed.

Lemma failed_backfill_witness :
  smart_sync_channel 5 9 flaky_client es_node true None blank_world =
  Some (Ok (Some (Outcome.plain 9 Outcome.error "FloodWaitError" false)), blank_world).
Proof.
  apply (failed_backfill_becomes_an_error_result 5 9 flaky_client es_node true None
           blank_world (plain_message 3) []);
    [reflexivity | reflexivity | reflexivity | lia].
Defined.

(** ** Backfill with any platform behaviour *)

Lemma backfill_message_keeps (tc : TelegramClient) (c : Z) (si : bool)
  (mm : option MinIOManager) (m : Tg.Message) (t : Tally) (w : World) :
  exists t' w',
    backfill_message tc c si mm m t w = Some (Ok t', w')
    /\ es_index w' = es_index w
    /\ images_failed t' = images_failed t
    /\ (si = false -> images_downloaded t' = images_downloaded t)
    /\ (processed_messages t' = processed_messages t
        \/ exists mi, processed_messages t' = processed_messages t ++ [mi]
                      /\ Models.channel_id mi = c
                      /\ Models.message_id mi = Tg.id m).
Proof.
  unfold backfill_message.
  destruct (process_message_returns m c tc si mm w) as (o & w' & E & F).
  unfold_m. rewrite E. destruct o as [mi|].
  - destruct (process_message_record _ _ _ _ _ _ _ _ E) as (A & B & _).
    eexists _, _. split; [reflexivity|]. split; [exact F|]. split; [reflexivity|].
    split.
    + intros ->. reflexivity.
    + right. exists mi. simpl. auto.
  - eexists _, _. split; [reflexivity|]. split; [exact F|]. auto.
Qed.

Lemma backfill_messages_keep (tc : TelegramClient) (c cutoff : Z) (si : bool)
  (mm : option MinIOManager) (l : list Tg.Message) :
  forallb (newer_than cutoff) l = true ->
  forall (t : Tally) (w : World),
  exists t' w',
    backfill_messages tc c si mm l t w = Some (Ok t', w')
    /\ es_index w' = es_index w
    /\ images_failed t' = images_failed t
    /\ (si = false -> images_downloaded t' = images_downloaded t)
    /\ (tally_within c cutoff t -> tally_within c cutoff t').
Proof.
  induction l as [|m l IH]; intros Hall t w.
  - exists t, w. simpl. auto.
  - simpl in Hall. apply andb_true_iff in Hall as [Hm Hall].
    destruct (backfill_message_keeps tc c si mm m t w) as (t1 & w1 & E1 & F1 & G1 & D1 & P1).
    destruct (IH Hall t1 w1) as (t2 & w2 & E2 & F2 & G2 & D2 & P2).
    exists t2, w2. simpl. unfold bind. rewrite E1.
    split; [exact E2|]. split; [congruence|]. split; [congruence|]. split.
    + intros Hsi. rewrite (D2 Hsi). apply D1, Hsi.
    + intros Ht. apply P2. unfold tally_within in *.
      destruct P1 as [->|(mi & -> & Hc & Hi)]; [exact Ht|].
      apply Forall_app. split; [exact Ht|]. constructor; [|constructor].
      unfold newer_than in Hm. apply Z.ltb_lt in Hm. split; [exact Hc | lia].
Qed.

Lemma newer_prefix_all_newer (cutoff : Z) (l : list Tg.Message) :
  forallb (newer_than cutoff) (newer_prefix cutoff l) = true.
Proof.
  induction l as [|m l IH]; simpl; [reflexivity|].
  destruct (newer_than cutoff m) eqn:E; simpl; [|reflexivity]. rewrite E. exact IH.
Qed.

(** What the loop keeps, whatever pages the client serves. *)
Lemma backfill_loop_keeps (tc : TelegramClient) (c cutoff : Z) (si : bool)
  (mm : option MinIOManager) (fuel : nat) :
  forall (o : Z) (t : Tally) (w w' : World) (r : Res Tally),
    backfill_loop tc c cutoff si mm fuel o t w = Some (r, w') ->
    es_index w' = es_index w
    /\ forall t', r = Ok t' ->
         images_failed t' = images_failed t
         /\ (si = false -> images_downloaded t' = images_downloaded t)
         /\ (tally_within c cutoff t -> tally_within c cutoff t').
Proof.
  induction fuel as [|fuel IH]; intros o t w w' r; [discriminate|].
  rewrite backfill_loop_round.
  destruct (get_messages tc c 100 o) as [page|e].
  - destruct (last page) as [oldest|].
    + rewrite backfill_page_spec. unfold bind, ret.
      destruct (backfill_messages_keep tc c cutoff si mm (newer_prefix cutoff page)
                  (newer_prefix_all_newer cutoff page) t w)
        as (t1 & w1 & E1 & F1 & G1 & D1 & P1).
      rewrite E1.
      destruct (negb (forallb (newer_than cutoff) page)).
      * intros [= <- <-]. split; [exact F1|]. intros t' [= <-]. auto.
      * intros H. destruct (IH _ _ _ _ _ H) as (F2 & K). split; [congruence|].
        intros t' ->. destruct (K t' eq_refl) as (G2 & D2 & P2).
        split; [congruence|]. split; [|auto].
        intros Hsi. rewrite (D2 Hsi). apply D1, Hsi.
    + intros [= <- <-]. split; [reflexivity|]. intros t' [= <-]. auto.
  - intros [= <- <-]. split; [reflexivity|]. intros t' [=].
Qed.

Lemma latest_action_member (k : string) (actions : list Es.Action) (s : Es.Source) :
  latest_action k actions = Some s ->
  exists a, In a actions /\ Es.doc_id a = k /\ Es.source a = s.
Proof.
  induction actions as [|a actions IH]; simpl; [discriminate|].
  destruct (latest_action k actions) as [s'|].
  - intros [= <-]. destruct (IH eq_refl) as (a' & Hin & Hk & Hs). eauto.
  - destruct (decide (Es.doc_id a = k)); [|discriminate].
    intros [= <-]. eauto.
Qed.

(** X12.  A backfill that raises has written nothing to the index: the records
    are stored in one bulk insert below the loop, and only the loop can
    raise. *)
Theorem failed_backfill_writes_nothing (tc : TelegramClient)
  (es_client : AsyncElasticsearch) (c cutoff : Z) (si : bool)
  (mm : option MinIOManager) (fuel : nat) (w w' : World) (e : Exn) :
  sync_missing_messages tc es_client c cutoff si mm fuel w = Some (Raise e, w') ->
  es_index w' = es_index w.
Proof.
  unfold sync_missing_messages. rewrite try_except_reraise. unfold bind.
  destruct (backfill_loop tc c cutoff si mm fuel 0 empty_tally w)
    as [[[t|e1] w1]|] eqn:E; try discriminate.
  - destruct (store_and_count_returns es_client t w1) as (s & w2 & Es & _).
    rewrite Es. discriminate.
  - intros [= <- <-]. apply (backfill_loop_keeps _ _ _ _ _ _ _ _ _ _ _ E).
Qed.

Lemma failed_backfill_writes_nothing_witness :
  sync_missing_messages flaky_client es_node 9 0 true None 5 blank_world
  = Some (Raise "FloodWaitError", blank_world)
  /\ es_index blank_world = es_index blank_world.
Proof.
  split; [reflexivity|].
  apply (failed_backfill_writes_nothing flaky_client es_node 9 0 true None 5
           blank_world blank_world "FloodWaitError").
  reflexivity.
Defined.

(** X13.  On a healthy index, whatever the platform serves: the counts of a
    backfill report every processed record as stored and none as failed,
    the failure counter is 0, no image is counted without image download,
    and every document the index holds afterwards was there before or is a
    document of this channel with a message id above the cutoff, stored
    under ["<channel_id>_<message_id>"]. *)
Theorem backfill_writes_only_above_the_cutoff (tc : TelegramClient) (c cutoff : Z)
  (si : bool) (mm : option MinIOManager) (fuel : nat) (w w' : World) (s : Stats.t) :
  sync_missing_messages tc es_node c cutoff si mm fuel w = Some (Ok s, w') ->
  Stats.elasticsearch_success s = Stats.messages_processed s
  /\ Stats.elasticsearch_failed s = 0
  /\ Stats.images_failed s = 0
  /\ (si = false -> Stats.images_downloaded s = 0)
  /\ forall k d,
       es_index w' !! k = Some d ->
       es_index w !! k = Some d
       \/ (Es.channel_id d = c /\ (cutoff < Es.message_id d)%Z
           /\ k = Py.str c +:+ "_" +:+ Py.str (Es.message_id d)).
Proof.
  unfold sync_missing_messages. rewrite try_except_reraise. unfold bind.
  destruct (backfill_loop tc c cutoff si mm fuel 0 empty_tally w)
    as [[[t|e1] w1]|] eqn:E; try discriminate.
  destruct (backfill_loop_keeps _ _ _ _ _ _ _ _ _ _ _ E) as (F & K).
  destruct (K t eq_refl) as (G & D & P).
  destruct (store_and_count_on_node t w1) as (w2 & Es & I).
  rewrite Es. intros [= <- <-]. simpl.
  split; [reflexivity|]. split; [reflexivity|]. split; [exact G|]. split; [exact D|].
  intros k d Hk. rewrite I, F, lookup_after_upserts in Hk.
  destruct (latest_action k (map bulk_action (processed_messages t))) as [s|] eqn:L;
    [|left; exact Hk].
  injection Hk as ->. right.
  destruct (latest_action_member _ _ _ L) as (a & Hin & Hid & Hsrc).
  apply in_map_iff in Hin as (mi & <- & Hmi).
  assert (Hw : tally_within c cutoff t) by (apply P; constructor).
  unfold tally_within in Hw. rewrite Forall_forall in Hw.
  destruct (Hw mi) as [Hc Hm]; [apply list_elem_of_In, Hmi|].
  subst d k. simpl. rewrite Hc. auto.
Qed.

Lemma backfill_writes_only_above_the_cutoff_witness :
  Stats.elasticsearch_success
    {| Stats.messages_processed := 2; Stats.images_downloaded := 0;
       Stats.images_failed := 0; Stats.elasticsearch_success := 2;
       Stats.elasticsearch_failed := 0 |} = 2
  /\ 0 = 0 /\ 0 = 0 /\ (false = false -> 0 = 0)
  /\ forall k d,
       es_index
         (world_after
            (sync_missing_messages (telethon_of (one_channel 5 (countdown 3))) es_node
               5 1 false None 4) blank_world) !! k = Some d ->
       es_index blank_world !! k = Some d
       \/ (Es.channel_id d = 5%Z /\ (1 < Es.message_id d)%Z
           /\ k = Py.str 5 +:+ "_" +:+ Py.str (Es.message_id d)).
Proof.
  apply (backfill_writes_only_above_the_cutoff
           (telethon_of (one_channel 5 (countdown 3))) 5 1 false None 4 blank_world).
  reflexivity.
Defined.

(** X14.  When the bulk operation raises and leaves the index as it was, a
    backfill still returns its counts: no record stored, every processed
    record counted as failed, the index unchanged. *)
Theorem backfill_counts_a_failed_bulk (tc : TelegramClient)
  (es_client : AsyncElasticsearch) (c cutoff : Z) (si : bool)
  (mm : option MinIOManager) (fuel : nat) (w w' : World) (s : Stats.t) :
  (forall actions i, exists e, async_bulk es_client actions i = (Raise e, i)) ->
  sync_missing_messages tc es_client c cutoff si mm fuel w = Some (Ok s, w') ->
  es_index w' = es_index w
  /\ Stats.elasticsearch_success s = 0
  /\ Stats.elasticsearch_failed s = Stats.messages_processed s.
Proof.
  intros Hbulk.
  unfold sync_missing_messages. rewrite try_except_reraise. unfold bind.
  destruct (backfill_loop tc c cutoff si mm fuel 0 empty_tally w)
    as [[[t|e1] w1]|] eqn:E; try discriminate.
  destruct (backfill_loop_keeps _ _ _ _ _ _ _ _ _ _ _ E) as (F & _).
  unfold store_and_count.
  destruct (processed_messages t) as [|mi l] eqn:Hp.
  - unfold bind, ret. intros [= <- <-]. simpl. auto.
  - unfold bind. rewrite bulk_insert_outcome.
    destruct (Hbulk (map bulk_action (mi :: l)) (es_index w1)) as [e ->].
    unfold ret. intros [= <- <-]. simpl. rewrite length_map. auto.
Qed.

Lemma backfill_counts_a_failed_bulk_witness :
  sync_missing_messages (telethon_of (one_channel 5 (countdown 3))) es_unreachable 5 0
    false None 4 blank_world
  = Some (Ok {| Stats.messages_processed := 3; Stats.images_downloaded := 0;
                Stats.images_failed := 0; Stats.elasticsearch_success := 0;
                Stats.elasticsearch_failed := 3 |},
          world_after
            (sync_missing_messages (telethon_of (one_channel 5 (countdown 3)))
               es_unreachable 5 0 false None 4) blank_world)
  /\ es_index
       (world_after
          (sync_missing_messages (telethon_of (one_channel 5 (countdown 3)))
             es_unreachable 5 0 false None 4) blank_world)
     = es_index blank_world
  /\ 0 = 0 /\ 3 = 3.
Proof.
  split; [reflexivity|].
  apply (backfill_counts_a_failed_bulk (telethon_of (one_channel 5 (countdown 3)))
           es_unreachable 5 0 false None 4 blank_world _
           {| Stats.messages_processed := 3; Stats.images_downloaded := 0;
              Stats.images_failed := 0; Stats.elasticsearch_success := 0;
              Stats.elasticsearch_failed := 3 |}).
  - intros actions i. exists "ConnectionError". reflexivity.
  - reflexivity.
Defined.

(** ** Storing on the live path *)

Lemma latest_action_last (actions : list Es.Action) (a : Es.Action) :
  latest_action (Es.doc_id a) (actions ++ [a]) = Some (Es.source a).
Proof.
  induction actions as [|b actions IH]; simpl.
  - destruct (decide (Es.doc_id a = Es.doc_id a)); [reflexivity | congruence].
  - rewrite IH. reflexivity.
Qed.

Lemma latest_action_absent (k : string) (actions : list Es.Action) :
  (forall a, In a actions -> Es.doc_id a <> k) -> latest_action k actions = None.
Proof.
  induction actions as [|a actions IH]; intros H; simpl; [reflexivity|].
  rewrite IH by (intros b Hb; apply H; right; exact Hb).
  destruct (decide (Es.doc_id a = k)) as [E|]; [|reflexivity].
  exfalso. apply (H a); [left; reflexivity | exact E].
Qed.

(** X15.  Storing records on a healthy index and reading them back: every
    record is counted as stored, the record stored last is found under its
    document id as its dump without the binary data, and documents under
    other ids are untouched. *)
Theorem stored_message_is_found_under_its_document_id
  (messages : list Models.MessageInfo) (mi : Models.MessageInfo) (w : World) :
  exists w',
    store_messages_elasticsearch es_node (messages ++ [mi]) w
    = Some (Ok (S (length messages), 0), w')
    /\ es_index w' !! (Py.str (Models.channel_id mi) +:+ "_"
                       +:+ Py.str (Models.message_id mi))
       = Some (model_dump mi)
    /\ forall k,
         (forall m, In m (messages ++ [mi]) -> Es.doc_id (bulk_action m) <> k) ->
         es_index w' !! k = es_index w !! k.
Proof.
  unfold store_messages_elasticsearch. unfold try_except, bind.
  rewrite bulk_insert_outcome. cbn [async_bulk es_node]. unfold ret.
  eexists. split.
  - rewrite length_map, length_app. simpl. rewrite Nat.add_1_r. reflexivity.
  - simpl. split.
    + rewrite lookup_after_upserts, map_app. simpl.
      change (Py.str (Models.channel_id mi) +:+ "_" +:+ Py.str (Models.message_id mi))
        with (Es.doc_id (bulk_action mi)).
      rewrite latest_action_last. reflexivity.
    + intros k Hk. rewrite lookup_after_upserts, latest_action_absent; [reflexivity|].
      intros a Ha. apply in_map_iff in Ha as (m & <- & Hm). apply Hk, Hm.
Qed.

(** ** The explicit window with any platform behaviour *)

Lemma reports_between_nil (lo hi size : Z) : reports_between lo hi size [].
Proof. split; constructor. Qed.

Lemma reports_between_one (lo hi size x : Z) (s : string) :
  (lo <= x <= hi)%Z -> reports_between lo hi size [progress_meta x size s].
Proof.
  intros H. split; simpl.
  - repeat constructor.
  - constructor; [|constructor]. simpl. auto.
Qed.

Lemma reports_between_app (lo mid hi size : Z) (l1 l2 : list Progress) :
  (lo <= mid <= hi)%Z ->
  reports_between lo mid size l1 -> reports_between mid hi size l2 ->
  reports_between lo hi size (l1 ++ l2).
Proof.
  intros Hm [S1 F1] [S2 F2]. split.
  - rewrite map_app. apply StronglySorted_app_2; [|exact S1 | exact S2].
    intros x1 x2 H1 H2.
    apply list_elem_of_fmap in H1 as (r1 & -> & H1).
    apply list_elem_of_fmap in H2 as (r2 & -> & H2).
    rewrite Forall_forall in F1, F2.
    destruct (F1 r1 H1) as [[_ A] _]. destruct (F2 r2 H2) as [[B _] _]. lia.
  - apply Forall_app. split.
    + eapply Forall_impl; [exact F1|]. simpl. intros r [[A B] C]. split; [lia | exact C].
    + eapply Forall_impl; [exact F2|]. simpl. intros r [[A B] C]. split; [lia | exact C].
Qed.

Lemma process_message_frame (tg_msg : Tg.Message) (c : Z) (client : TelegramClient)
  (si : bool) (mm : option MinIOManager) (w : World) :
  exists o w',
    process_message tg_msg c client si mm w = Some (Ok o, w')
    /\ es_index w' = es_index w
    /\ task_meta w' = task_meta w.
Proof.
  unfold process_message, fetch_and_upload, upload_image, call_put_object, image_format,
    media_markers.
  crush_m; eexists _, _; (split; [reflexivity|]); simplify_eq; split; reflexivity.
Qed.

Lemma window_message_keeps (tc : TelegramClient) (minio : MinIOManager) (c : Z)
  (si : bool) (size : Z) (m : Tg.Message) (t : Tally) (w : World) :
  exists t' w' new,
    window_message tc minio c si size m t w = Some (Ok t', w')
    /\ es_index w' = es_index w
    /\ task_meta w' = task_meta w ++ new
    /\ reports_between (processed_count t) (processed_count t') size new
    /\ (processed_count t <= processed_count t' <= processed_count t + 1)%Z.
Proof.
  unfold window_message, SyncTask.update_progress.
  destruct (process_message_frame m c tc si (task_minio_manager minio si) w)
    as (o & w1 & E & F & G).
  unfold_m. rewrite E.
  assert (Hc : (processed_count t <=
                processed_count match o with
                                | Some mi => record_message si mi t
                                | None => t
                                end <= processed_count t + 1)%Z).
  { destruct o; unfold processed_count; simpl; [rewrite length_app; simpl|]; lia. }
  eexists _, _, _. split; [reflexivity|]. simpl. rewrite G.
  split; [exact F|]. split; [reflexivity|]. split; [|exact Hc].
  apply reports_between_one. lia.
Qed.

Lemma window_batch_keeps (tc : TelegramClient) (minio : MinIOManager) (c : Z)
  (si : bool) (size : Z) (page : list Tg.Message) :
  forall (t : Tally) (w : World),
  exists t' w' new,
    window_batch tc minio c si size page t w = Some (Ok t', w')
    /\ es_index w' = es_index w
    /\ task_meta w' = task_meta w ++ new
    /\ reports_between (processed_count t) (processed_count t') size new
    /\ (processed_count t <= processed_count t')%Z
    /\ ((processed_count t <= Z.max 0 size)%Z -> (processed_count t' <= Z.max 0 size)%Z).
Proof.
  induction page as [|m page IH]; intros t w; cbn [window_batch].
  - exists t, w, []. rewrite app_nil_r.
    repeat split; auto using reports_between_nil; try lia; constructor.
  - destruct (Z.geb_spec (processed_count t) size) as [Hge|Hlt].
    + exists t, w, []. rewrite app_nil_r.
      repeat split; auto using reports_between_nil; try lia; constructor.
    + destruct (window_message_keeps tc minio c si size m t w)
        as (t1 & w1 & n1 & E1 & F1 & G1 & R1 & C1).
      destruct (IH t1 w1) as (t2 & w2 & n2 & E2 & F2 & G2 & R2 & C2 & B2).
      exists t2, w2, (n1 ++ n2). unfold bind. rewrite E1.
      split; [exact E2|]. split; [congruence|].
      split; [rewrite G2, G1, app_assoc; reflexivity|].
      split; [|split].
      * apply (reports_between_app _ (processed_count t1)); [lia | exact R1 | exact R2].
      * lia.
      * intros _. apply B2. lia.
Qed.

Lemma window_loop_round (tc : TelegramClient) (minio : MinIOManager) (c : Z) (si : bool)
  (size batch_size : Z) (fuel : nat) (o : Z) (t : Tally) (w : World) :
  window_loop tc minio c si size batch_size (S fuel) o t w =
  if (processed_count t <? size)%Z then
    match get_messages tc c (Z.min batch_size (size - processed_count t)) o with
    | Ok page =>
        match last page with
        | Some oldest =>
            match window_batch tc minio c si size page t w with
            | Some (Ok t', w') =>
                if (Z.of_nat (length page)
                    <? Z.min batch_size (size - processed_count t))%Z
                then Some (Ok t', w')
                else window_loop tc minio c si size batch_size fuel (Tg.id oldest) t' w'
            | Some (Raise e, w') => Some (Raise e, w')
            | None => None
            end
        | None => Some (Ok t, w)
        end
    | Raise e => Some (Raise e, w)
    end
  else Some (Ok t, w).
Proof.
  cbn [window_loop]. unfold lift, bind, asyncio_sleep, ret.
  destruct (processed_count t <? size)%Z; [|reflexivity].
  destruct (get_messages tc c _ o) as [page|e]; [|reflexivity].
  destruct (last page) as [oldest|]; [|reflexivity].
  destruct (window_batch tc minio c si size page t w) as [[[t'|e] w']|];
    try reflexivity.
  destruct (Z.of_nat (length page) <? _)%Z; reflexivity.
Qed.

(** What the window loop keeps, whatever pages the client serves. *)
Lemma window_loop_keeps (tc : TelegramClient) (minio : MinIOManager) (c : Z) (si : bool)
  (size batch_size : Z) (fuel : nat) :
  forall (o : Z) (t t' : Tally) (w w' : World),
    window_loop tc minio c si size batch_size fuel o t w = Some (Ok t', w') ->
    es_index w' = es_index w
    /\ (processed_count t <= processed_count t')%Z
    /\ ((processed_count t <= Z.max 0 size)%Z -> (processed_count t' <= Z.max 0 size)%Z)
    /\ exists new,
         task_meta w' = task_meta w ++ new
         /\ reports_between (processed_count t) (processed_count t') size new.
Proof.
  induction fuel as [|fuel IH]; intros o t t' w w'; [discriminate|].
  rewrite window_loop_round.
  assert (Hstay : Some (Ok t, w) = Some (Ok t', w') ->
            es_index w' = es_index w
            /\ (processed_count t <= processed_count t')%Z
            /\ ((processed_count t <= Z.max 0 size)%Z ->
                (processed_count t' <= Z.max 0 size)%Z)
            /\ exists new,
                 task_meta w' = task_meta w ++ new
                 /\ reports_between (processed_count t) (processed_count t') size new).
  { intros [= <- <-]. split; [reflexivity|]. split; [lia|]. split; [auto|].
    exists []. rewrite app_nil_r. split; [reflexivity | apply reports_between_nil]. }
  destruct (processed_count t <? size)%Z; [|exact Hstay].
  destruct (get_messages tc c _ o) as [page|e]; [|discriminate].
  destruct (last page) as [oldest|]; [|exact Hstay].
  destruct (window_batch_keeps tc minio c si size page t w)
    as (t1 & w1 & n1 & E1 & F1 & G1 & R1 & C1 & B1).
  rewrite E1.
  destruct (Z.of_nat (length page) <? _)%Z.
  - intros [= <- <-]. split; [exact F1|]. split; [exact C1|]. split; [exact B1|].
    exists n1. auto.
  - intros H. destruct (IH _ _ _ _ _ H) as (F2 & C2 & B2 & n2 & G2 & R2).
    split; [congruence|]. split; [lia|]. split; [auto|].
    exists (n1 ++ n2). split; [rewrite G2, G1, app_assoc; reflexivity|].
    apply (reports_between_app _ (processed_count t1)); [lia | exact R1 | exact R2].
Qed.

Lemma bulk_insert_frames (es_client : AsyncElasticsearch) (actions : list Es.Action)
  (w : World) :
  exists sf w',
    execute_elasticsearch_bulk_insert es_client actions w = Some (Ok sf, w')
    /\ task_meta w' = task_meta w.
Proof.
  rewrite bulk_insert_outcome.
  destruct (async_bulk es_client actions (es_index w)) as [[[s f]|e] i];
    eexists _, _; split; reflexivity.
Qed.

(** What a run of the explicit-window task that returns has done. *)
Lemma sync_task_keeps (request_id : string) (tc : TelegramClient)
  (es_client : AsyncElasticsearch) (minio : MinIOManager) (c : Z)
  (sync_chat si : bool) (size offset batch_size : Z) (fuel : nat)
  (w w' : World) (r : SyncResult.t) :
  sync_channel_messages_task request_id tc es_client minio c sync_chat si size offset
    batch_size fuel w = Some (Ok r, w') ->
  sync_chat || si = true
  /\ (Z.of_nat (SyncResult.messages_processed r) <= Z.max 0 size)%Z
  /\ SyncResult.has_more r = (Z.of_nat (SyncResult.messages_processed r) =? size)%Z
  /\ (sync_chat = false ->
      es_index w' = es_index w
      /\ SyncResult.chat_messages_stored r = 0
      /\ SyncResult.elasticsearch_success r = 0
      /\ SyncResult.elasticsearch_failed r = 0)
  /\ exists new,
       task_meta w' = task_meta w ++ new
       /\ reports_between 0 (Z.of_nat (SyncResult.messages_processed r)) size new
       /\ last new =
          Some (progress_meta (Z.of_nat (SyncResult.messages_processed r)) size
                  "Sync completed successfully").
Proof.
  unfold sync_channel_messages_task. rewrite try_except_reraise.
  unfold run_sync. unfold lift at 1, bind at 1.
  destruct (start tc) as [[]|e]; [|discriminate].
  destruct (negb sync_chat && negb si) eqn:Hflags; [discriminate|].
  assert (Hf : sync_chat || si = true) by (destruct sync_chat, si; simpl in *; congruence).
  unfold SyncTask.update_progress at 1, modify at 1, bind at 1.
  set (p0 := progress_meta 0 size ("Starting sync for channel " +:+ Py.str c)).
  set (w0 := set_task_meta (task_meta w ++ [p0]) w).
  match goal with
  | |- context [bind ?m _ w0] => set (skip := m)
  end.
  assert (Hskip : (exists o w1 skipped,
                      skip w0 = Some (Ok o, w1)
                      /\ es_index w1 = es_index w
                      /\ task_meta w1 = task_meta w ++ p0 :: skipped
                      /\ reports_between 0 0 size (p0 :: skipped))
                  \/ (exists e w1, skip w0 = Some (Raise e, w1))).
  { subst skip. destruct (offset >? 0)%Z.
    - unfold lift, bind, SyncTask.update_progress, modify, ret.
      destruct (get_messages tc c offset 0) as [skipped|e].
      + left. eexists _, _, [_]. split; [reflexivity|]. simpl.
        split; [reflexivity|]. split; [rewrite <- app_assoc; reflexivity|].
        apply (reports_between_app 0 0 0 size [p0] [_]); [lia | |];
          apply reports_between_one; lia.
      + right. eauto.
    - left. exists 0%Z, w0, []. split; [reflexivity|]. simpl.
      split; [reflexivity|]. split; [reflexivity|].
      apply reports_between_one. lia. }
  unfold bind at 1.
  destruct Hskip as [(o & w1 & skipped & -> & F1 & G1 & R1) | (e & w1 & ->)];
    [|discriminate].
  unfold bind at 1.
  destruct (window_loop tc minio c si size batch_size fuel o empty_tally w1)
    as [[[t|e] w2]|] eqn:Hloop; try discriminate.
  destruct (window_loop_keeps _ _ _ _ _ _ _ _ _ _ _ _ Hloop)
    as (F2 & C2 & B2 & n2 & G2 & R2).
  change (processed_count empty_tally) with 0%Z in *.
  assert (Hbulk : exists sf w3,
             match sync_chat, processed_messages t with
             | true, _ :: _ =>
                 execute_elasticsearch_bulk_insert es_client
                   (map bulk_action (processed_messages t))
             | _, _ => ret (0, 0)
             end w2 = Some (Ok sf, w3)
             /\ task_meta w3 = task_meta w2
             /\ (sync_chat = false -> sf = (0, 0) /\ w3 = w2)).
  { destruct sync_chat.
    - destruct (processed_messages t) as [|mi l].
      + eexists _, _. split; [reflexivity|]. split; [reflexivity | discriminate].
      + destruct (bulk_insert_frames es_client (map bulk_action (mi :: l)) w2)
          as (sf & w3 & E & G). exists sf, w3. split; [exact E|].
        split; [exact G | discriminate].
    - eexists _, _. split; [reflexivity|]. split; [reflexivity | auto]. }
  destruct Hbulk as ([s f] & w3 & Eb & G3 & Hno).
  unfold bind at 1. rewrite Eb. unfold SyncTask.update_progress, modify, bind, ret.
  intros [= <- <-]. cbn [SyncResult.messages_processed SyncResult.has_more
    SyncResult.chat_messages_stored SyncResult.elasticsearch_success
    SyncResult.elasticsearch_failed].
  fold (processed_count t).
  split; [exact Hf|]. split; [apply B2; lia|]. split; [reflexivity|]. split.
  - intros ->. destruct (Hno eq_refl) as [[= -> ->] ->]. simpl.
    split; [congruence | auto].
  - eexists. simpl. rewrite G3, G2, G1.
    split; [rewrite <- !app_assoc; reflexivity|]. split.
    + apply (reports_between_app 0 0); [lia | exact R1|].
      apply (reports_between_app 0 (processed_count t)); [lia | exact R2|].
      apply reports_between_one. lia.
    + rewrite app_assoc. apply last_snoc.
Qed.

(** X16.  The explicit window never processes more than [size] messages,
    whatever the platform serves and however [size], [offset] and
    [batch_size] are chosen, and [has_more] is set exactly when the count
    reached [size]. *)
Theorem window_never_exceeds_its_size (request_id : string) (tc : TelegramClient)
  (es_client : AsyncElasticsearch) (minio : MinIOManager) (c : Z)
  (sync_chat si : bool) (size offset batch_size : Z) (fuel : nat)
  (w w' : World) (r : SyncResult.t) :
  sync_channel_messages_task request_id tc es_client minio c sync_chat si size offset
    batch_size fuel w = Some (Ok r, w') ->
  (Z.of_nat (SyncResult.messages_processed r) <= Z.max 0 size)%Z
  /\ (SyncResult.has_more r = true <-> Z.of_nat (SyncResult.messages_processed r) = size).
Proof.
  intros H. destruct (sync_task_keeps _ _ _ _ _ _ _ _ _ _ _ _ _ _ H) as (_ & B & Hm & _).
  split; [exact B|]. rewrite Hm. apply Z.eqb_eq.
Qed.

Lemma window_never_exceeds_witness :
  exists r w',
    sample_window_run blank_world = Some (Ok r, w')
    /\ (Z.of_nat (SyncResult.messages_processed r) <= Z.max 0 2)%Z
    /\ (SyncResult.has_more r = true <-> Z.of_nat (SyncResult.messages_processed r) = 2%Z).
Proof.
  eexists _, _. split; [reflexivity|].
  eapply (window_never_exceeds_its_size "task" (telethon_of (one_channel 5 (countdown 3)))
           es_node sample_minio 5 true false 2 0 50 5 blank_world).
  reflexivity.
Defined.

(** X17.  With [sync_chat] off, the explicit window leaves the index as it is
    and reports nothing stored. *)
Theorem window_without_sync_chat_leaves_the_index (request_id : string)
  (tc : TelegramClient) (es_client : AsyncElasticsearch) (minio : MinIOManager) (c : Z)
  (si : bool) (size offset batch_size : Z) (fuel : nat)
  (w w' : World) (r : SyncResult.t) :
  sync_channel_messages_task request_id tc es_client minio c false si size offset
    batch_size fuel w = Some (Ok r, w') ->
  si = true
  /\ es_index w' = es_index w
  /\ SyncResult.chat_messages_stored r = 0
  /\ SyncResult.elasticsearch_success r = 0
  /\ SyncResult.elasticsearch_failed r = 0.
Proof.
  intros H. destruct (sync_task_keeps _ _ _ _ _ _ _ _ _ _ _ _ _ _ H) as (Hf & _ & _ & K & _).
  split; [exact Hf|]. apply K. reflexivity.
Qed.

Lemma window_without_sync_chat_witness :
  exists r w',
    sample_images_only_run blank_world = Some (Ok r, w')
    /\ true = true
    /\ es_index w' = es_index blank_world
    /\ SyncResult.chat_messages_stored r = 0
    /\ SyncResult.elasticsearch_success r = 0
    /\ SyncResult.elasticsearch_failed r = 0.
Proof.
  eexists _, _. split; [reflexivity|].
  apply (window_without_sync_chat_leaves_the_index "task"
           (telethon_of (one_channel 5 (countdown 3))) es_node sample_minio 5 true 2 0 50 5
           blank_world).
  reflexivity.
Defined.

(** X18.  The progress reports of the explicit window: their [current] values
    never decrease, lie between 0 and the final count (itself at most
    [size]), all carry [size] as total, and the last report is the final
    count. *)
Theorem window_progress_never_decreases (request_id : string) (tc : TelegramClient)
  (es_client : AsyncElasticsearch) (minio : MinIOManager) (c : Z)
  (sync_chat si : bool) (size offset batch_size : Z) (fuel : nat)
  (w w' : World) (r : SyncResult.t) :
  sync_channel_messages_task request_id tc es_client minio c sync_chat si size offset
    batch_size fuel w = Some (Ok r, w') ->
  exists new,
    task_meta w' = task_meta w ++ new
    /\ StronglySorted Z.le (map current new)
    /\ Forall (fun p => (0 <= current p <= Z.of_nat (SyncResult.messages_processed r))%Z
                        /\ (current p <= Z.max 0 size)%Z
                        /\ total p = size) new
    /\ last new = Some (progress_meta (Z.of_nat (SyncResult.messages_processed r)) size
                          "Sync completed successfully").
Proof.
  intros H.
  destruct (sync_task_keeps _ _ _ _ _ _ _ _ _ _ _ _ _ _ H)
    as (_ & B & _ & _ & new & G & [S F] & L).
  exists new. split; [exact G|]. split; [exact S|]. split; [|exact L].
  eapply Forall_impl; [exact F|]. simpl. intros p [[A1 A2] A3].
  split; [lia|]. split; [lia | exact A3].
Qed.

Lemma window_progress_witness :
  exists r w' new,
    sample_window_run blank_world = Some (Ok r, w')
    /\ task_meta w' = task_meta blank_world ++ new
    /\ StronglySorted Z.le (map current new)
    /\ Forall (fun p => (0 <= current p <= Z.of_nat (SyncResult.messages_processed r))%Z
                        /\ (current p <= Z.max 0 2)%Z
                        /\ total p = 2%Z) new
    /\ last new = Some (progress_meta (Z.of_nat (SyncResult.messages_processed r)) 2
                          "Sync completed successfully").
Proof.
  destruct (window_progress_never_decreases "task"
              (telethon_of (one_channel 5 (countdown 3))) es_node sample_minio 5 true
              false 2 0 50 5 blank_world
              (world_after sample_window_run blank_world)
              {| SyncResult.channel_id := 5; SyncResult.sync_chat := true;
                 SyncResult.sync_images := false; SyncResult.messages_processed := 2;
                 SyncResult.chat_messages_stored := 2; SyncResult.images_downloaded := 0;
                 SyncResult.images_failed := 0; SyncResult.elasticsearch_success := 2;
                 SyncResult.elasticsearch_failed := 0; SyncResult.has_more := true;
                 SyncResult.task_id := "task" |} eq_refl)
    as (new & G & S & F & L).
  eexists _, _, new. split; [reflexivity|]. auto.
Defined.

(** X19.  A window request with both [sync_chat] and [sync_images] off is refused
    with a [ValueError] once the client is started: nothing is fetched,
    reported or stored. *)
Theorem window_refuses_to_sync_nothing (request_id : string) (tc : TelegramClient)
  (es_client : AsyncElasticsearch) (minio : MinIOManager) (c : Z)
  (size offset batch_size : Z) (fuel : nat) (w : World) :
  start tc = Ok tt ->
  sync_channel_messages_task request_id tc es_client minio c false false size offset
    batch_size fuel w
  = Some (Raise "At least one of sync_chat or sync_images must be True", w).
Proof.
  intros Hs. unfold sync_channel_messages_task. rewrite try_except_reraise.
  unfold run_sync, lift, bind. rewrite Hs. reflexivity.
Qed.

Lemma window_refuses_witness :
  sync_channel_messages_task "task" (telethon_of (one_channel 5 (countdown 3))) es_node
    sample_minio 5 false false 100 0 50 5 blank_world
  = Some (Raise "At least one of sync_chat or sync_images must be True", blank_world).
Proof.
  apply (window_refuses_to_sync_nothing "task" (telethon_of (one_channel 5 (countdown 3)))
           es_node sample_minio 5 100 0 50 5 blank_world).
  reflexivity.
Defined.

(** ** The explicit window on the platform *)

Lemma always_normalised_sub (tc : TelegramClient) (c : Z) (si : bool)
  (mm : option MinIOManager) (l l' : list Tg.Message) :
  (forall m, In m l' -> In m l) ->
  always_normalised tc c si mm l -> always_normalised tc c si mm l'.
Proof. intros Hsub H m Hm. apply H, Hsub, Hm. Qed.

(** The window loop on a channel history: it processes as many messages as
    the window still has room for, or all that are left. *)
Lemma window_loop_on_platform (p : Platform) (minio : MinIOManager) (c : Z) (si : bool)
  (size batch_size : Z) (history : list Tg.Message) :
  chats p !! c = Some history ->
  (0 < batch_size)%Z ->
  forall (fuel : nat) (rest : list Tg.Message) (o b : Z) (t : Tally) (w : World),
    List.filter (older_than o) history = rest ->
    below b rest = true ->
    always_normalised (telethon_of p) c si (task_minio_manager minio si) rest ->
    (Z.of_nat (length (processed_messages t)) <= size)%Z ->
    Z.to_nat size - length (processed_messages t) < fuel ->
    exists t' w',
      window_loop (telethon_of p) minio c si size batch_size fuel o t w = Some (Ok t', w')
      /\ length (processed_messages t') =
         length (processed_messages t)
         + Nat.min (Z.to_nat size - length (processed_messages t)) (length rest).
Proof.
  intros Hc Hbatch. induction fuel as [|fuel IH]; intros rest o b t w Hrest Hb Hn Hle Hfuel;
    [lia|].
  rewrite window_loop_round. unfold processed_count.
  set (n := length (processed_messages t)) in *.
  destruct (Z.ltb_spec (Z.of_nat n) size) as [Hlt|Hge].
  - set (k := Z.to_nat (Z.min batch_size (size - Z.of_nat n))).
    assert (Hk : Z.min batch_size (size - Z.of_nat n) = Z.of_nat k) by (unfold k; lia).
    assert (Hk1 : 1 <= k) by lia.
    assert (Hk2 : k <= Z.to_nat size - n) by lia.
    cbn [get_messages telethon_of]. rewrite Hc. unfold history_page. rewrite Hrest.
    fold k. rewrite Hk.
    destruct (last (take k rest)) as [oldest|] eqn:Hlast.
    + destruct (window_batch_counts (telethon_of p) minio c si size (take k rest) t w)
        as (t1 & w1 & E1 & C1).
      { eapply always_normalised_sub; [|exact Hn]. intros m. apply in_take. }
      { unfold processed_count. fold n. rewrite length_take. lia. }
      rewrite E1. fold n in C1. rewrite length_take in C1.
      rewrite length_take.
      destruct (Z.ltb_spec (Z.of_nat (Nat.min k (length rest))) (Z.of_nat k)) as [Hshort|Hfull].
      * exists t1, w1. split; [reflexivity|]. lia.
      * destruct (next_page_starts_after_oldest history rest o b k oldest Hrest Hb Hlast)
          as (Hnext & Hbelow & _).
        destruct (IH (drop k rest) (Tg.id oldest) (Tg.id oldest) t1 w1 Hnext Hbelow)
          as (t2 & w2 & E2 & C2).
        { eapply always_normalised_sub; [|exact Hn]. intros m. apply in_drop. }
        { lia. }
        { lia. }
        exists t2, w2. split; [exact E2|]. rewrite C2, C1, length_drop. lia.
    + apply last_None in Hlast.
      assert (rest = []) as ->.
      { destruct rest; [reflexivity|]. destruct k; [lia | discriminate]. }
      exists t, w. split; [reflexivity|]. simpl. lia.
  - exists t, w. split; [reflexivity|]. lia.
Qed.

(** X20.  The explicit window on the platform, for every size, offset and batch
    size: it skips the [offset] newest messages and processes the next
    [size] ones, or all that are left when the history ends first. *)
Theorem window_covers_the_requested_range (request_id : string) (p : Platform)
  (es_client : AsyncElasticsearch) (minio : MinIOManager) (c : Z)
  (sync_chat si : bool) (size offset batch_size : Z)
  (history : list Tg.Message) (fuel : nat) (w : World) :
  chats p !! c = Some history ->
  newest_first history = true ->
  always_normalised (telethon_of p) c si (task_minio_manager minio si) history ->
  sync_chat || si = true ->
  (0 <= size)%Z -> (0 <= offset)%Z -> (0 < batch_size)%Z ->
  Z.to_nat size < fuel ->
  exists r w',
    sync_channel_messages_task request_id (telethon_of p) es_client minio c sync_chat si
      size offset batch_size fuel w = Some (Ok r, w')
    /\ SyncResult.messages_processed r =
       Nat.min (Z.to_nat size) (length history - Z.to_nat offset).
Proof.
  intros Hc Hnf Hn Hflags Hsize Hoff Hbatch Hfuel.
  destruct (newest_first_below history Hnf) as [b Hb].
  assert (H0 : List.filter (older_than 0) history = history).
  { clear. induction history as [|m l IH]; simpl; [reflexivity|]. rewrite IH. reflexivity. }
  unfold sync_channel_messages_task. rewrite try_except_reraise.
  unfold run_sync. unfold lift at 1, bind at 1. cbn [start telethon_of].
  replace (negb sync_chat && negb si) with false
    by (destruct sync_chat, si; simpl in *; congruence).
  unfold SyncTask.update_progress at 1, modify at 1, bind at 1.
  match goal with
  | |- context [set_task_meta ?l w] => set (w0 := set_task_meta l w)
  end.
  assert (Hloop : exists o w1 rest b',
             (if (offset >? 0)%Z
              then
                bind (lift (get_messages (telethon_of p) c offset 0))
                  (fun skip_messages =>
                     bind (SyncTask.update_progress 0 size
                             ("Skipped " +:+ Py.str offset +:+ " messages"))
                       (fun _ => ret match last skip_messages with
                                     | Some oldest => Tg.id oldest
                                     | None => 0%Z
                                     end))
              else ret 0%Z) w0 = Some (Ok o, w1)
             /\ List.filter (older_than o) history = rest
             /\ below b' rest = true
             /\ length rest = length history - Z.to_nat offset
             /\ (forall m, In m rest -> In m history)).
  { destruct (Z.gtb_spec offset 0) as [Hpos|Hzero].
    - unfold lift, bind, SyncTask.update_progress, modify, ret.
      cbn [get_messages telethon_of]. rewrite Hc. unfold history_page. rewrite H0.
      destruct (last (take (Z.to_nat offset) history)) as [oldest|] eqn:Hlast.
      + destruct (next_page_starts_after_oldest history history 0 b (Z.to_nat offset)
                    oldest H0 Hb Hlast) as (Hnext & Hbelow & _).
        eexists _, _, (drop (Z.to_nat offset) history), _.
        split; [reflexivity|]. split; [exact Hnext|]. split; [exact Hbelow|].
        split; [apply length_drop|]. intros m. apply in_drop.
      + apply last_None in Hlast.
        assert (history = []) as ->.
        { destruct history; [reflexivity|].
          destruct (Z.to_nat offset) eqn:E; [lia | discriminate]. }
        eexists _, _, [], 0%Z. split; [reflexivity|]. simpl. auto.
    - eexists _, _, history, b. split; [reflexivity|]. split; [exact H0|].
      split; [exact Hb|]. split; [lia | auto]. }
  destruct Hloop as (o & w1 & rest & b' & Eo & Hrest & Hb' & Hlen & Hsub).
  unfold bind at 1. rewrite Eo.
  destruct (window_loop_on_platform p minio c si size batch_size history Hc Hbatch fuel
              rest o b' empty_tally w1 Hrest Hb')
    as (t & w2 & E & C).
  { eapply always_normalised_sub; [exact Hsub | exact Hn]. }
  { simpl. lia. }
  { simpl. lia. }
  unfold bind at 1. rewrite E.
  assert (Hbulk : exists sf w3,
             match sync_chat, processed_messages t with
             | true, _ :: _ =>
                 execute_elasticsearch_bulk_insert es_client
                   (map bulk_action (processed_messages t))
             | _, _ => ret (0, 0)
             end w2 = Some (Ok sf, w3)).
  { destruct sync_chat; [|eexists _, _; reflexivity].
    destruct (processed_messages t) as [|mi l]; [eexists _, _; reflexivity|].
    apply bulk_insert_returns. }
  destruct Hbulk as ([s f] & w3 & Eb).
  unfold bind at 1. rewrite Eb.
  unfold SyncTask.update_progress, modify, bind, ret.
  eexists _, _. split; [reflexivity|]. cbn [SyncResult.messages_processed].
  rewrite C. simpl. lia.
Qed.

Lemma window_covers_witness :
  exists r w',
    sync_channel_messages_task "task" (telethon_of (one_channel 5 (countdown 10)))
      es_node sample_minio 5 true false 4 8 3 5 blank_world = Some (Ok r, w')
    /\ SyncResult.messages_processed r = Nat.min (Z.to_nat 4) (length (countdown 10) - Z.to_nat 8).
Proof.
  apply (window_covers_the_requested_range "task" (one_channel 5 (countdown 10)) es_node
           sample_minio 5 true false 4 8 3 (countdown 10) 5 blank_world).
  - reflexivity.
  - reflexivity.
  - intros m Hm w. apply process_message_without_images.
    exact (countdown_without_media _ m Hm).
  - reflexivity.
  - lia.
  - lia.
  - lia.
  - vm_compute. lia.
Defined.

(** ** The totals of a smart-sync batch *)

Lemma count_action_lookup (summary : gmap string nat) (r : Outcome.t)
  (a : Outcome.action) :
  default 0 (count_action summary r !! action_name a) =
  default 0 (summary !! action_name a)
  + length (with_action a [r]).
Proof.
  unfold count_action, with_action. cbn [List.filter].
  destruct (String.eqb_spec (action_name (Outcome.action_taken r)) (action_name a))
    as [E|N].
  - rewrite E, lookup_insert_eq. reflexivity.
  - rewrite lookup_insert_ne by exact N. cbn [length]. symmetry. apply Nat.add_0_r.
Qed.

Lemma histogram_counts (results : list Outcome.t) (a : Outcome.action) :
  forall summary,
    default 0 (foldl count_action summary results !! action_name a) =
    default 0 (summary !! action_name a) + length (with_action a results).
Proof.
  induction results as [|r results IH]; intros summary; simpl;
    [symmetry; apply Nat.add_0_r|].
  rewrite IH, count_action_lookup. unfold with_action. cbn [List.filter].
  generalize (default 0 (summary !! action_name a)). intros n.
  destruct (String.eqb (action_name (Outcome.action_taken r)) (action_name a));
    cbn [length]; lia.
Qed.

Lemma actions_partition (results : list Outcome.t) :
  length (with_action Outcome.skip results)
  + length (with_action Outcome.full_sync results)
  + length (with_action Outcome.incremental_sync results)
  + length (with_action Outcome.error results)
  = length results.
Proof.
  unfold with_action. induction results as [|r results IH]; simpl; [reflexivity|].
  destruct (Outcome.action_taken r); simpl in *; lia.
Qed.

(** X21.  The action histogram of a batch counts, for every action, the results
    with that action; the four counts add up to the number of results. *)
Theorem action_histogram_counts_the_results (task_id : string) (total : Z)
  (results : list Outcome.t) (a : Outcome.action) :
  default 0 (BatchSummary.actions_summary (aggregate task_id total results)
             !! action_name a)
  = length (with_action a results)
  /\ default 0 (BatchSummary.actions_summary (aggregate task_id total results) !! "skip")
     + default 0 (BatchSummary.actions_summary (aggregate task_id total results)
                  !! "full_sync")
     + default 0 (BatchSummary.actions_summary (aggregate task_id total results)
                  !! "incremental_sync")
     + default 0 (BatchSummary.actions_summary (aggregate task_id total results) !! "error")
     = length results.
Proof.
  unfold aggregate. cbn [BatchSummary.actions_summary].
  split.
  - rewrite histogram_counts, lookup_empty. reflexivity.
  - change "skip" with (action_name Outcome.skip).
    change "full_sync" with (action_name Outcome.full_sync).
    change "incremental_sync" with (action_name Outcome.incremental_sync).
    change "error" with (action_name Outcome.error).
    rewrite !histogram_counts, !lookup_empty. simpl. apply actions_partition.
Qed.

(** What [smart_sync_channel] reports as unsuccessful: the runs that ended
    in the handler, and the channels that could not be read on Telegram. *)
Lemma smart_sync_result_success (r : Outcome.t) :
  smart_sync_result r ->
  negb (Outcome.success r)
  = String.eqb (action_name (Outcome.action_taken r)) "error" || not_accessible r.
Proof.
  intros (fuel & c & tc & es_client & si & mm & w & w' & Hrun). revert Hrun.
  unfold smart_sync_channel. unfold try_except at 1. unfold bind at 1.
  rewrite get_last_message_id_telegram_reads. unfold bind at 1.
  destruct (get_last_message_id_elasticsearch_reads es_client c w) as [indexed ->].
  destruct (get_messages tc c 1 0) as [[|m l]|e].
  - unfold ret. intros [= <-]. reflexivity.
  - destruct indexed as [i|].
    + destruct (Z.eqb_spec (Tg.id m) i) as [Heq|Hne].
      * unfold ret. intros [= <-]. reflexivity.
      * destruct (Z.gtb_spec (Tg.id m) i) as [Hgt|Hle].
        -- unfold bind, ret.
           destruct (sync_missing_messages tc es_client c i si mm fuel w)
             as [[[s|e] w1]|]; intros [= <-] || discriminate; reflexivity.
        -- destruct (Z.gtb_spec i (Tg.id m)) as [Hgt|Hle2]; [|lia].
           unfold ret. intros [= <-]. reflexivity.
    + unfold bind, ret.
      destruct (sync_missing_messages tc es_client c 0 si mm fuel w)
        as [[[s|e] w1]|]; intros [= <-] || discriminate; reflexivity.
  - unfold ret. intros [= <-]. reflexivity.
Qed.

(** X22.  In the totals of a batch whose results all come from
    [smart_sync_channel], the failed channels are the ones counted under
    ["error"] together with the channels skipped because Telegram gave no
    access to them: such a channel appears as a skip in the action
    histogram and as a failure in the totals. *)
Theorem failed_channels_are_errors_and_unreadable_channels (task_id : string)
  (results : list Outcome.t) :
  Forall smart_sync_result results ->
  let summary := aggregate task_id (Z.of_nat (length results)) results in
  BatchSummary.channels_failed summary
  = Z.of_nat (default 0 (BatchSummary.actions_summary summary !! "error")
              + length (List.filter not_accessible results))
  /\ (BatchSummary.channels_successful summary + BatchSummary.channels_failed summary
      = Z.of_nat (length results))%Z.
Proof.
  intros Hall. unfold aggregate. cbn [BatchSummary.channels_failed
    BatchSummary.channels_successful BatchSummary.actions_summary].
  split; [|lia].
  change "error" with (action_name Outcome.error).
  rewrite histogram_counts, lookup_empty. cbn [default]. unfold with_action.
  cbn [action_name].
  induction Hall as [|r results Hr Hall IH]; [reflexivity|].
  apply smart_sync_result_success in Hr. cbn [List.filter length].
  destruct (Outcome.success r); cbn [negb] in Hr.
  - symmetry in Hr. apply orb_false_iff in Hr as [-> ->]. cbn [length]. lia.
  - unfold not_accessible in *.
    destruct (Outcome.action_taken r); cbn [action_name] in *;
      destruct (String.eqb (Outcome.reason r) "Channel not accessible on Telegram");
      try discriminate Hr; cbn -[Z.of_nat Z.sub] in *; lia.
Qed.

Lemma failed_channels_witness :
  let results :=
    [Outcome.plain 9 Outcome.skip "Channel not accessible on Telegram" false] in
  let summary := aggregate "task" (Z.of_nat (length results)) results in
  BatchSummary.channels_failed summary
  = Z.of_nat (default 0 (BatchSummary.actions_summary summary !! "error")
              + length (List.filter not_accessible results))
  /\ (BatchSummary.channels_successful summary + BatchSummary.channels_failed summary
      = Z.of_nat (length results))%Z.
Proof.
  apply (failed_channels_are_errors_and_unreadable_channels "task"
           [Outcome.plain 9 Outcome.skip "Channel not accessible on Telegram" false]).
  constructor; [|constructor].
  exists 1, 9%Z, (telethon_of (one_channel 5 (countdown 3))), es_node, false, None,
    blank_world, blank_world.
  reflexivity.
Defined.

(** ** The query builders *)

(** X23.  The channel query never has an empty [must] list: without a usable
    filter (none given, or the empty string) it matches all channels,
    otherwise it holds one clause per usable filter and no [match_all]. *)
Theorem channel_query_always_has_a_clause (title_contains username : option string) :
  Query.must (build_channel_query title_contains username) <> []
  /\ (Query.must (build_channel_query title_contains username) = [Query.match_all]
      <-> Py.truthy_opt_str title_contains = false
          /\ Py.truthy_opt_str username = false)
  /\ (Py.truthy_opt_str title_contains || Py.truthy_opt_str username = true ->
      length (Query.must (build_channel_query title_contains username))
      = (if Py.truthy_opt_str title_contains then 1 else 0)
        + (if Py.truthy_opt_str username then 1 else 0)
      /\ ~ In Query.match_all (Query.must (build_channel_query title_contains username))).
Proof.
  unfold build_channel_query.
  destruct (Py.truthy_opt_str title_contains), (Py.truthy_opt_str username); simpl;
    (split; [discriminate|]); (split; [split; [discriminate || auto | intros [? ?]; discriminate || reflexivity]|]);
    intros H; try discriminate; (split; [reflexivity|]); intros K; simpl in K;
    intuition discriminate.
Qed.

(** X24.  The message query holds one [must] clause per given filter -- an empty
    string counts as given -- with [has_media] false going to [must_not]
    instead; paging is passed through. *)
Theorem message_query_has_one_clause_per_filter (channel_id message_id : option Z)
  (has_media : option bool) (title_contains sender_name : option string)
  (size offset : Z) :
  let q := build_message_query channel_id message_id has_media title_contains
             sender_name size offset in
  length (Query.must (Query.query q))
  = given channel_id + given message_id + given sender_name + given title_contains
    + (if default false has_media then 1 else 0)
  /\ (Query.must_not (Query.query q) = Some [Query.exists_field "image_urls"]
      <-> has_media = Some false)
  /\ (Query.must_not (Query.query q) = None <-> has_media <> Some false)
  /\ Query.from q = offset
  /\ Query.size q = size.
Proof.
  unfold build_message_query.
  destruct channel_id, message_id, sender_name, title_contains, has_media as [[|]|];
    simpl; repeat split; try reflexivity; try discriminate; congruence.
Qed.

(** ** The monitored channels *)

Ltac unfold_l :=
  unfold try_exceptL, bindL, retL, raiseL, on_world, redis_command in *.

Lemma set_monitored_same (s : Listener) : set_monitored (monitored s) s = s.
Proof. destruct s; reflexivity. Qed.

Lemma add_monitored_channel_runs (c : Z) (s : Listener) :
  add_monitored_channel c s =
  Some (Ok tt,
        if redis_reachable (world s) then set_monitored ({[c]} ∪ monitored s) s else s).
Proof.
  unfold add_monitored_channel, sadd. unfold_l.
  destruct (redis_reachable (world s)); reflexivity.
Qed.

Lemma get_monitored_channels_runs (s : Listener) :
  get_monitored_channels s =
  Some (Ok (if redis_reachable (world s) then monitored s else ∅), s).
Proof.
  unfold get_monitored_channels, smembers. unfold_l.
  destruct (redis_reachable (world s)); reflexivity.
Qed.

Lemma discover_loop_runs (dialogs : list Dialog) (failure : option Exn) :
  forall channels s,
    discover_loop dialogs failure channels s =
    Some (match failure with
          | Some e => Raise e
          | None => Ok (channels ++ channel_ids dialogs)
          end,
          if redis_reachable (world s)
          then set_monitored (list_to_set (channel_ids dialogs) ∪ monitored s) s
          else s).
Proof.
  induction dialogs as [|[id|] rest IH]; intros channels s; cbn [discover_loop channel_ids].
  - rewrite app_nil_r. cbn [list_to_set foldr]. rewrite (left_id_L ∅ (∪)).
    rewrite set_monitored_same.
    destruct failure, (redis_reachable (world s)); reflexivity.
  - unfold bindL. rewrite add_monitored_channel_runs, IH, <- app_assoc.
    destruct (redis_reachable (world s)) eqn:R; cbn [set_monitored world]; rewrite R;
      [|reflexivity].
    cbn [list_to_set foldr monitored]. unfold set_monitored. cbn [world monitored message_queue].
    do 2 f_equal. f_equal.
    rewrite (assoc_L (∪)). f_equal. apply (comm_L (∪)).
  - apply IH.
Qed.

Lemma channel_loop_runs (dialogs : list Dialog) (failure : option Exn) :
  forall channels w,
    channel_loop dialogs failure channels w =
    Some (match failure with
          | Some e => Raise e
          | None => Ok (channels ++ channel_ids dialogs)
          end, w).
Proof.
  induction dialogs as [|[id|] rest IH]; intros channels w; cbn [channel_loop channel_ids].
  - rewrite app_nil_r. destruct failure; reflexivity.
  - rewrite IH, <- app_assoc. reflexivity.
  - apply IH.
Qed.

(** X25.  Discovery adds every channel the dialog iteration yielded to the
    monitored set, also when the iteration then fails: in that case the
    answer is the empty list although the channels seen so far are
    monitored.  With the store out of reach nothing is added and the answer
    is the same. *)
Theorem discovery_monitors_every_channel_it_saw (dialogs : Dialogs) (s : Listener) :
  exists s',
    discover_channels dialogs s
    = Some (Ok (match failure dialogs with
                | Some _ => []
                | None => channel_ids (yielded dialogs)
                end), s')
    /\ world s' = world s
    /\ message_queue s' = message_queue s
    /\ monitored s' =
       if redis_reachable (world s)
       then list_to_set (channel_ids (yielded dialogs)) ∪ monitored s
       else monitored s.
Proof.
  unfold discover_channels, try_exceptL. rewrite discover_loop_runs.
  destruct (failure dialogs), (redis_reachable (world s));
    eexists; (split; [reflexivity|]); auto.
Qed.

(** X26.  The channel listing of the smart sync and the discovery of the listener
    give the same list for the same dialogs -- the channel ids in the order
    of the dialogs, or the empty list when the iteration fails -- and the
    listing writes nothing. *)
Theorem channel_listing_agrees_with_discovery (dialogs : Dialogs) (s : Listener) :
  exists found s',
    discover_channels dialogs s = Some (Ok found, s')
    /\ get_all_telegram_channels dialogs (world s) = Some (Ok found, world s)
    /\ (failure dialogs = None -> found = channel_ids (yielded dialogs)).
Proof.
  unfold discover_channels, get_all_telegram_channels, try_exceptL, try_except.
  rewrite discover_loop_runs, channel_loop_runs.
  destruct (failure dialogs); eexists _, _; (split; [reflexivity|]);
    (split; [reflexivity|]); intros H; [discriminate | reflexivity].
Qed.

(** X27.  The channel tasks never answer ["error"]: every call they make
    swallows its own failures.  On a store within reach the channel is
    added to (removed from) the monitored set, the answer counts the
    monitored channels, the persisted status lists them, and the
    [is_running] a reader of the status gets is what it was.  With the store
    out of reach the answer is still ["added"] (["removed"]), with a total
    of 0, and nothing has changed. *)
Theorem channel_tasks_never_report_an_error (c : Z) (s : Listener) :
  exists r r' s1 s2,
    add_channel_task c s = Some (Ok r, s1)
    /\ remove_channel_task c s = Some (Ok r', s2)
    /\ ChannelTask.status r = "added"
    /\ ChannelTask.status r' = "removed"
    /\ if redis_reachable (world s) then
         monitored s1 = {[c]} ∪ monitored s
         /\ monitored s2 = monitored s ∖ {[c]}
         /\ ChannelTask.total_channels r = Some (size (monitored s1))
         /\ ChannelTask.total_channels r' = Some (size (monitored s2))
         /\ persisted_channels (world s1) = Some (elements (monitored s1))
         /\ persisted_channels (world s2) = Some (elements (monitored s2))
         /\ reported_is_running (world s1) = reported_is_running (world s)
         /\ reported_is_running (world s2) = reported_is_running (world s)
       else
         s1 = s /\ s2 = s
         /\ ChannelTask.total_channels r = Some 0
         /\ ChannelTask.total_channels r' = Some 0.
Proof.
  unfold add_channel_task, remove_channel_task, add_monitored_channel,
    remove_monitored_channel, get_monitored_channels, sadd, srem, smembers,
    reported_is_running, result_of, persisted_channels,
    get_listener_status, set_listener_status, redis_get, redis_set.
  unfold_l. unfold_m.
  destruct s as [w m q].
  destruct (redis_reachable w) eqn:R; [destruct (redis_status w) as [st|] eqn:S|];
    repeat (progress (cbn [world monitored message_queue set_monitored set_world
                           redis_reachable set_redis_status redis_status];
                      rewrite ?R, ?S));
    eexists _, _, _, _; (split; [reflexivity|]); (split; [reflexivity|]);
    cbn; rewrite ?R; repeat split; try reflexivity.
Qed.

(** ** The live path *)

(** X28.  The handler of new messages never raises.  For a message of a channel,
    on a store within reach, the channel is monitored afterwards, and one
    message task is queued with the id, text, date, media type and sender
    id of the message, its channel and the policy -- unless images are off
    and the message carries a photo or a document: such a message is
    dropped, text and all.  A message of another
    peer, or any message while the store is out of reach, leaves everything
    as it is. *)
Theorem handler_queues_the_message_unless_it_has_unwanted_media
  (download : bool) (peer_channel_id : option Z) (message : Tg.Message) (s : Listener) :
  exists s',
    handle_new_message download peer_channel_id message s = Some (Ok tt, s')
    /\ world s' = world s
    /\ match peer_channel_id with
       | Some c =>
           if redis_reachable (world s) then
             monitored s' = {[c]} ∪ monitored s
             /\ message_queue s' =
                message_queue s ++
                (if negb download && carries_photo_or_document message then []
                 else [{| data_id := Tg.id message;
                          data_text := Py.or_empty (Tg.text message);
                          data_date := Tg.date message;
                          data_media_type :=
                            match Tg.media message with
                            | Some (Tg.MessageMediaPhoto _) => Some photo_type
                            | Some (Tg.MessageMediaDocument _) => Some document_type
                            | Some Tg.MessageMediaOther => Some other_type
                            | None => None
                            end;
                          data_sender_id := Tg.sender_id message;
                          queued_channel_id := c;
                          queued_download_images := download |}])
           else s' = s
       | None => s' = s
       end.
Proof.
  unfold handle_new_message, carries_photo_or_document, message_data.
  unfold try_exceptL at 1.
  destruct peer_channel_id as [c|]; [|eexists; split; [reflexivity|]; auto].
  unfold bindL at 1. rewrite get_monitored_channels_runs. unfold bindL at 1.
  destruct s as [w m q]. cbn [world monitored message_queue].
  destruct (redis_reachable w) eqn:R.
  - assert (Hadd :
      (if bool_decide (c ∈ m) then retL tt else add_monitored_channel c)
        {| world := w; monitored := m; message_queue := q |}
      = Some (Ok tt, {| world := w; monitored := {[c]} ∪ m; message_queue := q |})).
    { destruct (bool_decide_reflect (c ∈ m)) as [Hin|Hout].
      - unfold retL. do 3 f_equal. symmetry.
        apply subseteq_union_1_L, singleton_subseteq_l, Hin.
      - rewrite add_monitored_channel_runs. cbn [world]. rewrite R. reflexivity. }
    cbn [world monitored message_queue]. rewrite Hadd.
    unfold process_message_task_delay, redis_command, retL.
    destruct download, (Tg.media message) as [[p|d|]|];
      cbn [negb andb is_photo_or_document world monitored message_queue
           set_message_queue];
      rewrite ?R; eexists; (split; [reflexivity|]);
      cbn [world monitored message_queue]; rewrite ?app_nil_r; auto.
  - cbn [world monitored message_queue].
    rewrite bool_decide_eq_false_2 by apply not_elem_of_empty.
    rewrite add_monitored_channel_runs. cbn [world]. rewrite R.
    unfold process_message_task_delay, redis_command, retL.
    destruct download, (Tg.media message) as [[p|d|]|];
      cbn [negb andb is_photo_or_document world monitored message_queue
           set_message_queue];
      rewrite ?R; eexists; (split; [reflexivity|]); auto.
Qed.

Lemma fetch_message_reads (client : TelegramClient)
  (get_peer_channel : Z -> Res Tg.Entity) (get_dialogs : Res unit)
  (get_message : Tg.Entity -> Z -> Res (option Tg.Message)) (mid c : Z) (w : World) :
  exists r,
    fetch_message client get_peer_channel get_dialogs get_message mid c w = Some (r, w)
    /\ (forall entity,
          get_peer_channel c = Ok entity -> r = get_message entity mid)
    /\ (forall message,
          r = Ok (Some message) ->
          exists entity, get_message entity mid = Ok (Some message)).
Proof.
  unfold fetch_message. unfold_m.
  destruct (get_peer_channel c) as [entity|e].
  - exists (get_message entity mid). split; [|split].
    + destruct (get_message entity mid); reflexivity.
    + intros entity' [= <-]. reflexivity.
    + intros message H. exists entity. exact H.
  - destruct get_dialogs as [[]|e2].
    + destruct (get_entity client c) as [entity|e3].
      * exists (get_message entity mid).
        split; [destruct (get_message entity mid); reflexivity|].
        split; [intros ? [=]|]. intros message H. exists entity. exact H.
      * eexists. split; [reflexivity|]. split; [intros ? [=] | intros ? [=]].
    + eexists. split; [reflexivity|]. split; [intros ? [=] | intros ? [=]].
Qed.

Lemma store_one_message (es_client : AsyncElasticsearch) (mi : Models.MessageInfo)
  (w : World) :
  exists counts i,
    store_messages_elasticsearch es_client [mi] w
    = Some (Ok counts, set_es_index i w)
    /\ (es_client = es_node ->
        counts = (1, 0) /\ i = <[Es.doc_id (bulk_action mi) := model_dump mi]> (es_index w)).
Proof.
  unfold store_messages_elasticsearch. unfold try_except, bind.
  rewrite bulk_insert_outcome.
  destruct (async_bulk es_client (map bulk_action [mi]) (es_index w))
    as [[[success failed]|e] i] eqn:E; unfold ret;
    eexists _, i; (split; [reflexivity|]); intros ->; cbn in E;
    [injection E as <- <- <-; split; reflexivity | discriminate].
Qed.

(** The object store the message task hands to the normaliser. *)
Lemma live_markers_of_task (download : bool) (manager : MinIOManager)
  (message : Tg.Message) :
  live_markers_unreadable download (if download then Some manager else None) message
  = negb download && carries_document_without_mime_type message.
Proof. destruct download; reflexivity. Qed.

(** X29.  The message task never raises: it answers ["processed"] (with the
    requested message id and channel id), ["message_not_found"], ["error"]
    or ["processing_failed"], and unless it answers ["processed"] the index
    is as it was.  It answers ["processing_failed"] only for a fetched
    message that carries a document without [mime_type] while images are
    off. *)
Theorem message_task_always_answers (client : TelegramClient)
  (get_peer_channel : Z -> Res Tg.Entity) (get_dialogs : Res unit)
  (get_message : Tg.Entity -> Z -> Res (option Tg.Message))
  (new_minio_manager : Res MinIOManager) (es_client : AsyncElasticsearch)
  (mid c : Z) (download : bool) (w : World) :
  exists r w',
    process_message_task client get_peer_channel get_dialogs get_message
      new_minio_manager es_client mid c download w = Some (Ok r, w')
    /\ (MessageTask.status r = "processed"
        /\ MessageTask.message_id r = Some mid
        /\ MessageTask.channel_id r = Some c
        \/ (MessageTask.status r = "message_not_found"
            \/ MessageTask.status r = "error"
            \/ MessageTask.status r = "processing_failed")
           /\ es_index w' = es_index w)
    /\ (MessageTask.status r = "processing_failed" ->
        download = false
        /\ exists entity message,
             get_message entity mid = Ok (Some message)
             /\ carries_document_without_mime_type message = true).
Proof.
  unfold process_message_task. unfold try_except at 1. unfold bind at 1.
  assert (Hrest : forall mm,
    (forall message,
       live_markers_unreadable download mm message
       = negb download && carries_document_without_mime_type message) ->
    exists r w',
      match
        (let* _ := lift (start client) in
         let* fetched :=
           try_except
             (let* message :=
                fetch_message client get_peer_channel get_dialogs get_message mid c in
              match message with
              | Some m => ret (inr m)
              | None => ret (inl (MessageTask.only "message_not_found"))
              end)
             (fun e => ret (inl (MessageTask.failed e))) in
         match fetched with
         | inl early => ret early
         | inr message =>
             let* message_info :=
               process_single_message_enhanced message c client download mm in
             match message_info with
             | Some mi =>
                 let* '(success, failed) := store_messages_elasticsearch es_client [mi] in
                 ret {| MessageTask.status := "processed";
                        MessageTask.error := None;
                        MessageTask.message_id := Some mid;
                        MessageTask.channel_id := Some c;
                        MessageTask.elasticsearch_success := Some success;
                        MessageTask.elasticsearch_failed := Some failed;
                        MessageTask.has_media :=
                          Some (match Models.image_urls mi with
                                | [] => false
                                | _ => true
                                end) |}
             | None => ret (MessageTask.only "processing_failed")
             end
         end) w
      with
      | Some (Raise e, w') => ret (MessageTask.failed e) w'
      | other => other
      end = Some (Ok r, w')
      /\ (MessageTask.status r = "processed"
          /\ MessageTask.message_id r = Some mid
          /\ MessageTask.channel_id r = Some c
          \/ (MessageTask.status r = "message_not_found"
              \/ MessageTask.status r = "error"
              \/ MessageTask.status r = "processing_failed")
             /\ es_index w' = es_index w)
      /\ (MessageTask.status r = "processing_failed" ->
          download = false
          /\ exists entity message,
               get_message entity mid = Ok (Some message)
               /\ carries_document_without_mime_type message = true)).
  { intros mm Hmm. unfold bind at 1. unfold lift at 1.
    destruct (start client) as [[]|e];
      [|eexists _, _; split; [reflexivity|]; split;
        [right; split; [right; left|]; reflexivity | discriminate]].
    unfold bind at 1. unfold try_except at 1. unfold bind at 1.
    destruct (fetch_message_reads client get_peer_channel get_dialogs get_message mid c w)
      as (fetched & -> & _ & Hentity).
    destruct fetched as [[message|]|e]; unfold ret at 1;
      [| eexists _, _; split; [reflexivity|]; split;
         [right; split; [left|]; reflexivity | discriminate]
       | eexists _, _; split; [reflexivity|]; split;
         [right; split; [right; left|]; reflexivity | discriminate]].
    unfold ret at 1. unfold bind at 1.
    destruct (enhanced_outcome message c client download mm w)
      as (o & w1 & -> & Hidx & Hnone & _).
    destruct o as [info|].
    - unfold bind at 1.
      destruct (store_one_message es_client info w1) as ([success failed] & i & -> & _).
      unfold ret. eexists _, _. split; [reflexivity|]. split; [left; auto | discriminate].
    - unfold ret. eexists _, _. split; [reflexivity|]. split.
      + right. split; [right; right; reflexivity | exact Hidx].
      + intros _. destruct Hnone as [Hnone _]. specialize (Hnone eq_refl).
        rewrite Hmm in Hnone. apply andb_true_iff in Hnone as [Hd Hc].
        apply negb_true_iff in Hd. split; [exact Hd|].
        destruct (Hentity message eq_refl) as [entity He]. eauto. }
  destruct download.
  - unfold bind at 1. unfold lift at 1.
    destruct new_minio_manager as [manager|e].
    + unfold ret at 1. apply Hrest. intros message. reflexivity.
    + eexists _, _. split; [reflexivity|]. split;
        [right; split; [right; left|]; reflexivity | discriminate].
  - unfold ret at 1. apply Hrest. intros message. reflexivity.
Qed.

(** X30.  A message the platform serves reaches the index: when the client
    starts, the channel is found and the message is fetched -- and, with
    images off, it carries no document without [mime_type] -- the task on a
    healthy index answers ["processed"] with one document stored and none
    failed; the document sits under ["<channel_id>_<message_id>"] with the
    channel, the id and the text of the message, [has_media] tells whether
    it carries image references, and no other document is touched. *)
Theorem live_message_reaches_the_index (client : TelegramClient)
  (get_peer_channel : Z -> Res Tg.Entity) (get_dialogs : Res unit)
  (get_message : Tg.Entity -> Z -> Res (option Tg.Message))
  (minio : MinIOManager) (mid c : Z) (download : bool)
  (entity : Tg.Entity) (message : Tg.Message) (w : World) :
  start client = Ok tt ->
  get_peer_channel c = Ok entity ->
  get_message entity mid = Ok (Some message) ->
  negb download && carries_document_without_mime_type message = false ->
  exists r w' d,
    process_message_task client get_peer_channel get_dialogs get_message
      (Ok minio) es_node mid c download w = Some (Ok r, w')
    /\ MessageTask.status r = "processed"
    /\ MessageTask.elasticsearch_success r = Some 1
    /\ MessageTask.elasticsearch_failed r = Some 0
    /\ es_index w' !! (Py.str c +:+ "_" +:+ Py.str (Tg.id message)) = Some d
    /\ Es.channel_id d = c
    /\ Es.message_id d = Tg.id message
    /\ Es.text d = Py.or_empty (Tg.text message)
    /\ MessageTask.has_media r
       = Some (match Es.image_urls d with [] => false | _ => true end)
    /\ forall k,
         k <> Py.str c +:+ "_" +:+ Py.str (Tg.id message) ->
         es_index w' !! k = es_index w !! k.
Proof.
  intros Hstart Hpeer Hmsg Hreadable.
  unfold process_message_task. unfold try_except at 1. unfold bind at 1.
  set (mm := if download then Some minio else None).
  assert (Hmm :
    (if download
     then let* manager := lift (Ok minio) in ret (Some manager)
     else ret None) w = Some (Ok mm, w)) by (subst mm; destruct download; reflexivity).
  rewrite Hmm. clear Hmm.
  unfold bind at 1. rewrite Hstart. unfold lift at 1.
  unfold bind at 1. unfold try_except at 1. unfold bind at 1.
  destruct (fetch_message_reads client get_peer_channel get_dialogs get_message mid c w)
    as (fetched & -> & Hfetched & _).
  rewrite (Hfetched entity Hpeer), Hmsg. unfold ret at 1. unfold bind at 1.
  destruct (enhanced_outcome message c client download mm w)
    as (o & w1 & -> & Hidx & Hnone & Hrec).
  destruct o as [info|];
    [|destruct Hnone as [Hnone _]; specialize (Hnone eq_refl); subst mm;
      rewrite live_markers_of_task in Hnone; congruence].
  destruct (Hrec info eq_refl) as (Hc & Hid & Htext & _).
  unfold bind at 1.
  destruct (store_one_message es_node info w1) as (counts & i & -> & Hnode).
  destruct (Hnode eq_refl) as [-> ->]. unfold ret.
  exists
    {| MessageTask.status := "processed"; MessageTask.error := None;
       MessageTask.message_id := Some mid; MessageTask.channel_id := Some c;
       MessageTask.elasticsearch_success := Some 1;
       MessageTask.elasticsearch_failed := Some 0;
       MessageTask.has_media :=
         Some (match Models.image_urls info with [] => false | _ => true end) |},
    (set_es_index (<[Es.doc_id (bulk_action info) := model_dump info]> (es_index w1)) w1),
    (model_dump info).
  assert (Hdoc : Es.doc_id (bulk_action info)
                 = Py.str c +:+ "_" +:+ Py.str (Tg.id message))
    by (unfold bulk_action; cbn [Es.doc_id]; rewrite Hc, Hid; reflexivity).
  split; [reflexivity|].
  split; [reflexivity|]. split; [reflexivity|]. split; [reflexivity|].
  split.
  { destruct w1; cbn [es_index set_es_index]. rewrite <- Hdoc. apply lookup_insert_eq. }
  split; [exact Hc|]. split; [exact Hid|]. split; [exact Htext|].
  split; [reflexivity|].
  intros k Hk. destruct w1; cbn [es_index set_es_index] in *.
  rewrite lookup_insert_ne by (rewrite Hdoc; congruence). exact (f_equal (fun x => x !! k) Hidx).
Qed.

Lemma live_message_witness :
  exists r w' d,
    process_message_task (telethon_of (one_channel 5 (countdown 3)))
      (fun _ => Ok channel_entity) (Ok tt) (fun _ i => Ok (Some (photo_message i)))
      (Ok sample_minio) es_node 7 5 false blank_world = Some (Ok r, w')
    /\ MessageTask.status r = "processed"
    /\ MessageTask.elasticsearch_success r = Some 1
    /\ MessageTask.elasticsearch_failed r = Some 0
    /\ es_index w' !! (Py.str 5 +:+ "_" +:+ Py.str (Tg.id (photo_message 7))) = Some d
    /\ Es.channel_id d = 5%Z
    /\ Es.message_id d = Tg.id (photo_message 7)
    /\ Es.text d = Py.or_empty (Tg.text (photo_message 7))
    /\ MessageTask.has_media r
       = Some (match Es.image_urls d with [] => false | _ => true end)
    /\ forall k,
         k <> Py.str 5 +:+ "_" +:+ Py.str (Tg.id (photo_message 7)) ->
         es_index w' !! k = es_index blank_world !! k.
Proof.
  apply (live_message_reaches_the_index (telethon_of (one_channel 5 (countdown 3)))
           (fun _ => Ok channel_entity) (Ok tt) (fun _ i => Ok (Some (photo_message i)))
           sample_minio 7 5 false channel_entity (photo_message 7) blank_world);
    reflexivity.
Defined.

(** The message task on a fetched document without [mime_type], images
    off: the normaliser yields no record and the answer is
    ["processing_failed"]. *)
Lemma message_task_fails_on_document_without_mime_type :
  result_of
    (process_message_task (telethon_of (one_channel 5 []))
       (fun _ => Ok channel_entity) (Ok tt)
       (fun _ _ => Ok (Some anonymous_empty_document))
       (Ok sample_minio) es_node 7 5 false) blank_world
  = Some (Ok (MessageTask.only "processing_failed")).
Proof. reflexivity. Qed.
